(** * sharexhandler: the upload and download handlers of [router.go]

    A shallow embedding of [handleUploadRequest] and [handleGetRequest]
    together with the fragments of the Go runtime and of [net/http] that
    the two handlers exercise: string slicing with its bounds check,
    [strings.LastIndex], [make] with its length check, the
    [http.ResponseWriter] protocol (first status wins, headers are frozen
    when the status line is written, header keys are stored in canonical
    form), [http.Error], [panic] and [defer], and what the server puts on
    the connection for a handler that panics.

    Go strings and byte slices are both sequences of bytes; they are
    embedded as [string] (a list of 8-bit characters).  Go [int] values
    are embedded as [Z]. *)

From stdpp Require Import gmap strings list.
From Stdlib Require Import ZArith String Ascii Bool Lia.

Local Open Scope string_scope.
Local Open Scope Z_scope.

(* ===================================================================== *)
(** ** Go strings *)
(* ===================================================================== *)

Module GoStrings.

(** [len(s)] *)
Definition len (s : string) : Z := Z.of_nat (String.length s).

(** [strings.HasPrefix(s, prefix)] *)
Fixpoint HasPrefix (s prefix : string) {struct prefix} : bool :=
  match prefix, s with
  | EmptyString, _ => true
  | String _ _, EmptyString => false
  | String p prefix', String c s' =>
      if Ascii.eqb p c then HasPrefix s' prefix' else false
  end.

(** The scan behind [strings.LastIndex]: [i] is the index, in the whole
    string, of the first byte of [s].  The right-most match wins. *)
Fixpoint lastIndexFrom (i : Z) (s substr : string) : Z :=
  match s with
  | EmptyString => if HasPrefix s substr then i else -1
  | String _ s' =>
      let r := lastIndexFrom (i + 1) s' substr in
      if 0 <=? r then r
      else if HasPrefix s substr then i else -1
  end.

(** [strings.LastIndex(s, substr)]: index of the last instance of
    [substr] in [s], or [-1] when there is none. *)
Definition LastIndex (s substr : string) : Z := lastIndexFrom 0 s substr.

Fixpoint drop (n : nat) (s : string) : string :=
  match n, s with
  | O, _ => s
  | S _, EmptyString => EmptyString
  | S n', String _ s' => drop n' s'
  end.

Fixpoint take (n : nat) (s : string) : string :=
  match n, s with
  | O, _ => EmptyString
  | S _, EmptyString => EmptyString
  | S n', String c s' => String c (take n' s')
  end.

(** The slice expression [s[lo:]].  Go checks [0 <= lo <= len(s)] at run
    time and panics otherwise; [None] stands for that panic. *)
Definition sliceFrom (s : string) (lo : Z) : option string :=
  if (0 <=? lo) && (lo <=? len s) then Some (drop (Z.to_nat lo) s) else None.

(** The slice expression [s[:hi]], with the same run-time check. *)
Definition sliceTo (s : string) (hi : Z) : option string :=
  if (0 <=? hi) && (hi <=? len s) then Some (take (Z.to_nat hi) s) else None.

(** ASCII case folding of one byte. *)
Definition foldByte (c : ascii) : ascii :=
  let n := nat_of_ascii c in
  if (Nat.leb 65 n && Nat.leb n 90)%bool then ascii_of_nat (n + 32) else c.

(** [strings.EqualFold] restricted to ASCII: on strings of 7-bit bytes it
    agrees with the library function (Unicode simple folding reduces to
    the A-Z/a-z pairing there, up to the two non-ASCII code points that
    fold onto [k] and [s]).  The handlers below take the comparison as a
    parameter; this instance is the one used for concrete runs. *)
Fixpoint EqualFoldASCII (s t : string) : bool :=
  match s, t with
  | EmptyString, EmptyString => true
  | String a s', String b t' =>
      if Ascii.eqb (foldByte a) (foldByte b) then EqualFoldASCII s' t' else false
  | _, _ => false
  end.

(** Does the byte [c] occur in [s]? *)
Fixpoint contains (c : ascii) (s : string) : bool :=
  match s with
  | EmptyString => false
  | String a s' => if Ascii.eqb a c then true else contains c s'
  end.

End GoStrings.

(** The final dot-suffix of a name, dot included, as the specification
    words it: the part of the name that starts at its last dot.  There is
    none when the name has no dot. *)
Fixpoint dotSuffix (s : string) : option string :=
  match s with
  | EmptyString => None
  | String c s' =>
      match dotSuffix s' with
      | Some e => Some e
      | None => if Ascii.eqb c "." then Some s else None
      end
  end.

(** The name without its final dot-suffix (the bare id of a path segment). *)
Fixpoint dotStem (s : string) : option string :=
  match s with
  | EmptyString => None
  | String c s' =>
      match dotStem s' with
      | Some p => Some (String c p)
      | None => if Ascii.eqb c "." then Some EmptyString else None
      end
  end.

(* ===================================================================== *)
(** ** Errors and panics *)
(* ===================================================================== *)

(** A Go [error] value.  [io.EOF] is a sentinel that the handlers compare
    by identity; every other error is opaque to them. *)
Inductive error : Type :=
| EOF
| ErrorString (msg : string).

Definition isEOF (e : error) : bool :=
  match e with EOF => true | ErrorString _ => false end.

(** The value a goroutine panics with: an [error] handed to [panic], or a
    fault raised by the runtime itself. *)
Inductive PanicValue : Type :=
| PanicError (e : error)
| PanicRuntime (msg : string).

Definition sliceBoundsOutOfRange : PanicValue :=
  PanicRuntime "slice bounds out of range".

Definition makesliceLenOutOfRange : PanicValue :=
  PanicRuntime "makeslice: len out of range".

(** The runtime's allocation limit [maxAlloc], 2^48 bytes on 64-bit
    Linux: [make([]byte, n)] panics with [makeslice: len out of range]
    when [n] is negative or above it.  An allocation within the limit
    that the system cannot provide ends the process; no outcome of a
    handler describes that. *)
Definition maxAlloc : Z := 2 ^ 48.

(** The run-time check of [make([]byte, n)]. *)
Definition makesliceFails (n : Z) : bool := (n <? 0) || (maxAlloc <? n).

(** How a function call ends. *)
Inductive Exit (A : Type) : Type :=
| Normal (a : A)
| Panicking (v : PanicValue).
Arguments Normal {A} a.
Arguments Panicking {A} v.

(* ===================================================================== *)
(** ** net/http: headers and the response writer *)
(* ===================================================================== *)

(** One line feed, and one double quote. *)
Definition LF : string := String "010" EmptyString.
Definition DQUOTE : string := String "034" EmptyString.

(** [validHeaderFieldByte] of [net/textproto]: the token characters of a
    header field name (digits, letters and fifteen marks). *)
Definition validHeaderFieldByte (c : ascii) : bool :=
  let n := nat_of_ascii c in
  (Nat.leb 48 n && Nat.leb n 57) || (Nat.leb 65 n && Nat.leb n 90) ||
  (Nat.leb 97 n && Nat.leb n 122) ||
  existsb (Nat.eqb n) [33; 35; 36; 37; 38; 39; 42; 43; 45; 46; 94; 95; 96; 124; 126]%nat.

Fixpoint validHeaderField (s : string) : bool :=
  match s with
  | EmptyString => true
  | String c s' => validHeaderFieldByte c && validHeaderField s'
  end.

(** The case pass of [canonicalMIMEHeaderKey]: upper case for the first
    letter and for a letter after a dash, lower case for the others;
    [upper] says which of the two the next byte is due. *)
Fixpoint canonicalCase (upper : bool) (s : string) : string :=
  match s with
  | EmptyString => EmptyString
  | String c s' =>
      let n := nat_of_ascii c in
      let c' :=
        if upper && (Nat.leb 97 n && Nat.leb n 122) then ascii_of_nat (n - 32)
        else if negb upper && (Nat.leb 65 n && Nat.leb n 90) then ascii_of_nat (n + 32)
        else c in
      String c' (canonicalCase (Ascii.eqb c' "-") s')
  end.

(** [textproto.CanonicalMIMEHeaderKey]: a key made of token characters
    is put in canonical case; any other key is returned as it is. *)
Definition CanonicalMIMEHeaderKey (s : string) : string :=
  if validHeaderField s then canonicalCase true s else s.

(** [http.Header] and [textproto.MIMEHeader] are [map[string][]string];
    [Get] and [Set] go through the canonical form of the key.  The map
    with [string] keys used for [mux.Vars] and for media-type parameters
    is a plain [map[string]string]. *)
Definition Header_Get (h : gmap string (list string)) (key : string) : string :=
  match h !! CanonicalMIMEHeaderKey key with
  | Some (v :: _) => v
  | _ => EmptyString
  end.

Definition Header_Set (h : gmap string (list string)) (key value : string)
  : gmap string (list string) :=
  <[CanonicalMIMEHeaderKey key := [value]]> h.

(** Indexing a [map[string]string]: the zero value when the key is absent. *)
Definition index (m : gmap string string) (key : string) : string :=
  default EmptyString (m !! key).

Definition StatusOK : Z := 200.
Definition StatusNotModified : Z := 304.
Definition StatusBadRequest : Z := 400.
Definition StatusNotFound : Z := 404.
Definition StatusInternalServerError : Z := 500.

(** The state behind an [http.ResponseWriter].
    - [rw_header] is the live map returned by [w.Header()];
    - [rw_status] is [None] until the status line is written, then the
      status that was sent;
    - [rw_sent] is the header block that went out with the status line;
    - [rw_body] is the body written so far;
    - [rw_faults] lists what the connection answers to the coming calls of
      [Write] ([Some e]: the call fails with [e]); past its end every
      write succeeds. *)
Record ResponseWriter : Type := mkResponseWriter {
  rw_header : gmap string (list string);
  rw_status : option Z;
  rw_sent : gmap string (list string);
  rw_body : string;
  rw_faults : list (option error)
}.

(** A writer as the server hands it to a handler. *)
Definition freshResponseWriter : ResponseWriter :=
  mkResponseWriter ∅ None ∅ EmptyString [].

(** [w.Header().Set(key, value)] *)
Definition rw_HeaderSet (key value : string) (w : ResponseWriter) : ResponseWriter :=
  mkResponseWriter (Header_Set (rw_header w) key value)
                   (rw_status w) (rw_sent w) (rw_body w) (rw_faults w).

(** [w.WriteHeader(code)]: the first call sends the status line with the
    headers as they stand; a later call is superfluous and changes
    nothing. *)
Definition rw_WriteHeader (code : Z) (w : ResponseWriter) : ResponseWriter :=
  match rw_status w with
  | Some _ => w
  | None =>
      mkResponseWriter (rw_header w) (Some code) (rw_header w)
                       (rw_body w) (rw_faults w)
  end.

(** [w.Write(data)]: sends status 200 first when no status went out yet,
    then the bytes; the error returned is the connection's. *)
Definition rw_Write (data : string) (w : ResponseWriter)
  : option error * ResponseWriter :=
  let w1 := rw_WriteHeader StatusOK w in
  match rw_faults w1 with
  | Some e :: fs =>
      (Some e, mkResponseWriter (rw_header w1) (rw_status w1) (rw_sent w1)
                                (rw_body w1) fs)
  | None :: fs =>
      (None, mkResponseWriter (rw_header w1) (rw_status w1) (rw_sent w1)
                              (rw_body w1 ++ data) fs)
  | [] =>
      (None, mkResponseWriter (rw_header w1) (rw_status w1) (rw_sent w1)
                              (rw_body w1 ++ data) [])
  end.

(** Nothing of the response has left yet. *)
Definition rw_untouched (w : ResponseWriter) : Prop :=
  rw_status w = None /\ rw_body w = EmptyString.

(* ===================================================================== *)
(** ** The storage collaborator *)
(* ===================================================================== *)

(** Modelled from the spec: the [StorageEntry] interface is declared
    outside [router.go]; its accessors ([GetId], [GetFilename],
    [GetContentType], [GetETagValue]) read the four pieces of metadata the
    data model lists, and [SetFilename] / [SetContentType] overwrite
    theirs. *)
Record StorageEntry : Type := mkStorageEntry {
  GetId : string;
  GetFilename : string;
  GetContentType : string;
  GetETagValue : string
}.

Definition SetContentType (e : StorageEntry) (v : string) : StorageEntry :=
  mkStorageEntry (GetId e) (GetFilename e) v (GetETagValue e).

Definition SetFilename (e : StorageEntry) (v : string) : StorageEntry :=
  mkStorageEntry (GetId e) v (GetContentType e) (GetETagValue e).

(** Modelled from the spec: the write sink returned by [GetWriter] (an
    [io.WriteCloser] declared outside [router.go]).  [wr_faults] lists what
    the sink answers to the coming calls of [Write], as for the response
    writer; [wr_chunks] are the chunks it accepted, in order; [wr_closed]
    counts the calls of [Close]. *)
Record Writer : Type := mkWriter {
  wr_faults : list (option error);
  wr_chunks : list string;
  wr_closed : nat
}.

(** [Write] on a sink: it takes the chunk, or fails as [wr_faults] says. *)
Definition wr_Write (data : string) (wr : Writer) : option error * Writer :=
  match wr_faults wr with
  | Some e :: fs => (Some e, mkWriter fs (wr_chunks wr) (wr_closed wr))
  | None :: fs => (None, mkWriter fs (wr_chunks wr ++ [data]) (wr_closed wr))
  | [] => (None, mkWriter [] (wr_chunks wr ++ [data]) (wr_closed wr))
  end.

(** [Close] on a sink. *)
Definition wr_Close (wr : Writer) : Writer :=
  mkWriter (wr_faults wr) (wr_chunks wr) (S (wr_closed wr)).

(** The sink after a run of [Write] calls. *)
Definition wr_WriteAll (chunks : list string) (wr : Writer) : Writer :=
  fold_left (fun wr data => snd (wr_Write data wr)) chunks wr.

(** Modelled from the spec: the read source returned by [GetReader]
    (declared outside [router.go]), given by what its successive calls of
    [Read] deliver: some bytes and possibly an error.  Once the list is
    used up [Read] answers [0, io.EOF]. *)
Record Reader : Type := mkReader {
  rd_script : list (string * option error)
}.

(** Modelled from the spec: the [Storage] interface with the fallible
    operations of its entries (all declared outside [router.go]).  Each
    field is what the backend answers to the call of that name. *)
Record Storage : Type := mkStorage {
  NewStorageEntry : StorageEntry;
  Save : StorageEntry -> option error;
  GetWriter : StorageEntry -> error + Writer;
  Update : StorageEntry -> option error;
  LoadStorageEntry : string -> bool * option error * StorageEntry;
  GetReader : StorageEntry -> error + Reader
}.

(* ===================================================================== *)
(** ** Multipart bodies *)
(* ===================================================================== *)

(** A [*multipart.Part]: its MIME header, the file name its
    Content-Disposition carries ([part.FileName()]), and what reading it to
    the end gives: the bytes, and the error that cut the read short if any. *)
Record Part : Type := mkPart {
  part_Header : gmap string (list string);
  FileName : string;
  part_data : string;
  part_err : option error
}.

(** A [*multipart.Reader], given by what the coming calls of [NextPart]
    return; once the list is used up [NextPart] returns [io.EOF]. *)
Definition NextPart (r : list (Part + error)) : (Part + error) * list (Part + error) :=
  match r with
  | [] => (inr EOF, [])
  | x :: r' => (x, r')
  end.

(** [io.Copy(buf, part)] into a [bytes.Buffer] that was just reset: the
    buffer ends up holding every byte read, and the error is the part's. *)
Definition io_Copy (part : Part) : string * option error :=
  (part_data part, part_err part).

(* ===================================================================== *)
(** ** Handler computations *)
(* ===================================================================== *)

(** What a handler invocation does to its collaborators, call by call. *)
Inductive Event : Type :=
| EvOutgoing                          (* OutgoingFunction(w, req) *)
| EvHeaderSet (key value : string)    (* w.Header().Set(key, value) *)
| EvWriteHeader (code : Z)            (* w.WriteHeader(code) *)
| EvWrite (data : string)             (* w.Write(data) *)
| EvNewStorageEntry                   (* Storage.NewStorageEntry() *)
| EvSave                              (* entry.Save() *)
| EvGetWriter                         (* entry.GetWriter() *)
| EvSetContentType (v : string)       (* entry.SetContentType(v) *)
| EvSetFilename (v : string)          (* entry.SetFilename(v) *)
| EvSinkWrite (data : string)         (* writer.Write(data) *)
| EvSinkClose                         (* writer.Close() *)
| EvUpdate (e : StorageEntry)         (* entry.Update() *)
| EvLoadStorageEntry (id : string)    (* Storage.LoadStorageEntry(id) *)
| EvGetReader                         (* entry.GetReader() *)
| EvSourceRead (size : Z)             (* reader.Read(buf), len(buf) = size *)
| EvSourceClose.                      (* reader.Close() *)

(** The objects one invocation works on: the response writer [w], the
    write sink once it is acquired, and the log of calls made so far. *)
Record World : Type := mkWorld {
  w : ResponseWriter;
  sink : option Writer;
  trace : list Event
}.

(** A computation that updates the world and either returns or panics. *)
Definition Go (A : Type) : Type := World -> Exit A * World.

Definition ret {A : Type} (a : A) : Go A := fun σ => (Normal a, σ).

Definition bind {A B : Type} (c : Go A) (k : A -> Go B) : Go B :=
  fun σ =>
    match c σ with
    | (Normal a, σ') => k a σ'
    | (Panicking v, σ') => (Panicking v, σ')
    end.

(** [panic(v)] *)
Definition panic {A : Type} (v : PanicValue) : Go A :=
  fun σ => (Panicking v, σ).

(** [defer d; body]: [d] runs when [body] is left, whether it returned or
    panicked, and the way [body] ended is kept. *)
Definition defer {A : Type} (d : Go unit) (body : Go A) : Go A :=
  fun σ =>
    let (r, σ1) := body σ in
    let (_, σ2) := d σ1 in
    (r, σ2).

Declare Scope go_scope.
Delimit Scope go_scope with go.
Notation "x <- c ;; k" := (bind c (fun x => k))
  (at level 100, c at next level, right associativity) : go_scope.
Notation "c ;; k" := (bind c (fun _ => k))
  (at level 100, right associativity) : go_scope.
Local Open Scope go_scope.

Definition emit (e : Event) : Go unit :=
  fun σ => (Normal tt, mkWorld (w σ) (sink σ) (trace σ ++ [e])).

Definition onResponse (f : ResponseWriter -> ResponseWriter) : Go unit :=
  fun σ => (Normal tt, mkWorld (f (w σ)) (sink σ) (trace σ)).

(** [w.Header().Set(key, value)] *)
Definition w_Header_Set (key value : string) : Go unit :=
  emit (EvHeaderSet key value) ;; onResponse (rw_HeaderSet key value).

(** [w.WriteHeader(code)] *)
Definition w_WriteHeader (code : Z) : Go unit :=
  emit (EvWriteHeader code) ;; onResponse (rw_WriteHeader code).

(** [w.Write(data)], returning its error. *)
Definition w_Write (data : string) : Go (option error) :=
  emit (EvWrite data) ;;
  fun σ =>
    let (err, w') := rw_Write data (w σ) in
    (Normal err, mkWorld w' (sink σ) (trace σ)).

(** [http.Error(w, msg, code)]: two header fields, the status, and the
    message followed by a line feed ([fmt.Fprintln]); the result of that
    write is dropped.  On a response whose status line is out, the
    status call is superfluous and the message is appended to the body.
    Releases of Go from 1.23 on delete the Content-Length field first; the
    handlers never set that field and nothing below reads it. *)
Definition http_Error (msg : string) (code : Z) : Go unit :=
  w_Header_Set "Content-Type" "text/plain; charset=utf-8" ;;
  w_Header_Set "X-Content-Type-Options" "nosniff" ;;
  w_WriteHeader code ;;
  _ <- w_Write (msg ++ LF) ;;
  ret tt.

(** [http.NotFound(w, req)] *)
Definition http_NotFound : Go unit :=
  http_Error "404 page not found" StatusNotFound.

(** [writer.Write(data)] on the acquired sink, returning its error. *)
Definition writer_Write (data : string) : Go (option error) :=
  emit (EvSinkWrite data) ;;
  fun σ =>
    match sink σ with
    | None => (Normal None, σ)
    | Some wr =>
        let (err, wr') := wr_Write data wr in
        (Normal err, mkWorld (w σ) (Some wr') (trace σ))
    end.

(** [writer.Close()] on the acquired sink. *)
Definition writer_Close : Go unit :=
  emit EvSinkClose ;;
  fun σ => (Normal tt, mkWorld (w σ) (option_map wr_Close (sink σ)) (trace σ)).

(** [var dispositionValueFormat] applied by [fmt.Sprintf] to a disposition
    kind and a file name: [kind; filename=] and the name between double
    quotes. *)
Definition dispositionValueFormat (kind filename : string) : string :=
  kind ++ "; filename=" ++ DQUOTE ++ filename ++ DQUOTE.

(** Path configuration: all paths have to start with a slash. *)
Record PathConfiguration : Type := mkPathConfiguration {
  UploadPath : string;
  GetPath : string
}.

(** An incoming [*http.Request] as the handlers look at it: its header,
    its body, and the route variables [mux.Vars(req)]. *)
Record Request : Type := mkRequest {
  req_Header : gmap string (list string);
  req_Body : string;
  req_Vars : gmap string string
}.

(** The main structure of the package. *)
Record ShareXHandler : Type := mkShareXHandler {
  PathConfiguration_ : PathConfiguration;
  Storage_ : Storage;
  OutgoingFunction : option (ResponseWriter -> Request -> ResponseWriter);
  BufferSize : Z;
  Path : string;
  ProtocolHost : string;
  WhitelistedContentTypes : list string
}.

(** [if shareXHandler.OutgoingFunction != nil { ...(w, req) }] *)
Definition callOutgoingFunction (h : ShareXHandler) (req : Request) : Go unit :=
  match OutgoingFunction h with
  | None => ret tt
  | Some f => emit EvOutgoing ;; onResponse (fun w => f w req)
  end.

(** The response writer as the handler logic finds it. *)
Definition afterOutgoing (h : ShareXHandler) (req : Request) (w0 : ResponseWriter)
  : ResponseWriter :=
  match OutgoingFunction h with
  | None => w0
  | Some f => f w0 req
  end.

(** The call [http.Error(w, "500 an internal error occurred",
    http.StatusInternalServerError)] that precedes every [panic] the
    handlers raise themselves. *)
Definition internalError : Go unit :=
  http_Error "500 an internal error occurred" StatusInternalServerError.

(** The sink [writer] that [entry.GetWriter()] returned becomes the sink
    of the invocation. *)
Definition acquired (writer : Writer) : Go unit :=
  fun σ => (Normal tt, mkWorld (w σ) (Some writer) (trace σ)).

(* ===================================================================== *)
(** ** The two handlers *)
(* ===================================================================== *)

Section Handlers.

(** Library functions the handlers call and whose results they only
    branch on: [mime.ParseMediaType] (media type and parameters, or an
    error), [multipart.NewReader] (the parts a body holds for a given
    boundary) and [strings.EqualFold]. *)
Variable ParseMediaType : string -> error + (string * gmap string string).
Variable multipart_NewReader : string -> string -> list (Part + error).
Variable EqualFold : string -> string -> bool.

(** The copy loop of [handleUploadRequest] (the [for ; ; ] statement),
    entered with the result [cur] of the last [NextPart] and the rest of
    the multipart reader.  It returns the value [partErr] holds when the
    loop is left through [break]. *)
Fixpoint copyParts (cur : Part + error) (multipartReader : list (Part + error))
  {struct multipartReader} : Go error :=
  match cur with
  | inl part =>
      (* partErr == nil *)
      let '(buf, copyErr) := io_Copy part in
      match copyErr with
      | Some err => internalError ;; panic (PanicError err)
      | None =>
          _ <- writer_Write buf ;;
          match multipartReader with
          | next :: rest => copyParts next rest
          | [] =>
              (* NextPart returns io.EOF: the next round breaks *)
              ret EOF
          end
      end
  | inr partErr =>
      if isEOF partErr then ret partErr
      else internalError ;; panic (PanicError partErr)
  end.

(** This method handles incoming POST upload request. *)
Definition handleUploadRequest (shareXHandler : ShareXHandler) (req : Request)
  : Go unit :=
  callOutgoingFunction shareXHandler req ;;
  match ParseMediaType (Header_Get (req_Header req) "Content-Type") with
  | inl _ => http_Error "400 bad request" StatusBadRequest
  | inr (_, params) =>
      let multipartReader :=
        multipart_NewReader (req_Body req) (index params "boundary") in
      emit EvNewStorageEntry ;;
      let entry := NewStorageEntry (Storage_ shareXHandler) in
      emit EvSave ;;
      match Save (Storage_ shareXHandler) entry with
      | Some err => internalError ;; panic (PanicError err)
      | None =>
          let id := GetId entry in
          emit EvGetWriter ;;
          match GetWriter (Storage_ shareXHandler) entry with
          | inl err => internalError ;; panic (PanicError err)
          | inr writer =>
              acquired writer ;;
              defer writer_Close
                (let '(first, multipartReader) := NextPart multipartReader in
                 match first with
                 | inr partErr => internalError ;; panic (PanicError partErr)
                 | inl part =>
                     let contentType := Header_Get (part_Header part) "Content-Type" in
                     emit (EvSetContentType contentType) ;;
                     let entry := SetContentType entry contentType in
                     emit (EvSetFilename (FileName part)) ;;
                     let entry := SetFilename entry (FileName part) in
                     partErr <- copyParts (inl part) multipartReader ;;
                     emit (EvUpdate entry) ;;
                     match Update (Storage_ shareXHandler) entry with
                     | Some _ => internalError ;; panic (PanicError partErr)
                     | None =>
                         w_WriteHeader 200 ;;
                         match GoStrings.sliceFrom (GetFilename entry)
                                 (GoStrings.LastIndex (GetFilename entry) ".") with
                         | None => panic sliceBoundsOutOfRange
                         | Some extension =>
                             let url := ProtocolHost shareXHandler ++ id ++ extension in
                             _ <- w_Write url ;;
                             ret tt
                         end
                     end
                 end)
          end
      end
  end.

(** The [for _, value := range WhitelistedContentTypes] statement of
    [handleGetRequest]: [true] when some element is equal to the content
    type under [EqualFold] (the jump to [inlinePassed]). *)
Fixpoint rangeWhitelist (whitelist : list string) (contentType : string) : bool :=
  match whitelist with
  | [] => false
  | value :: rest =>
      if EqualFold value contentType then true
      else rangeWhitelist rest contentType
  end.

(** The read loop of [handleGetRequest] over a buffer of [size] bytes,
    by what the coming calls of [reader.Read(buf)] deliver.  A call
    never delivers more than the buffer holds. *)
Fixpoint readLoop (size : Z) (script : list (string * option error)) : Go unit :=
  emit (EvSourceRead size) ;;
  match script with
  | [] =>
      (* n == 0, err == io.EOF *)
      ret tt
  | (data, err) :: rest =>
      let chunk := GoStrings.take (Z.to_nat size) data in
      match err with
      | Some (ErrorString msg) =>
          internalError ;; panic (PanicError (ErrorString msg))
      | _ =>
          if GoStrings.len chunk =? 0 then ret tt
          else
            werr <- w_Write chunk ;;
            match werr with
            | Some e => panic (PanicError e)
            | None => readLoop size rest
            end
      end
  end.

(** This method handles get requests and shares files. *)
Definition handleGetRequest (shareXHandler : ShareXHandler) (req : Request)
  : Go unit :=
  callOutgoingFunction shareXHandler req ;;
  let id := index (req_Vars req) "id" in
  match GoStrings.sliceTo id (GoStrings.LastIndex id ".") with
  | None => panic sliceBoundsOutOfRange
  | Some id =>
      emit (EvLoadStorageEntry id) ;;
      let '(success, err, entry) := LoadStorageEntry (Storage_ shareXHandler) id in
      match err with
      | Some err => internalError ;; panic (PanicError err)
      | None =>
          if negb success then http_NotFound
          else if String.eqb (Header_Get (req_Header req) "If-None-Match")
                             (GetETagValue entry)
          then w_WriteHeader StatusNotModified
          else
            emit EvGetReader ;;
            match GetReader (Storage_ shareXHandler) entry with
            | inl err => internalError ;; panic (PanicError err)
            | inr reader =>
                (if rangeWhitelist (WhitelistedContentTypes shareXHandler)
                      (GetContentType entry)
                 then w_Header_Set "Content-Disposition"
                        (dispositionValueFormat "inline" (GetFilename entry))
                 else w_Header_Set "Content-Disposition"
                        (dispositionValueFormat "attachment" (GetFilename entry))) ;;
                w_Header_Set "Content-Type" (GetContentType entry) ;;
                w_Header_Set "ETag" (GetETagValue entry) ;;
                w_WriteHeader StatusOK ;;
                if makesliceFails (BufferSize shareXHandler)
                then panic makesliceLenOutOfRange
                else readLoop (BufferSize shareXHandler) (rd_script reader)
            end
      end
  end.

(** Serving one request: the handler runs on the server's response
    writer with no sink acquired and an empty log. *)
Definition serve (handler : Go unit) (w0 : ResponseWriter) : Exit unit * World :=
  handler (mkWorld w0 None []).

End Handlers.

(* ===================================================================== *)
(** ** Observing an invocation *)
(* ===================================================================== *)

(** The calls a handler makes on the storage collaborator and on the
    sink and source it hands out. *)
Definition isStorageCall (ev : Event) : bool :=
  match ev with
  | EvOutgoing | EvHeaderSet _ _ | EvWriteHeader _ | EvWrite _ => false
  | _ => true
  end.

(** The calls that put bytes of the body on the wire. *)
Definition isBodyWrite (ev : Event) : bool :=
  match ev with
  | EvWrite _ => true
  | _ => false
  end.

(** The chunks handed to the write sink, in order. *)
Fixpoint sinkWrites (t : list Event) : list string :=
  match t with
  | [] => []
  | EvSinkWrite data :: t' => data :: sinkWrites t'
  | _ :: t' => sinkWrites t'
  end.

(** The log entry of the per-request hook, when one is configured. *)
Definition hookCalls (h : ShareXHandler) : list Event :=
  match OutgoingFunction h with
  | None => []
  | Some _ => [EvOutgoing]
  end.

(** The connection takes the next write. *)
Definition rw_accepts (w : ResponseWriter) : Prop :=
  match rw_faults w with
  | Some _ :: _ => False
  | _ => True
  end.

(** The log of a call of [http.Error]. *)
Definition errorCalls (msg : string) (code : Z) : list Event :=
  [ EvHeaderSet "Content-Type" "text/plain; charset=utf-8";
    EvHeaderSet "X-Content-Type-Options" "nosniff";
    EvWriteHeader code;
    EvWrite (msg ++ LF) ].

(** The parts a multipart reader delivers before its stream ends (at the
    end of the list or at the first error). *)
Fixpoint partsOf (r : list (Part + error)) : list Part :=
  match r with
  | inl p :: r' => p :: partsOf r'
  | _ => []
  end.

(** Every part of the stream can be read to its end, and the stream ends
    cleanly: [NextPart] fails with nothing but [io.EOF]. *)
Fixpoint readsCleanly (r : list (Part + error)) : bool :=
  match r with
  | [] => true
  | inl p :: r' =>
      match part_err p with
      | None => readsCleanly r'
      | Some _ => false
      end
  | inr e :: _ => isEOF e
  end.

(** The entry as [handleUploadRequest] finalizes it: the allocated entry
    with the content type and the file name of the first part recorded. *)
Definition recordedEntry (st : Storage) (part : Part) : StorageEntry :=
  SetFilename
    (SetContentType (NewStorageEntry st) (Header_Get (part_Header part) "Content-Type"))
    (FileName part).

(** An upload that goes through: the media type parses to [mediatype] and
    [params], the entry is saved, the sink [writer] is acquired, the body
    starts with [part] and every part is copied, and the entry is
    finalized. *)
Definition uploadGoesThrough
    (ParseMediaType : string -> error + (string * gmap string string))
    (multipart_NewReader : string -> string -> list (Part + error))
    (h : ShareXHandler) (req : Request)
    (mediatype : string) (params : gmap string string)
    (writer : Writer) (part : Part) (rest : list (Part + error)) : Prop :=
  ParseMediaType (Header_Get (req_Header req) "Content-Type") = inr (mediatype, params) /\
  Save (Storage_ h) (NewStorageEntry (Storage_ h)) = None /\
  GetWriter (Storage_ h) (NewStorageEntry (Storage_ h)) = inr writer /\
  multipart_NewReader (req_Body req) (index params "boundary") = inl part :: rest /\
  readsCleanly (inl part :: rest) = true /\
  Update (Storage_ h) (recordedEntry (Storage_ h) part) = None.

(** The log of such an upload up to the finalization of the entry. *)
Definition uploadCalls (h : ShareXHandler) (part : Part) (rest : list (Part + error))
  : list Event :=
  hookCalls h ++
  [ EvNewStorageEntry; EvSave; EvGetWriter;
    EvSetContentType (Header_Get (part_Header part) "Content-Type");
    EvSetFilename (FileName part) ] ++
  map EvSinkWrite (map part_data (partsOf (inl part :: rest))) ++
  [ EvUpdate (recordedEntry (Storage_ h) part) ].

(** Every chunk handed to the write sink fits a buffer of [size] bytes. *)
Definition chunksBounded (size : Z) (t : list Event) : Prop :=
  Forall (fun data => GoStrings.len data <= size) (sinkWrites t).

(** A computation whose log entries all satisfy [P], from any world. *)
Definition emitsOnly {A : Type} (P : Event -> Prop) (c : Go A) : Prop :=
  forall σ, exists post, trace (snd (c σ)) = (trace σ ++ post)%list /\ Forall P post.

Definition notSourceClose (ev : Event) : Prop := ev <> EvSourceClose.

(** The same handler with another streaming buffer size. *)
Definition withBufferSize (size : Z) (h : ShareXHandler) : ShareXHandler :=
  mkShareXHandler (PathConfiguration_ h) (Storage_ h) (OutgoingFunction h)
                  size (Path h) (ProtocolHost h) (WhitelistedContentTypes h).

(* ===================================================================== *)
(** ** A concrete deployment *)
(* ===================================================================== *)

Module Demo.

Definition CRLF : string := String "013" LF.

(** A [multipart/form-data] body holding one file. *)
Definition formBody (boundary filename contentType data : string) : string :=
  "--" ++ boundary ++ CRLF ++
  "Content-Disposition: form-data; name=" ++ DQUOTE ++ "file" ++ DQUOTE ++
  "; filename=" ++ DQUOTE ++ filename ++ DQUOTE ++ CRLF ++
  "Content-Type: " ++ contentType ++ CRLF ++ CRLF ++
  data ++ CRLF ++ "--" ++ boundary ++ "--" ++ CRLF.

(** The part such a body holds. *)
Definition filePart (filename contentType data : string) : Part :=
  mkPart
    (<["Content-Disposition" :=
         ["form-data; name=" ++ DQUOTE ++ "file" ++ DQUOTE ++
          "; filename=" ++ DQUOTE ++ filename ++ DQUOTE]]>
       (<["Content-Type" := [contentType]]> ∅))
    filename data None.

Definition formContentType : string := "multipart/form-data; boundary=xyz".

(** [mime.ParseMediaType] on the header values used in this module: the
    form content type above, and values without a media type. *)
Definition ParseMediaType (v : string) : error + (string * gmap string string) :=
  if String.eqb v formContentType
  then inr ("multipart/form-data", <["boundary" := "xyz"]> ∅)
  else inl (ErrorString "mime: no media type").

(** The files uploaded in this module: name, content type, bytes. *)
Definition files : list (string * string * string) :=
  [ ("photo.png", "image/png", "PNGDATA");
    ("README", "text/plain", "hello") ].

(** [multipart.NewReader] on the bodies [formBody] builds from [files]:
    one part, then the end of the stream. *)
Definition NewReader (body boundary : string) : list (Part + error) :=
  match List.find (fun f : string * string * string =>
                     let '(name, ctype, data) := f in
                     String.eqb body (formBody boundary name ctype data)) files with
  | Some (name, ctype, data) => [inl (filePart name ctype data)]
  | None => []
  end.

Definition EqualFold : string -> string -> bool := GoStrings.EqualFoldASCII.

Definition blankEntry (id : string) : StorageEntry :=
  mkStorageEntry id EmptyString EmptyString EmptyString.

Definition goodWriter : Writer := mkWriter [] [] 0.

(** A sink whose first [Write] fails. *)
Definition fullDiskWriter : Writer :=
  mkWriter [Some (ErrorString "no space left on device")] [] 0.

(** A backend that allocates the id [a1b2c3], answers the fallible calls
    as told, and resolves the ids of [stored]. *)
Definition storage (saveErr : option error) (writer : error + Writer)
    (updateErr : option error) (stored : list StorageEntry)
    (reader : error + Reader) : Storage :=
  mkStorage (blankEntry "a1b2c3")
            (fun _ => saveErr) (fun _ => writer) (fun _ => updateErr)
            (fun id =>
               match List.find (fun e => String.eqb (GetId e) id) stored with
               | Some e => (true, None, e)
               | None => (false, None, blankEntry EmptyString)
               end)
            (fun _ => reader).

Definition paths : PathConfiguration := mkPathConfiguration "/upload" "/get/{id}".

Definition handler (st : Storage) (bufferSize : Z) : ShareXHandler :=
  mkShareXHandler paths st None bufferSize "/" "http://localhost:8080/"
                  ["image/png"].

Definition uploadStorage : Storage :=
  storage None (inr goodWriter) None [] (inl (ErrorString "not readable")).

Definition postRequest (contentType body : string) : Request :=
  mkRequest (<["Content-Type" := [contentType]]> ∅) body ∅.

Definition getRequest (header : gmap string (list string)) (id : string) : Request :=
  mkRequest header EmptyString (<["id" := id]> ∅).

Definition photoEntry : StorageEntry :=
  mkStorageEntry "a1b2c3" "photo.png" "Image/PNG" "etag-1".

Definition photoReader : Reader :=
  mkReader [("PNGD", None); ("ATA", None)].

Definition photoUpload : Request :=
  postRequest formContentType (formBody "xyz" "photo.png" "image/png" "PNGDATA").

Definition readmeUpload : Request :=
  postRequest formContentType (formBody "xyz" "README" "text/plain" "hello").

(** A POST that carries no Content-Type header. *)
Definition untypedUpload : Request :=
  mkRequest ∅ (formBody "xyz" "photo.png" "image/png" "PNGDATA") ∅.

Definition boundaryParams : gmap string string := <["boundary" := "xyz"]> ∅.

(** A backend that holds one finalized entry and hands out [reader]. *)
Definition downloadStorage (e : StorageEntry) (reader : error + Reader) : Storage :=
  storage None (inr goodWriter) None [e] reader.

Definition photoGet : Request := getRequest ∅ "a1b2c3.png".

Definition conditionalGet : Request :=
  getRequest (<["If-None-Match" := ["etag-1"]]> ∅) "a1b2c3.png".

(** A path segment without extension. *)
Definition dotlessGet : Request := getRequest ∅ "a1b2c3".

(** An entry whose backend computes no ETag value. *)
Definition untaggedEntry : StorageEntry :=
  mkStorageEntry "a1b2c3" "photo.png" "image/png" EmptyString.

Definition upload (h : ShareXHandler) (req : Request) : Exit unit * World :=
  serve (handleUploadRequest ParseMediaType NewReader h req) freshResponseWriter.

Definition download (h : ShareXHandler) (req : Request) : Exit unit * World :=
  serve (handleGetRequest EqualFold h req) freshResponseWriter.

End Demo.

(* ===================================================================== *)
(** ** Further observations on the two handlers *)
(* ===================================================================== *)

(** [bufferBeforeChunkingSize] of [net/http]: the server keeps what a
    handler writes in a buffer of this many bytes, and composes the
    status line and the header block when the first bytes leave that
    buffer. *)
Definition bufferBeforeChunkingSize : Z := 2048.

(** The status line [net/http]'s HTTP/1 server has put on the connection
    once the handler is done, for a handler that never calls [Flush]
    (neither handler of [router.go] does).
    - The handler returns: [finishRequest] flushes the buffer, with
      status 200 when the handler wrote none.
    - The handler panics: [conn.serve] recovers, logs and closes the
      connection without finishing the response.  What is still in the
      buffer is dropped, and the status line is on the connection only
      if the body written went past the buffer's size before. *)
Definition statusOnConnection (out : Exit unit * World) : option Z :=
  let r := w (snd out) in
  match fst out with
  | Normal _ =>
      match rw_status r with
      | Some code => Some code
      | None => Some StatusOK
      end
  | Panicking _ =>
      if bufferBeforeChunkingSize <? GoStrings.len (rw_body r)
      then rw_status r
      else None
  end.

(** What [http.Error(w, msg, code)] makes of a response. *)
Definition rw_Error (msg : string) (code : Z) (r : ResponseWriter) : ResponseWriter :=
  snd (rw_Write (msg ++ LF)
         (rw_WriteHeader code
            (rw_HeaderSet "X-Content-Type-Options" "nosniff"
               (rw_HeaderSet "Content-Type" "text/plain; charset=utf-8" r)))).

(** The body of the answer to an internal fault. *)
Definition internalErrorText : string := "500 an internal error occurred" ++ LF.

(** The log of the call of [http.Error] for an internal fault. *)
Definition internalErrorCalls : list Event :=
  errorCalls "500 an internal error occurred" StatusInternalServerError.

(** An upload that gets as far as its sink: the media type parses, the
    entry is saved and [GetWriter] returns [writer]. *)
Definition uploadAcquiresSink
    (ParseMediaType : string -> error + (string * gmap string string))
    (h : ShareXHandler) (req : Request)
    (mediatype : string) (params : gmap string string) (writer : Writer) : Prop :=
  ParseMediaType (Header_Get (req_Header req) "Content-Type") = inr (mediatype, params) /\
  Save (Storage_ h) (NewStorageEntry (Storage_ h)) = None /\
  GetWriter (Storage_ h) (NewStorageEntry (Storage_ h)) = inr writer.

(** The log of such an upload up to the acquisition of the sink. *)
Definition sinkAcquiredCalls (h : ShareXHandler) : list Event :=
  hookCalls h ++ [EvNewStorageEntry; EvSave; EvGetWriter].

(** The error the copy loop stops on, if any: the first failed read of a
    part, or the first error of [NextPart] other than [io.EOF]. *)
Fixpoint firstFault (r : list (Part + error)) : option error :=
  match r with
  | [] => None
  | inl p :: r' =>
      match part_err p with
      | Some e => Some e
      | None => firstFault r'
      end
  | inr e :: _ => if isEOF e then None else Some e
  end.

(** The parts read in full before the stream ends or fails. *)
Fixpoint copiedParts (r : list (Part + error)) : list Part :=
  match r with
  | inl p :: r' =>
      match part_err p with
      | Some _ => []
      | None => p :: copiedParts r'
      end
  | _ => []
  end.

(** Concatenation of byte strings. *)
Definition join (chunks : list string) : string :=
  fold_right String.append EmptyString chunks.

(** A call of [Read] that delivers at least one byte, no more than a
    buffer of [size] bytes holds, and no error but possibly [io.EOF]. *)
Definition cleanRead (size : Z) (r : string * option error) : bool :=
  (0 <? GoStrings.len (fst r)) && (GoStrings.len (fst r) <=? size) &&
  match snd r with
  | Some (ErrorString _) => false
  | _ => true
  end.

(** The log of a read loop over clean reads that ends with the stream. *)
Definition streamCalls (size : Z) (chunks : list string) : list Event :=
  flat_map (fun chunk => [EvSourceRead size; EvWrite chunk]) chunks ++ [EvSourceRead size].

(** The Content-Disposition value [handleGetRequest] computes. *)
Definition dispositionOf (EqualFold : string -> string -> bool)
    (h : ShareXHandler) (entry : StorageEntry) : string :=
  dispositionValueFormat
    (if rangeWhitelist EqualFold (WhitelistedContentTypes h) (GetContentType entry)
     then "inline" else "attachment")
    (GetFilename entry).

(** The response as [handleGetRequest] leaves it when it enters the read
    loop: the three header fields set, status 200 written. *)
Definition streamingResponse (EqualFold : string -> string -> bool)
    (h : ShareXHandler) (entry : StorageEntry) (r : ResponseWriter) : ResponseWriter :=
  rw_WriteHeader StatusOK
    (rw_HeaderSet "ETag" (GetETagValue entry)
       (rw_HeaderSet "Content-Type" (GetContentType entry)
          (rw_HeaderSet "Content-Disposition" (dispositionOf EqualFold h entry) r))).

(** The log of [handleGetRequest] up to the read loop. *)
Definition streamingCalls (EqualFold : string -> string -> bool)
    (h : ShareXHandler) (id : string) (entry : StorageEntry) : list Event :=
  hookCalls h ++
  [ EvLoadStorageEntry id; EvGetReader;
    EvHeaderSet "Content-Disposition" (dispositionOf EqualFold h entry);
    EvHeaderSet "Content-Type" (GetContentType entry);
    EvHeaderSet "ETag" (GetETagValue entry);
    EvWriteHeader StatusOK ].

(** A GET that gets as far as the read loop: the path segment has a
    dot, the entry is found, the request does not hold its ETag value, and
    [GetReader] returns [reader]. *)
Definition getAcquiresReader (h : ShareXHandler) (req : Request)
    (id : string) (entry : StorageEntry) (reader : Reader) : Prop :=
  dotStem (index (req_Vars req) "id") = Some id /\
  LoadStorageEntry (Storage_ h) id = (true, None, entry) /\
  Header_Get (req_Header req) "If-None-Match" <> GetETagValue entry /\
  GetReader (Storage_ h) entry = inr reader.

(** The calls [handleUploadRequest] may make: the hook, the response, the
    creation and finalization of an entry and its sink; for the status,
    200, 400 and 500 only. *)
Definition uploadCall (ev : Event) : bool :=
  match ev with
  | EvWriteHeader code => (code =? 200) || (code =? 400) || (code =? 500)
  | EvLoadStorageEntry _ | EvGetReader | EvSourceRead _ | EvSourceClose => false
  | _ => true
  end.

(** The calls [handleGetRequest] may make: the hook, the response, the
    lookup of an entry, its reader and reads; for the status, 200, 304,
    404 and 500 only. *)
Definition downloadCall (ev : Event) : bool :=
  match ev with
  | EvOutgoing | EvHeaderSet _ _ | EvWrite _ => true
  | EvWriteHeader code => (code =? 200) || (code =? 304) || (code =? 404) || (code =? 500)
  | EvLoadStorageEntry _ | EvGetReader | EvSourceRead _ => true
  | _ => false
  end.

Definition notSinkClose (ev : Event) : Prop := ev <> EvSinkClose.

Definition notOutgoing (ev : Event) : Prop := ev <> EvOutgoing.

(** A computation that panics in two ways only: with an error value,
    after it has called [http.Error] with status 500, or with the
    runtime's bounds fault. *)
Definition answered {A : Type} (c : Go A) : Prop :=
  forall σ, exists post,
    trace (snd (c σ)) = (trace σ ++ post)%list /\
    forall v, fst (c σ) = Panicking v ->
      match v with
      | PanicError _ => In (EvWriteHeader StatusInternalServerError) post
      | PanicRuntime _ => v = sliceBoundsOutOfRange
      end.

(* ===================================================================== *)
(** ** Further concrete runs *)
(* ===================================================================== *)

Module Cases.

(** One part of a [multipart/form-data] body, without the closing
    boundary. *)
Definition formPart (boundary filename contentType data : string) : string :=
  "--" ++ boundary ++ Demo.CRLF ++
  "Content-Disposition: form-data; name=" ++ DQUOTE ++ "file" ++ DQUOTE ++
  "; filename=" ++ DQUOTE ++ filename ++ DQUOTE ++ Demo.CRLF ++
  "Content-Type: " ++ contentType ++ Demo.CRLF ++ Demo.CRLF ++ data ++ Demo.CRLF.

(** A body that holds two files. *)
Definition twoFilesBody : string :=
  formPart "xyz" "photo.png" "image/png" "PNGDATA" ++
  formPart "xyz" "notes.txt" "text/plain" "hello" ++
  "--xyz--" ++ Demo.CRLF.

(** A body cut off in the middle of its second file. *)
Definition truncatedBody : string :=
  formPart "xyz" "photo.png" "image/png" "PNGDATA" ++
  "--xyz" ++ Demo.CRLF ++
  "Content-Disposition: form-data; name=" ++ DQUOTE ++ "file" ++ DQUOTE ++
  "; filename=" ++ DQUOTE ++ "notes.txt" ++ DQUOTE ++ Demo.CRLF ++
  "Content-Type: text/plain" ++ Demo.CRLF ++ Demo.CRLF ++ "hel".

(** A body that holds no part: the closing boundary alone. *)
Definition emptyBody : string := "--xyz--" ++ Demo.CRLF.

(** The second file of [truncatedBody]: its read ends in
    [io.ErrUnexpectedEOF]. *)
Definition cutPart : Part :=
  mkPart (part_Header (Demo.filePart "notes.txt" "text/plain" "hel"))
         "notes.txt" "hel" (Some (ErrorString "unexpected EOF")).

(** [multipart.NewReader] on the bodies of this module and of [Demo]. *)
Definition NewReader (body boundary : string) : list (Part + error) :=
  if String.eqb boundary "xyz" && String.eqb body twoFilesBody
  then [ inl (Demo.filePart "photo.png" "image/png" "PNGDATA");
         inl (Demo.filePart "notes.txt" "text/plain" "hello") ]
  else if String.eqb boundary "xyz" && String.eqb body truncatedBody
  then [ inl (Demo.filePart "photo.png" "image/png" "PNGDATA"); inl cutPart ]
  else Demo.NewReader body boundary.

Definition twoFilesUpload : Request := Demo.postRequest Demo.formContentType twoFilesBody.

Definition truncatedUpload : Request := Demo.postRequest Demo.formContentType truncatedBody.

Definition emptyUpload : Request := Demo.postRequest Demo.formContentType emptyBody.

Definition upload (h : ShareXHandler) (req : Request) : Exit unit * World :=
  serve (handleUploadRequest Demo.ParseMediaType NewReader h req) freshResponseWriter.

(** Backends that fail at one step of an upload. *)
Definition saveFails : Storage :=
  Demo.storage (Some (ErrorString "disk quota exceeded")) (inr Demo.goodWriter) None []
               (inl (ErrorString "not readable")).

Definition getWriterFails : Storage :=
  Demo.storage None (inl (ErrorString "permission denied")) None []
               (inl (ErrorString "not readable")).

Definition updateFails : Storage :=
  Demo.storage None (inr Demo.goodWriter) (Some (ErrorString "commit failed")) []
               (inl (ErrorString "not readable")).

(** A backend whose lookup fails. *)
Definition lookupFails : Storage :=
  mkStorage (Demo.blankEntry "a1b2c3")
            (fun _ => None) (fun _ => inr Demo.goodWriter) (fun _ => None)
            (fun _ => (false, Some (ErrorString "database is locked"),
                       Demo.blankEntry EmptyString))
            (fun _ => inl (ErrorString "not readable")).

(** A source that fails after its first chunk. *)
Definition failingReader : Reader :=
  mkReader [("PNGD", None); ("AT", Some (ErrorString "read: input/output error"))].

(** A connection that refuses the first write. *)
Definition brokenPipe : ResponseWriter :=
  mkResponseWriter ∅ None ∅ EmptyString [Some (ErrorString "write: broken pipe")].

Definition photoStorage (reader : Reader) : Storage :=
  Demo.downloadStorage Demo.photoEntry (inr reader).

Definition missingGet : Request := Demo.getRequest ∅ "ffffff.png".

End Cases.

(* ===================================================================== *)
(** ** Tactics *)
(* ===================================================================== *)

(** Closes a goal that holds by evaluating a concrete run. *)
Ltac run := vm_compute; reflexivity.

(** The same for a conjunction of such goals. *)
Ltac run_conj := repeat (split; [run|]); try run.

(** Puts the literal header keys of the goal in canonical form. *)
Ltac canon :=
  repeat match goal with
         | |- context [CanonicalMIMEHeaderKey ?s] =>
             let s' := eval vm_compute in (CanonicalMIMEHeaderKey s) in
             change (CanonicalMIMEHeaderKey s) with s'
         end.

(* ===================================================================== *)
(** ** Slicing at the last dot *)
(* ===================================================================== *)

Module SliceFacts.
Import GoStrings.

Lemma HasPrefix_dot (s : string) :
  HasPrefix s "." = match s with String c _ => Ascii.eqb "." c | EmptyString => false end.
Proof.
  destruct s as [|c s']; cbn [HasPrefix]; [reflexivity|].
  destruct (Ascii.eqb "." c); reflexivity.
Qed.

Lemma eqb_dot_sym (c : ascii) : Ascii.eqb "." c = Ascii.eqb c ".".
Proof. apply Ascii.eqb_sym. Qed.

(** The scan returns [-1] exactly when there is no dot, and otherwise
    the position of the suffix that [dotSuffix] selects. *)
Lemma lastIndexFrom_dot (s : string) : forall i : Z,
  0 <= i ->
  match dotSuffix s with
  | None => lastIndexFrom i s "." = -1
  | Some e =>
      exists k : nat,
        lastIndexFrom i s "." = i + Z.of_nat k /\
        (k < String.length s)%nat /\ drop k s = e
  end.
Proof.
  induction s as [|c s' IH]; intros i Hi.
  - reflexivity.
  - cbn [dotSuffix lastIndexFrom].
    specialize (IH (i + 1) ltac:(lia)).
    destruct (dotSuffix s') as [e|].
    + destruct IH as (k & Hk & Hlt & Hd).
      exists (S k). rewrite Hk.
      destruct (Z.leb_spec 0 (i + 1 + Z.of_nat k)); [|lia].
      repeat split; [lia | simpl; lia | exact Hd].
    + rewrite IH. change (0 <=? -1) with false. cbv iota.
      rewrite HasPrefix_dot, eqb_dot_sym.
      destruct (Ascii.eqb c ".").
      * exists 0%nat. repeat split; [lia | simpl; lia].
      * reflexivity.
Qed.

Lemma LastIndex_dot_range (s : string) :
  -1 <= LastIndex s "." < len s.
Proof.
  unfold LastIndex, len.
  pose proof (lastIndexFrom_dot s 0 ltac:(lia)) as H.
  destruct (dotSuffix s).
  - destruct H as (k & -> & Hlt & _). lia.
  - rewrite H. lia.
Qed.

(** [s[strings.LastIndex(s, "."):]] is the final dot-suffix of [s], and
    the run-time bounds check fails exactly when [s] has none. *)
Lemma sliceFrom_LastIndex (s : string) :
  sliceFrom s (LastIndex s ".") = dotSuffix s.
Proof.
  unfold LastIndex, sliceFrom, len.
  pose proof (lastIndexFrom_dot s 0 ltac:(lia)) as H.
  destruct (dotSuffix s) as [e|].
  - destruct H as (k & -> & Hlt & Hd).
    destruct (Z.leb_spec 0 (0 + Z.of_nat k)); [|lia].
    destruct (Z.leb_spec (0 + Z.of_nat k) (Z.of_nat (String.length s))); [|lia].
    simpl. replace (Z.to_nat (0 + Z.of_nat k)) with k by lia.
    now rewrite Hd.
  - rewrite H. reflexivity.
Qed.

Lemma lastIndexFrom_stem (s : string) : forall i : Z,
  0 <= i ->
  match dotStem s with
  | None => lastIndexFrom i s "." = -1
  | Some p =>
      exists k : nat,
        lastIndexFrom i s "." = i + Z.of_nat k /\
        (k < String.length s)%nat /\ take k s = p
  end.
Proof.
  induction s as [|c s' IH]; intros i Hi.
  - reflexivity.
  - cbn [dotStem lastIndexFrom].
    specialize (IH (i + 1) ltac:(lia)).
    destruct (dotStem s') as [p|].
    + destruct IH as (k & Hk & Hlt & Ht).
      exists (S k). rewrite Hk.
      destruct (Z.leb_spec 0 (i + 1 + Z.of_nat k)); [|lia].
      repeat split; [lia | simpl; lia | simpl; now rewrite Ht].
    + rewrite IH. change (0 <=? -1) with false. cbv iota.
      rewrite HasPrefix_dot, eqb_dot_sym.
      destruct (Ascii.eqb c ".").
      * exists 0%nat. repeat split; [lia | simpl; lia].
      * reflexivity.
Qed.

(** [id[:strings.LastIndex(id, ".")]] is [id] without its final
    dot-suffix, and the bounds check fails exactly when there is none. *)
Lemma sliceTo_LastIndex (s : string) :
  sliceTo s (LastIndex s ".") = dotStem s.
Proof.
  unfold LastIndex, sliceTo, len.
  pose proof (lastIndexFrom_stem s 0 ltac:(lia)) as H.
  destruct (dotStem s) as [p|].
  - destruct H as (k & -> & Hlt & Ht).
    destruct (Z.leb_spec 0 (0 + Z.of_nat k)); [|lia].
    destruct (Z.leb_spec (0 + Z.of_nat k) (Z.of_nat (String.length s))); [|lia].
    simpl. replace (Z.to_nat (0 + Z.of_nat k)) with k by lia.
    now rewrite Ht.
  - rewrite H. reflexivity.
Qed.

Lemma dotSuffix_contains (s : string) :
  dotSuffix s = None <-> contains "." s = false.
Proof.
  induction s as [|c s' IH]; cbn [dotSuffix contains]; [tauto|].
  destruct (dotSuffix s') as [e|].
  - destruct (Ascii.eqb c "."); [easy|]. split; [easy|].
    intros H. apply IH in H. discriminate.
  - destruct (Ascii.eqb c "."); [easy|]. tauto.
Qed.

Lemma dotStem_contains (s : string) :
  dotStem s = None <-> contains "." s = false.
Proof.
  induction s as [|c s' IH]; cbn [dotStem contains]; [tauto|].
  destruct (dotStem s') as [e|].
  - destruct (Ascii.eqb c "."); [easy|]. split; [easy|].
    intros H. apply IH in H. discriminate.
  - destruct (Ascii.eqb c "."); [easy|]. tauto.
Qed.

(** A final dot-suffix starts with a dot, holds no other dot, and is a
    suffix of the name. *)
Lemma dotSuffix_shape (s e : string) :
  dotSuffix s = Some e ->
  exists stem rest, s = stem ++ e /\ e = String "." rest /\ contains "." rest = false.
Proof.
  revert e. induction s as [|c s' IH]; intros e; cbn [dotSuffix]; [discriminate|].
  destruct (dotSuffix s') as [e'|] eqn:E.
  - intros [= <-]. destruct (IH e' eq_refl) as (stem & rest & -> & -> & Hc).
    exists (String c stem), rest. repeat split; assumption.
  - destruct (Ascii.eqb_spec c "."); [|discriminate].
    intros [= <-]. subst c. exists EmptyString, s'.
    repeat split. now apply dotSuffix_contains.
Qed.

End SliceFacts.

Example LastIndex_png : GoStrings.LastIndex "photo.png" "." = 5.
Proof. reflexivity. Qed.

Example LastIndex_rightmost : GoStrings.LastIndex "archive.tar.gz" "." = 11.
Proof. reflexivity. Qed.

Example LastIndex_none : GoStrings.LastIndex "README" "." = -1.
Proof. reflexivity. Qed.

Example LastIndex_substr : GoStrings.LastIndex "go gopher" "go" = 3.
Proof. reflexivity. Qed.

Example LastIndex_empty_substr : GoStrings.LastIndex "abc" EmptyString = 3.
Proof. reflexivity. Qed.

Example sliceFrom_png : GoStrings.sliceFrom "photo.png" 5 = Some ".png".
Proof. reflexivity. Qed.

Example sliceFrom_end : GoStrings.sliceFrom "photo." 6 = Some EmptyString.
Proof. reflexivity. Qed.

Example sliceFrom_negative : GoStrings.sliceFrom "README" (-1) = None.
Proof. reflexivity. Qed.

Example sliceTo_id : GoStrings.sliceTo "a1b2c3.png" 6 = Some "a1b2c3".
Proof. reflexivity. Qed.

Example EqualFoldASCII_png : GoStrings.EqualFoldASCII "image/png" "Image/PNG" = true.
Proof. reflexivity. Qed.

Example EqualFoldASCII_other :
  GoStrings.EqualFoldASCII "image/png" "application/octet-stream" = false.
Proof. reflexivity. Qed.

Example dispositionValueFormat_inline :
  dispositionValueFormat "inline" "a.png"
  = "inline; filename=" ++ DQUOTE ++ "a.png" ++ DQUOTE.
Proof. reflexivity. Qed.

(* ===================================================================== *)
(** ** Running the primitives *)
(* ===================================================================== *)

Lemma bind_Normal {A B : Type} (c : Go A) (k : A -> Go B) (σ σ' : World) (a : A) :
  c σ = (Normal a, σ') -> bind c k σ = k a σ'.
Proof. intros H. unfold bind. now rewrite H. Qed.

Lemma bind_Panicking {A B : Type} (c : Go A) (k : A -> Go B) (σ σ' : World) v :
  c σ = (Panicking v, σ') -> bind c k σ = (Panicking v, σ').
Proof. intros H. unfold bind. now rewrite H. Qed.

Lemma callOutgoingFunction_run (h : ShareXHandler) (req : Request) (σ : World) :
  callOutgoingFunction h req σ =
  (Normal tt, mkWorld (afterOutgoing h req (w σ)) (sink σ) (trace σ ++ hookCalls h)).
Proof.
  unfold callOutgoingFunction, afterOutgoing, hookCalls.
  destruct (OutgoingFunction h); cbn.
  - reflexivity.
  - rewrite app_nil_r. now destruct σ.
Qed.

Lemma w_Header_Set_run (key value : string) (σ : World) :
  w_Header_Set key value σ =
  (Normal tt, mkWorld (rw_HeaderSet key value (w σ)) (sink σ)
                      (trace σ ++ [EvHeaderSet key value])).
Proof. reflexivity. Qed.

Lemma w_WriteHeader_run (code : Z) (σ : World) :
  w_WriteHeader code σ =
  (Normal tt, mkWorld (rw_WriteHeader code (w σ)) (sink σ)
                      (trace σ ++ [EvWriteHeader code])).
Proof. reflexivity. Qed.

Lemma w_Write_run (data : string) (σ : World) :
  w_Write data σ =
  (Normal (fst (rw_Write data (w σ))),
   mkWorld (snd (rw_Write data (w σ))) (sink σ) (trace σ ++ [EvWrite data])).
Proof.
  unfold w_Write, bind, emit. cbn.
  now destruct (rw_Write data (w σ)).
Qed.

Lemma http_Error_run (msg : string) (code : Z) (σ : World) :
  http_Error msg code σ =
  (Normal tt,
   mkWorld (snd (rw_Write (msg ++ LF)
              (rw_WriteHeader code
                 (rw_HeaderSet "X-Content-Type-Options" "nosniff"
                    (rw_HeaderSet "Content-Type" "text/plain; charset=utf-8" (w σ))))))
           (sink σ) (trace σ ++ errorCalls msg code)).
Proof.
  unfold http_Error.
  rewrite (bind_Normal _ _ _ _ _ (w_Header_Set_run _ _ _)).
  rewrite (bind_Normal _ _ _ _ _ (w_Header_Set_run _ _ _)).
  rewrite (bind_Normal _ _ _ _ _ (w_WriteHeader_run _ _)).
  rewrite (bind_Normal _ _ _ _ _ (w_Write_run _ _)).
  unfold ret, errorCalls. cbn [w sink trace].
  now rewrite <- !app_assoc.
Qed.

(** What the first status written makes of an untouched response. *)
Lemma rw_WriteHeader_untouched (code : Z) (r : ResponseWriter) :
  rw_untouched r ->
  rw_status (rw_WriteHeader code r) = Some code /\
  rw_body (rw_WriteHeader code r) = EmptyString /\
  rw_sent (rw_WriteHeader code r) = rw_header r /\
  rw_faults (rw_WriteHeader code r) = rw_faults r.
Proof.
  intros [Hs Hb]. unfold rw_WriteHeader. rewrite Hs. cbn. auto.
Qed.

(** A write that the connection takes appends to the body and leaves the
    status line and the header block that went out alone. *)
Lemma rw_Write_committed (data : string) (r : ResponseWriter) (code : Z) :
  rw_status r = Some code ->
  rw_status (snd (rw_Write data r)) = Some code /\
  rw_sent (snd (rw_Write data r)) = rw_sent r /\
  rw_header (snd (rw_Write data r)) = rw_header r /\
  (rw_accepts r ->
     fst (rw_Write data r) = None /\
     rw_body (snd (rw_Write data r)) = rw_body r ++ data).
Proof.
  intros Hs. unfold rw_Write, rw_WriteHeader, rw_accepts. rewrite Hs.
  destruct (rw_faults r) as [|[e|] fs]; cbn; repeat split; auto; contradiction.
Qed.

Lemma rw_HeaderSet_untouched (key value : string) (r : ResponseWriter) :
  rw_untouched r -> rw_untouched (rw_HeaderSet key value r).
Proof. intros [? ?]. split; assumption. Qed.

(** What [http.Error] makes of an untouched response. *)
Lemma http_Error_untouched (msg : string) (code : Z) (r : ResponseWriter) :
  rw_untouched r ->
  let r' := snd (rw_Write (msg ++ LF)
              (rw_WriteHeader code
                 (rw_HeaderSet "X-Content-Type-Options" "nosniff"
                    (rw_HeaderSet "Content-Type" "text/plain; charset=utf-8" r)))) in
  rw_status r' = Some code /\
  (rw_accepts r -> rw_body r' = msg ++ LF).
Proof.
  intros Hu r'.
  pose proof (rw_WriteHeader_untouched code _
                (rw_HeaderSet_untouched "X-Content-Type-Options" "nosniff" _
                   (rw_HeaderSet_untouched "Content-Type" "text/plain; charset=utf-8" _ Hu)))
    as (Hs & Hb & _ & Hf).
  destruct (rw_Write_committed (msg ++ LF) _ code Hs) as (Hs' & _ & _ & Hw).
  split; [exact Hs'|].
  intros Ha. destruct Hw as [_ Hbody].
  - unfold rw_accepts in *. now rewrite Hf.
  - subst r'. now rewrite Hbody, Hb.
Qed.

(* ===================================================================== *)
(** ** Upload: malformed Content-Type *)
(* ===================================================================== *)

Section UploadResults.

Variable ParseMediaType : string -> error + (string * gmap string string).
Variable multipart_NewReader : string -> string -> list (Part + error).

Lemma upload_parse_error_run (h : ShareXHandler) (req : Request) (w0 : ResponseWriter)
    (e : error) :
  ParseMediaType (Header_Get (req_Header req) "Content-Type") = inl e ->
  serve (handleUploadRequest ParseMediaType multipart_NewReader h req) w0 =
  http_Error "400 bad request" StatusBadRequest
    (mkWorld (afterOutgoing h req w0) None (hookCalls h)).
Proof.
  intros Hp. unfold serve, handleUploadRequest.
  rewrite (bind_Normal _ _ _ _ _ (callOutgoingFunction_run _ _ _)).
  rewrite Hp. reflexivity.
Qed.

(** C8. An upload whose Content-Type header fails media-type parsing is
    answered 400 with the bad-request text; the handler makes no call on
    the storage collaborator (neither [NewStorageEntry] nor [Save] nor
    any other), so no entry is created. *)
Theorem upload_malformed_content_type (h : ShareXHandler) (req : Request)
    (w0 : ResponseWriter) (e : error) :
  ParseMediaType (Header_Get (req_Header req) "Content-Type") = inl e ->
  rw_untouched (afterOutgoing h req w0) ->
  rw_accepts (afterOutgoing h req w0) ->
  let out := serve (handleUploadRequest ParseMediaType multipart_NewReader h req) w0 in
  fst out = Normal tt /\
  rw_status (w (snd out)) = Some StatusBadRequest /\
  rw_body (w (snd out)) = "400 bad request" ++ LF /\
  trace (snd out) = (hookCalls h ++ errorCalls "400 bad request" StatusBadRequest)%list /\
  List.filter isStorageCall (trace (snd out)) = [] /\
  ~ In EvNewStorageEntry (trace (snd out)) /\
  ~ In EvSave (trace (snd out)) /\
  sink (snd out) = None.
Proof.
  intros Hp Hu Ha out. subst out.
  rewrite (upload_parse_error_run h req w0 e Hp), http_Error_run.
  cbn [fst snd w sink trace].
  destruct (http_Error_untouched "400 bad request" StatusBadRequest _ Hu) as [Hs Hb].
  repeat split; auto.
  - unfold hookCalls. destruct (OutgoingFunction h); reflexivity.
  - unfold hookCalls. destruct (OutgoingFunction h); cbn; intuition discriminate.
  - unfold hookCalls. destruct (OutgoingFunction h); cbn; intuition discriminate.
Qed.

End UploadResults.

(* ===================================================================== *)
(** ** Upload: the copy loop and the finalized entry *)
(* ===================================================================== *)

Lemma writer_Write_run (data : string) (σ : World) :
  writer_Write data σ =
  (Normal (match sink σ with
           | Some wr => fst (wr_Write data wr)
           | None => None
           end),
   mkWorld (w σ) (option_map (fun wr => snd (wr_Write data wr)) (sink σ))
           (trace σ ++ [EvSinkWrite data])).
Proof.
  unfold writer_Write, bind, emit. cbn.
  destruct (sink σ) as [wr|]; cbn; [|reflexivity].
  now destruct (wr_Write data wr).
Qed.

Lemma writer_Close_run (σ : World) :
  writer_Close σ =
  (Normal tt, mkWorld (w σ) (option_map wr_Close (sink σ)) (trace σ ++ [EvSinkClose])).
Proof. reflexivity. Qed.

Lemma defer_run {A : Type} (d : Go unit) (body : Go A) (σ : World) :
  defer d body σ = (fst (body σ), snd (d (snd (body σ)))).
Proof.
  unfold defer. destruct (body σ) as [r σ1]. cbn. now destruct (d σ1).
Qed.

Lemma isEOF_true (e : error) : isEOF e = true -> e = EOF.
Proof. destruct e; [reflexivity | discriminate]. Qed.

Lemma option_map_compose {A B C : Type} (f : A -> B) (g : B -> C) (o : option A) :
  option_map g (option_map f o) = option_map (fun a => g (f a)) o.
Proof. now destruct o. Qed.

(** When every part reads cleanly the loop hands each part to the sink in
    one [Write], leaves the response alone, and ends through [break] with
    [partErr == io.EOF]. *)
Lemma copyParts_clean : forall (rest : list (Part + error)) (cur : Part + error) (σ : World),
  readsCleanly (cur :: rest) = true ->
  copyParts cur rest σ =
  (Normal EOF,
   mkWorld (w σ)
           (option_map (wr_WriteAll (map part_data (partsOf (cur :: rest)))) (sink σ))
           (trace σ ++ map EvSinkWrite (map part_data (partsOf (cur :: rest))))).
Proof.
  induction rest as [|next rest IH]; intros cur σ Hc.
  - destruct cur as [p|e]; cbn [readsCleanly] in Hc.
    + destruct (part_err p) eqn:Ep; [discriminate|].
      cbn [copyParts io_Copy]. rewrite Ep.
      rewrite (bind_Normal _ _ _ _ _ (writer_Write_run _ _)).
      reflexivity.
    + apply isEOF_true in Hc. subst e. cbn.
      unfold ret. rewrite app_nil_r. destruct σ as [w0 [wr|] t]; reflexivity.
  - destruct cur as [p|e]; cbn [readsCleanly] in Hc.
    + destruct (part_err p) eqn:Ep; [discriminate|].
      cbn [copyParts io_Copy]. rewrite Ep.
      rewrite (bind_Normal _ _ _ _ _ (writer_Write_run _ _)).
      rewrite (IH next _ Hc). cbn [w sink trace].
      rewrite option_map_compose.
      cbn [partsOf map]. rewrite <- app_assoc. reflexivity.
    + apply isEOF_true in Hc. subst e. cbn.
      unfold ret. rewrite app_nil_r. destruct σ as [w0 [wr|] t]; reflexivity.
Qed.

(** The loop never touches the response when it is left through [break]:
    whatever the parts are, a normal end leaves [w] as it was. *)
Lemma copyParts_Normal_response : forall (rest : list (Part + error)) (cur : Part + error)
    (σ σ' : World) (e : error),
  copyParts cur rest σ = (Normal e, σ') -> e = EOF /\ w σ' = w σ.
Proof.
  induction rest as [|next rest IH]; intros cur σ σ' e.
  - destruct cur as [p|pe]; cbn [copyParts io_Copy].
    + destruct (part_err p).
      * unfold internalError. rewrite (bind_Normal _ _ _ _ _ (http_Error_run _ _ _)).
        discriminate.
      * rewrite (bind_Normal _ _ _ _ _ (writer_Write_run _ _)).
        unfold ret. intros [= <- <-]. auto.
    + destruct (isEOF pe) eqn:E.
      * apply isEOF_true in E. subst pe. unfold ret. intros [= <- <-]. auto.
      * unfold internalError. rewrite (bind_Normal _ _ _ _ _ (http_Error_run _ _ _)).
        discriminate.
  - destruct cur as [p|pe]; cbn [copyParts io_Copy].
    + destruct (part_err p).
      * unfold internalError. rewrite (bind_Normal _ _ _ _ _ (http_Error_run _ _ _)).
        discriminate.
      * rewrite (bind_Normal _ _ _ _ _ (writer_Write_run _ _)).
        intros H. apply IH in H. exact H.
    + destruct (isEOF pe) eqn:E.
      * apply isEOF_true in E. subst pe. unfold ret. intros [= <- <-]. auto.
      * unfold internalError. rewrite (bind_Normal _ _ _ _ _ (http_Error_run _ _ _)).
        discriminate.
Qed.

Section UploadRuns.

Variable ParseMediaType : string -> error + (string * gmap string string).
Variable multipart_NewReader : string -> string -> list (Part + error).

(** The whole run of an upload that goes through, by whether the
    recorded file name has a dot. *)
Lemma upload_finalized_run (h : ShareXHandler) (req : Request) (w0 : ResponseWriter)
    (mediatype : string) (params : gmap string string)
    (writer : Writer) (part : Part) (rest : list (Part + error)) :
  uploadGoesThrough ParseMediaType multipart_NewReader h req
                    mediatype params writer part rest ->
  serve (handleUploadRequest ParseMediaType multipart_NewReader h req) w0 =
  let w1 := rw_WriteHeader 200 (afterOutgoing h req w0) in
  let wr := wr_Close (wr_WriteAll (map part_data (partsOf (inl part :: rest))) writer) in
  match dotSuffix (FileName part) with
  | None =>
      (Panicking sliceBoundsOutOfRange,
       mkWorld w1 (Some wr)
               (uploadCalls h part rest ++ [EvWriteHeader 200; EvSinkClose]))
  | Some extension =>
      let url := ProtocolHost h ++ GetId (NewStorageEntry (Storage_ h)) ++ extension in
      (Normal tt,
       mkWorld (snd (rw_Write url w1)) (Some wr)
               (uploadCalls h part rest ++ [EvWriteHeader 200; EvWrite url; EvSinkClose]))
  end.
Proof.
  intros (Hparse & Hsave & Hwriter & Hreader & Hclean & Hupdate).
  unfold serve, handleUploadRequest.
  rewrite (bind_Normal _ _ _ _ _ (callOutgoingFunction_run _ _ _)).
  rewrite Hparse, Hreader, Hsave, Hwriter.
  cbn [bind emit acquired ret panic w sink trace fst snd].
  rewrite defer_run. cbn [NextPart].
  cbn [bind emit acquired ret panic w sink trace fst snd].
  rewrite !(bind_Normal _ _ _ _ _ (copyParts_clean _ _ _ Hclean)).
  cbn [bind emit acquired ret panic w sink trace fst snd].
  fold (recordedEntry (Storage_ h) part). rewrite Hupdate.
  rewrite !(bind_Normal _ _ _ _ _ (w_WriteHeader_run _ _)).
  change (GetFilename (recordedEntry (Storage_ h) part)) with (FileName part).
  rewrite SliceFacts.sliceFrom_LastIndex.
  cbn [w sink trace option_map].
  unfold uploadCalls.
  destruct (dotSuffix (FileName part)) as [extension|].
  - rewrite !(bind_Normal _ _ _ _ _ (w_Write_run _ _)).
    unfold ret. cbn [fst snd w sink trace option_map].
    rewrite writer_Close_run. cbn [fst snd w sink trace option_map].
    repeat first [rewrite <- app_assoc | progress cbn [app]]. reflexivity.
  - unfold panic. cbn [fst snd]. rewrite writer_Close_run.
    cbn [fst snd w sink trace option_map].
    repeat first [rewrite <- app_assoc | progress cbn [app]]. reflexivity.
Qed.

End UploadRuns.

Lemma sinkWrites_app (t1 t2 : list Event) :
  sinkWrites (t1 ++ t2) = (sinkWrites t1 ++ sinkWrites t2)%list.
Proof.
  induction t1 as [|ev t1 IH]; [reflexivity|].
  destruct ev; cbn [sinkWrites app]; rewrite ?IH; reflexivity.
Qed.

Lemma sinkWrites_map (chunks : list string) :
  sinkWrites (map EvSinkWrite chunks) = chunks.
Proof. induction chunks as [|c cs IH]; cbn; [|rewrite IH]; reflexivity. Qed.

Lemma sinkWrites_hookCalls (h : ShareXHandler) : sinkWrites (hookCalls h) = [].
Proof. unfold hookCalls. now destruct (OutgoingFunction h). Qed.

Lemma sinkWrites_uploadCalls (h : ShareXHandler) (part : Part) (rest : list (Part + error)) :
  sinkWrites (uploadCalls h part rest) = map part_data (partsOf (inl part :: rest)).
Proof.
  unfold uploadCalls.
  rewrite !sinkWrites_app, sinkWrites_hookCalls, sinkWrites_map.
  cbn [sinkWrites app]. now rewrite app_nil_r.
Qed.

Section UploadTheorems.

Variable ParseMediaType : string -> error + (string * gmap string string).
Variable multipart_NewReader : string -> string -> list (Part + error).

(** [handleUploadRequest] never looks at [BufferSize]. *)
Lemma upload_ignores_BufferSize (size : Z) (h : ShareXHandler) (req : Request) :
  handleUploadRequest ParseMediaType multipart_NewReader (withBufferSize size h) req =
  handleUploadRequest ParseMediaType multipart_NewReader h req.
Proof. reflexivity. Qed.

(** C1. An upload that goes through (media type parsed, entry saved,
    sink acquired, all parts copied, entry finalized) is answered 200
    with a body equal to [ProtocolHost], the entry's id and the final
    dot-suffix of the recorded file name, dot included. *)
Theorem upload_success_responds_url (h : ShareXHandler) (req : Request)
    (w0 : ResponseWriter) (mediatype : string) (params : gmap string string)
    (writer : Writer) (part : Part) (rest : list (Part + error)) (extension : string) :
  uploadGoesThrough ParseMediaType multipart_NewReader h req
                    mediatype params writer part rest ->
  dotSuffix (GetFilename (recordedEntry (Storage_ h) part)) = Some extension ->
  rw_untouched (afterOutgoing h req w0) ->
  rw_accepts (afterOutgoing h req w0) ->
  let out := serve (handleUploadRequest ParseMediaType multipart_NewReader h req) w0 in
  fst out = Normal tt /\
  rw_status (w (snd out)) = Some StatusOK /\
  rw_body (w (snd out)) =
    ProtocolHost h ++ GetId (recordedEntry (Storage_ h) part) ++ extension.
Proof.
  intros Hgo Hext Hu Ha out. subst out.
  rewrite (upload_finalized_run _ _ h req w0 _ _ _ _ _ Hgo).
  change (GetFilename (recordedEntry (Storage_ h) part)) with (FileName part) in Hext.
  cbv zeta. rewrite Hext. cbn [fst snd w].
  destruct (rw_WriteHeader_untouched 200 _ Hu) as (Hs & Hb & _ & Hf).
  destruct (rw_Write_committed
              (ProtocolHost h ++ GetId (NewStorageEntry (Storage_ h)) ++ extension)
              _ 200 Hs) as (Hs' & _ & _ & Hw).
  destruct Hw as [_ Hbody].
  { unfold rw_accepts in *. now rewrite Hf. }
  repeat split; [exact Hs'|].
  rewrite Hbody, Hb. reflexivity.
Qed.

(** C9, as the code has it.  The status 200 is written before the
    retrieval URL is derived: in an upload that goes through with a
    recorded file name that has no dot, the handler has called
    [WriteHeader(200)] on its response writer and written no byte of the
    body when it panics in the slice expression, and it writes no error
    status.  This is what the handler writes; what of it the client
    receives is the server's doing. *)
Theorem upload_no_dot_already_200 (h : ShareXHandler) (req : Request)
    (w0 : ResponseWriter) (mediatype : string) (params : gmap string string)
    (writer : Writer) (part : Part) (rest : list (Part + error)) :
  uploadGoesThrough ParseMediaType multipart_NewReader h req
                    mediatype params writer part rest ->
  dotSuffix (GetFilename (recordedEntry (Storage_ h) part)) = None ->
  rw_untouched (afterOutgoing h req w0) ->
  let out := serve (handleUploadRequest ParseMediaType multipart_NewReader h req) w0 in
  fst out = Panicking sliceBoundsOutOfRange /\
  rw_status (w (snd out)) = Some StatusOK /\
  rw_body (w (snd out)) = EmptyString /\
  trace (snd out) = (uploadCalls h part rest ++ [EvWriteHeader 200; EvSinkClose])%list /\
  List.filter isBodyWrite (trace (snd out)) = [].
Proof.
  intros Hgo Hext Hu out. subst out.
  rewrite (upload_finalized_run _ _ h req w0 _ _ _ _ _ Hgo).
  change (GetFilename (recordedEntry (Storage_ h) part)) with (FileName part) in Hext.
  cbv zeta. rewrite Hext. cbn [fst snd w trace].
  destruct (rw_WriteHeader_untouched 200 _ Hu) as (Hs & Hb & _ & _).
  repeat split; auto.
  unfold uploadCalls, hookCalls.
  rewrite !List.filter_app.
  assert (Hm : forall cs, List.filter isBodyWrite (map EvSinkWrite cs) = []).
  { induction cs as [|c cs IH]; [reflexivity | exact IH]. }
  rewrite Hm. destruct (OutgoingFunction h); reflexivity.
Qed.

(** C5, as the code has it.  In an upload that goes through, each part
    is read in full into the in-memory buffer and handed to the sink in
    one [Write] carrying all its bytes; [BufferSize] plays no part in
    the upload. *)
Theorem upload_buffers_whole_parts (h : ShareXHandler) (req : Request)
    (w0 : ResponseWriter) (mediatype : string) (params : gmap string string)
    (writer : Writer) (part : Part) (rest : list (Part + error)) :
  uploadGoesThrough ParseMediaType multipart_NewReader h req
                    mediatype params writer part rest ->
  let out := serve (handleUploadRequest ParseMediaType multipart_NewReader h req) w0 in
  sinkWrites (trace (snd out)) = map part_data (partsOf (inl part :: rest)) /\
  forall size : Z,
    serve (handleUploadRequest ParseMediaType multipart_NewReader
             (withBufferSize size h) req) w0 = out.
Proof.
  intros Hgo out. split.
  - subst out. rewrite (upload_finalized_run _ _ h req w0 _ _ _ _ _ Hgo).
    cbv zeta.
    destruct (dotSuffix (FileName part)); cbn [snd trace];
      rewrite sinkWrites_app, sinkWrites_uploadCalls; cbn [sinkWrites];
      now rewrite app_nil_r.
  - intros size. subst out. now rewrite upload_ignores_BufferSize.
Qed.

End UploadTheorems.

(* ===================================================================== *)
(** ** Upload: concrete runs *)
(* ===================================================================== *)

Lemma photoUpload_goes_through (size : Z) :
  uploadGoesThrough Demo.ParseMediaType Demo.NewReader
    (Demo.handler Demo.uploadStorage size) Demo.photoUpload
    "multipart/form-data" Demo.boundaryParams Demo.goodWriter
    (Demo.filePart "photo.png" "image/png" "PNGDATA") [].
Proof. unfold uploadGoesThrough. run_conj. Defined.

Lemma readmeUpload_goes_through (size : Z) :
  uploadGoesThrough Demo.ParseMediaType Demo.NewReader
    (Demo.handler Demo.uploadStorage size) Demo.readmeUpload
    "multipart/form-data" Demo.boundaryParams Demo.goodWriter
    (Demo.filePart "README" "text/plain" "hello") [].
Proof. unfold uploadGoesThrough. run_conj. Defined.

Lemma freshResponseWriter_untouched : rw_untouched freshResponseWriter.
Proof. split; reflexivity. Defined.

Lemma upload_success_responds_url_witness :
  let h := Demo.handler Demo.uploadStorage 1024 in
  let part := Demo.filePart "photo.png" "image/png" "PNGDATA" in
  uploadGoesThrough Demo.ParseMediaType Demo.NewReader h Demo.photoUpload
    "multipart/form-data" Demo.boundaryParams Demo.goodWriter part [] /\
  dotSuffix (GetFilename (recordedEntry (Storage_ h) part)) = Some ".png" /\
  rw_untouched (afterOutgoing h Demo.photoUpload freshResponseWriter) /\
  rw_accepts (afterOutgoing h Demo.photoUpload freshResponseWriter) /\
  let out := Demo.upload h Demo.photoUpload in
  fst out = Normal tt /\
  rw_status (w (snd out)) = Some 200 /\
  rw_body (w (snd out)) = "http://localhost:8080/a1b2c3.png".
Proof.
  intros h part.
  assert (H1 := photoUpload_goes_through 1024).
  assert (H2 : dotSuffix (GetFilename (recordedEntry (Storage_ h) part)) = Some ".png")
    by reflexivity.
  assert (H3 := freshResponseWriter_untouched).
  assert (H4 : rw_accepts (afterOutgoing h Demo.photoUpload freshResponseWriter))
    by exact I.
  repeat (split; [assumption|]).
  exact (upload_success_responds_url Demo.ParseMediaType Demo.NewReader h
           Demo.photoUpload freshResponseWriter _ _ _ part [] ".png" H1 H2 H3 H4).
Defined.

Lemma upload_no_dot_already_200_witness :
  let h := Demo.handler Demo.uploadStorage 1024 in
  let part := Demo.filePart "README" "text/plain" "hello" in
  uploadGoesThrough Demo.ParseMediaType Demo.NewReader h Demo.readmeUpload
    "multipart/form-data" Demo.boundaryParams Demo.goodWriter part [] /\
  dotSuffix (GetFilename (recordedEntry (Storage_ h) part)) = None /\
  rw_untouched (afterOutgoing h Demo.readmeUpload freshResponseWriter) /\
  let out := Demo.upload h Demo.readmeUpload in
  fst out = Panicking sliceBoundsOutOfRange /\
  rw_status (w (snd out)) = Some 200 /\
  rw_body (w (snd out)) = EmptyString /\
  trace (snd out) = (uploadCalls h part [] ++ [EvWriteHeader 200; EvSinkClose])%list /\
  List.filter isBodyWrite (trace (snd out)) = [].
Proof.
  intros h part.
  assert (H1 := readmeUpload_goes_through 1024).
  assert (H2 : dotSuffix (GetFilename (recordedEntry (Storage_ h) part)) = None)
    by reflexivity.
  assert (H3 := freshResponseWriter_untouched).
  repeat (split; [assumption|]).
  exact (upload_no_dot_already_200 Demo.ParseMediaType Demo.NewReader h
           Demo.readmeUpload freshResponseWriter _ _ _ part [] H1 H2 H3).
Defined.

Lemma upload_buffers_whole_parts_witness :
  let h := Demo.handler Demo.uploadStorage 4 in
  let part := Demo.filePart "photo.png" "image/png" "PNGDATA" in
  uploadGoesThrough Demo.ParseMediaType Demo.NewReader h Demo.photoUpload
    "multipart/form-data" Demo.boundaryParams Demo.goodWriter part [] /\
  let out := Demo.upload h Demo.photoUpload in
  sinkWrites (trace (snd out)) = ["PNGDATA"] /\
  forall size : Z,
    serve (handleUploadRequest Demo.ParseMediaType Demo.NewReader
             (withBufferSize size h) Demo.photoUpload) freshResponseWriter = out.
Proof.
  intros h part.
  assert (H1 := photoUpload_goes_through 4).
  split; [assumption|].
  exact (upload_buffers_whole_parts Demo.ParseMediaType Demo.NewReader h
           Demo.photoUpload freshResponseWriter _ _ _ part [] H1).
Defined.

(** C9, as the specification has it, fails: the upload of a file named
    README goes through and the handler panics after [WriteHeader(200)]
    with no byte of the body written, so the status line never leaves
    the server's buffer: the connection is closed with no status line
    on it, and the client has received neither status 200 nor any
    other. *)
Lemma upload_no_dot_no_status_on_connection :
  let h := Demo.handler Demo.uploadStorage 1024 in
  let part := Demo.filePart "README" "text/plain" "hello" in
  let out := Demo.upload h Demo.readmeUpload in
  uploadGoesThrough Demo.ParseMediaType Demo.NewReader h Demo.readmeUpload
    "multipart/form-data" Demo.boundaryParams Demo.goodWriter part [] /\
  GoStrings.sliceFrom (GetFilename (recordedEntry (Storage_ h) part))
    (GoStrings.LastIndex (GetFilename (recordedEntry (Storage_ h) part)) ".") = None /\
  fst out = Panicking sliceBoundsOutOfRange /\
  rw_status (w (snd out)) = Some StatusOK /\
  rw_body (w (snd out)) = EmptyString /\
  statusOnConnection out = None /\
  statusOnConnection out <> Some StatusOK.
Proof.
  intros h part out.
  split; [exact (readmeUpload_goes_through 1024)|].
  split; [run|]. split; [run|]. split; [run|]. split; [run|].
  split; [run | vm_compute; discriminate].
Qed.

(** C5, as the specification has it, fails: with a buffer size of 4 bytes
    the seven bytes of the uploaded part reach the sink in one chunk. *)
Lemma upload_chunk_exceeds_BufferSize :
  let h := Demo.handler Demo.uploadStorage 4 in
  let out := Demo.upload h Demo.photoUpload in
  fst out = Normal tt /\
  sinkWrites (trace (snd out)) = ["PNGDATA"] /\
  ~ chunksBounded (BufferSize h) (trace (snd out)).
Proof.
  intros h out. split; [run|]. split; [run|].
  intros Hb. unfold chunksBounded in Hb.
  assert (Hw : sinkWrites (trace (snd out)) = ["PNGDATA"]) by run.
  rewrite Hw in Hb. apply Forall_inv in Hb. vm_compute in Hb.
  apply Hb. reflexivity.
Qed.

Lemma upload_malformed_content_type_witness :
  let h := Demo.handler Demo.uploadStorage 1024 in
  Demo.ParseMediaType (Header_Get (req_Header Demo.untypedUpload) "Content-Type")
    = inl (ErrorString "mime: no media type") /\
  rw_untouched (afterOutgoing h Demo.untypedUpload freshResponseWriter) /\
  rw_accepts (afterOutgoing h Demo.untypedUpload freshResponseWriter) /\
  let out := Demo.upload h Demo.untypedUpload in
  fst out = Normal tt /\
  rw_status (w (snd out)) = Some 400 /\
  rw_body (w (snd out)) = "400 bad request" ++ LF /\
  trace (snd out) = (hookCalls h ++ errorCalls "400 bad request" 400)%list /\
  List.filter isStorageCall (trace (snd out)) = [] /\
  ~ In EvNewStorageEntry (trace (snd out)) /\
  ~ In EvSave (trace (snd out)) /\
  sink (snd out) = None.
Proof.
  intros h.
  assert (H1 : Demo.ParseMediaType
                 (Header_Get (req_Header Demo.untypedUpload) "Content-Type")
               = inl (ErrorString "mime: no media type")) by run.
  assert (H2 := freshResponseWriter_untouched).
  assert (H3 : rw_accepts (afterOutgoing h Demo.untypedUpload freshResponseWriter))
    by exact I.
  repeat (split; [assumption|]).
  exact (upload_malformed_content_type Demo.ParseMediaType Demo.NewReader h
           Demo.untypedUpload freshResponseWriter _ H1 H2 H3).
Defined.

(** C6 fails on the code.  The sink refuses the only chunk of the upload
    ([Write] returns an error); [handleUploadRequest] drops that result,
    finalizes the entry and answers 200 with the retrieval URL. *)
Theorem upload_sink_write_error_ignored :
  let st := Demo.storage None (inr Demo.fullDiskWriter) None []
              (inl (ErrorString "not readable")) in
  let out := Demo.upload (Demo.handler st 1024) Demo.photoUpload in
  fst (wr_Write "PNGDATA" Demo.fullDiskWriter)
    = Some (ErrorString "no space left on device") /\
  sinkWrites (trace (snd out)) = ["PNGDATA"] /\
  option_map wr_chunks (sink (snd out)) = Some [] /\
  In (EvUpdate (mkStorageEntry "a1b2c3" "photo.png" "image/png" EmptyString))
     (trace (snd out)) /\
  fst out = Normal tt /\
  rw_status (w (snd out)) = Some StatusOK /\
  rw_body (w (snd out)) = "http://localhost:8080/a1b2c3.png".
Proof.
  intros st out. split; [run|]. split; [run|]. split; [run|].
  split; [|run_conj].
  vm_compute. tauto.
Qed.

(* ===================================================================== *)
(** ** Download: the response once the status line is out *)
(* ===================================================================== *)

Lemma rw_WriteHeader_committed (code c : Z) (r : ResponseWriter) :
  rw_status r = Some c -> rw_WriteHeader code r = r.
Proof. intros H. unfold rw_WriteHeader. now rewrite H. Qed.

(** [http.Error] on a response whose status line is out: the status and
    the header block that were sent stay as they are. *)
Lemma http_Error_committed (msg : string) (code c : Z) (r : ResponseWriter) :
  rw_status r = Some c ->
  let r' := snd (rw_Write (msg ++ LF)
              (rw_WriteHeader code
                 (rw_HeaderSet "X-Content-Type-Options" "nosniff"
                    (rw_HeaderSet "Content-Type" "text/plain; charset=utf-8" r)))) in
  rw_status r' = Some c /\ rw_sent r' = rw_sent r.
Proof.
  intros Hs r'. subst r'.
  rewrite (rw_WriteHeader_committed code c) by exact Hs.
  destruct (rw_Write_committed (msg ++ LF)
              (rw_HeaderSet "X-Content-Type-Options" "nosniff"
                 (rw_HeaderSet "Content-Type" "text/plain; charset=utf-8" r)) c Hs)
    as (H1 & H2 & _).
  split; [exact H1 | exact H2].
Qed.

(** The read loop runs after the status line: whatever the source
    delivers, it changes neither the status nor the header block sent,
    and it only adds to the log. *)
Lemma readLoop_committed (size : Z) : forall (script : list (string * option error))
    (σ : World) (c : Z),
  rw_status (w σ) = Some c ->
  rw_status (w (snd (readLoop size script σ))) = Some c /\
  rw_sent (w (snd (readLoop size script σ))) = rw_sent (w σ) /\
  exists post, trace (snd (readLoop size script σ)) = (trace σ ++ post)%list.
Proof.
  induction script as [|[data err] rest IH]; intros σ c Hs.
  - cbn. repeat split; auto. now exists [EvSourceRead size].
  - cbn [readLoop]. cbn [bind emit].
    set (σ1 := mkWorld (w σ) (sink σ) (trace σ ++ [EvSourceRead size])).
    assert (Hs1 : rw_status (w σ1) = Some c) by exact Hs.
    assert (Hcont :
      let out := (if GoStrings.len (GoStrings.take (Z.to_nat size) data) =? 0
                  then ret tt
                  else werr <- w_Write (GoStrings.take (Z.to_nat size) data) ;;
                       match werr with
                       | Some e => panic (PanicError e)
                       | None => readLoop size rest
                       end) σ1 in
      rw_status (w (snd out)) = Some c /\
      rw_sent (w (snd out)) = rw_sent (w σ) /\
      exists post, trace (snd out) = (trace σ ++ post)%list).
    { destruct (GoStrings.len (GoStrings.take (Z.to_nat size) data) =? 0).
      - cbn. repeat split; auto. now exists [EvSourceRead size].
      - rewrite (bind_Normal _ _ _ _ _ (w_Write_run _ _)).
        destruct (rw_Write_committed (GoStrings.take (Z.to_nat size) data) (w σ1) c Hs1)
          as (H1 & H2 & _).
        destruct (fst (rw_Write (GoStrings.take (Z.to_nat size) data) (w σ1))).
        + cbn. repeat split; auto. eexists. rewrite <- app_assoc. reflexivity.
        + edestruct (IH (mkWorld (snd (rw_Write (GoStrings.take (Z.to_nat size) data) (w σ1)))
                           (sink σ1)
                           (trace σ1 ++ [EvWrite (GoStrings.take (Z.to_nat size) data)])) c H1)
            as (H3 & H4 & post & H5).
          cbv zeta. rewrite H3, H4, H5. cbn [w trace σ1].
          repeat split; auto.
          eexists. rewrite <- !app_assoc. reflexivity. }
    destruct err as [[|msg]|]; try exact Hcont.
    unfold internalError.
    rewrite (bind_Normal _ _ _ _ _ (http_Error_run _ _ _)).
    cbn [panic snd w trace].
    destruct (http_Error_committed "500 an internal error occurred"
                StatusInternalServerError c (w σ1) Hs1) as [H1 H2].
    repeat split; auto.
    eexists. subst σ1. cbn [trace]. rewrite <- app_assoc. reflexivity.
Qed.

Lemma rangeWhitelist_true (EqualFold : string -> string -> bool)
    (whitelist : list string) (contentType : string) :
  rangeWhitelist EqualFold whitelist contentType = true <->
  exists value, In value whitelist /\ EqualFold value contentType = true.
Proof.
  induction whitelist as [|v vs IH]; cbn [rangeWhitelist].
  - split; [discriminate | intros (? & [] & _)].
  - destruct (EqualFold v contentType) eqn:E.
    + split; [|reflexivity]. intros _. exists v. split; [now left | exact E].
    + rewrite IH. split.
      * intros (x & Hin & Hx). exists x. split; [now right | exact Hx].
      * intros (x & [<- | Hin] & Hx); [congruence|]. now exists x.
Qed.

Lemma rangeWhitelist_false (EqualFold : string -> string -> bool)
    (whitelist : list string) (contentType : string) :
  rangeWhitelist EqualFold whitelist contentType = false <->
  forall value, In value whitelist -> EqualFold value contentType = false.
Proof.
  split.
  - intros H v Hin. destruct (EqualFold v contentType) eqn:E; [|reflexivity].
    rewrite <- H. symmetry. apply rangeWhitelist_true. now exists v.
  - intros H. destruct (rangeWhitelist EqualFold whitelist contentType) eqn:E; [|reflexivity].
    apply rangeWhitelist_true in E. destruct E as (v & Hin & Hv).
    rewrite (H v Hin) in Hv. discriminate.
Qed.

(* ===================================================================== *)
(** ** Download: conditional GET and Content-Disposition *)
(* ===================================================================== *)

Section DownloadTheorems.

Variable EqualFold : string -> string -> bool.

(** A GET of a found entry whose ETag the request already holds. *)
Lemma get_not_modified_run (h : ShareXHandler) (req : Request) (w0 : ResponseWriter)
    (id : string) (entry : StorageEntry) :
  dotStem (index (req_Vars req) "id") = Some id ->
  LoadStorageEntry (Storage_ h) id = (true, None, entry) ->
  Header_Get (req_Header req) "If-None-Match" = GetETagValue entry ->
  serve (handleGetRequest EqualFold h req) w0 =
  (Normal tt,
   mkWorld (rw_WriteHeader StatusNotModified (afterOutgoing h req w0)) None
           (hookCalls h ++ [EvLoadStorageEntry id; EvWriteHeader StatusNotModified])).
Proof.
  intros Hid Hload Htag. unfold serve, handleGetRequest.
  rewrite (bind_Normal _ _ _ _ _ (callOutgoingFunction_run _ _ _)).
  rewrite SliceFacts.sliceTo_LastIndex, Hid.
  cbn [bind emit w sink trace]. rewrite Hload. cbn [negb].
  rewrite Htag, String.eqb_refl.
  rewrite w_WriteHeader_run. cbn [w sink trace app].
  now rewrite <- app_assoc.
Qed.

(** The log of such a GET holds no body write, no [GetReader] and no
    [Read]. *)
Lemma not_modified_calls (h : ShareXHandler) (id : string) :
  let t := (hookCalls h ++ [EvLoadStorageEntry id; EvWriteHeader StatusNotModified])%list in
  List.filter isBodyWrite t = [] /\
  ~ In EvGetReader t /\
  (forall size, ~ In (EvSourceRead size) t).
Proof.
  unfold hookCalls. repeat split.
  - destruct (OutgoingFunction h); reflexivity.
  - destruct (OutgoingFunction h); cbn; intuition discriminate.
  - intros size. destruct (OutgoingFunction h); cbn; intuition discriminate.
Qed.

(** C4. A GET of a found entry whose If-None-Match header equals the
    entry's ETag value is answered 304 with no body, and the handler
    neither acquires a reader nor reads from one. *)
Theorem get_matching_etag_304 (h : ShareXHandler) (req : Request) (w0 : ResponseWriter)
    (id : string) (entry : StorageEntry) :
  dotStem (index (req_Vars req) "id") = Some id ->
  LoadStorageEntry (Storage_ h) id = (true, None, entry) ->
  Header_Get (req_Header req) "If-None-Match" = GetETagValue entry ->
  rw_untouched (afterOutgoing h req w0) ->
  let out := serve (handleGetRequest EqualFold h req) w0 in
  fst out = Normal tt /\
  rw_status (w (snd out)) = Some StatusNotModified /\
  rw_body (w (snd out)) = EmptyString /\
  List.filter isBodyWrite (trace (snd out)) = [] /\
  ~ In EvGetReader (trace (snd out)) /\
  (forall size, ~ In (EvSourceRead size) (trace (snd out))).
Proof.
  intros Hid Hload Htag Hu out. subst out.
  rewrite (get_not_modified_run h req w0 id entry Hid Hload Htag).
  cbn [fst snd w trace].
  destruct (rw_WriteHeader_untouched StatusNotModified _ Hu) as (Hs & Hb & _ & _).
  destruct (not_modified_calls h id) as (Hw & Hr & Hrd).
  repeat split; auto.
Qed.

(** C10. A request without an If-None-Match header reads as the empty
    string, which is compared to the ETag value as it is: a found entry
    whose ETag value is empty is answered 304 with no body, and its
    bytes are never read. *)
Theorem get_empty_etag_304 (h : ShareXHandler) (req : Request) (w0 : ResponseWriter)
    (id : string) (entry : StorageEntry) :
  dotStem (index (req_Vars req) "id") = Some id ->
  LoadStorageEntry (Storage_ h) id = (true, None, entry) ->
  req_Header req !! "If-None-Match" = None ->
  GetETagValue entry = EmptyString ->
  rw_untouched (afterOutgoing h req w0) ->
  let out := serve (handleGetRequest EqualFold h req) w0 in
  Header_Get (req_Header req) "If-None-Match" = EmptyString /\
  fst out = Normal tt /\
  rw_status (w (snd out)) = Some StatusNotModified /\
  rw_body (w (snd out)) = EmptyString /\
  List.filter isBodyWrite (trace (snd out)) = [] /\
  ~ In EvGetReader (trace (snd out)) /\
  (forall size, ~ In (EvSourceRead size) (trace (snd out))).
Proof.
  intros Hid Hload Habsent Hempty Hu out.
  assert (Hget : Header_Get (req_Header req) "If-None-Match" = EmptyString).
  { unfold Header_Get. canon. now rewrite Habsent. }
  assert (Htag : Header_Get (req_Header req) "If-None-Match" = GetETagValue entry).
  { now rewrite Hget, Hempty. }
  split; [exact Hget|]. subst out.
  rewrite (get_not_modified_run h req w0 id entry Hid Hload Htag).
  cbn [fst snd w trace].
  destruct (rw_WriteHeader_untouched StatusNotModified _ Hu) as (Hs & Hb & _ & _).
  destruct (not_modified_calls h id) as (Hw & Hr & Hrd).
  repeat split; auto.
Qed.

(** A GET whose path segment has no dot: the slice expression panics
    before any call on the storage or on the response. *)
Lemma get_dotless_id_panics (h : ShareXHandler) (req : Request) (w0 : ResponseWriter) :
  dotStem (index (req_Vars req) "id") = None ->
  serve (handleGetRequest EqualFold h req) w0 =
  (Panicking sliceBoundsOutOfRange,
   mkWorld (afterOutgoing h req w0) None (hookCalls h)).
Proof.
  intros Hid. unfold serve, handleGetRequest.
  rewrite (bind_Normal _ _ _ _ _ (callOutgoingFunction_run _ _ _)).
  rewrite SliceFacts.sliceTo_LastIndex, Hid. reflexivity.
Qed.

(** C3, as the code has it.  A GET of a found entry whose If-None-Match
    header differs from the ETag value and whose reader is acquired
    gets status 200 with a Content-Disposition field in the header
    block sent: inline with the entry's file name when the content type
    equals some whitelist element under [EqualFold], attachment with
    the file name otherwise.  The field is set before the status line
    and before any byte of the body is written. *)
Theorem get_content_disposition (h : ShareXHandler) (req : Request) (w0 : ResponseWriter)
    (id : string) (entry : StorageEntry) (reader : Reader) :
  dotStem (index (req_Vars req) "id") = Some id ->
  LoadStorageEntry (Storage_ h) id = (true, None, entry) ->
  Header_Get (req_Header req) "If-None-Match" <> GetETagValue entry ->
  GetReader (Storage_ h) entry = inr reader ->
  rw_untouched (afterOutgoing h req w0) ->
  let out := serve (handleGetRequest EqualFold h req) w0 in
  let sent := rw_sent (w (snd out)) !! "Content-Disposition" in
  rw_status (w (snd out)) = Some StatusOK /\
  ((exists value, In value (WhitelistedContentTypes h) /\
                  EqualFold value (GetContentType entry) = true) ->
   sent = Some [dispositionValueFormat "inline" (GetFilename entry)]) /\
  ((forall value, In value (WhitelistedContentTypes h) ->
                  EqualFold value (GetContentType entry) = false) ->
   sent = Some [dispositionValueFormat "attachment" (GetFilename entry)]) /\
  exists value post,
    sent = Some [value] /\
    trace (snd out) =
      (hookCalls h ++
       [EvLoadStorageEntry id; EvGetReader;
        EvHeaderSet "Content-Disposition" value;
        EvHeaderSet "Content-Type" (GetContentType entry);
        EvHeaderSet "ETag" (GetETagValue entry);
        EvWriteHeader StatusOK] ++ post)%list.
Proof.
  intros Hid Hload Htag Hreader Hu out sent.
  set (kind := if rangeWhitelist EqualFold (WhitelistedContentTypes h) (GetContentType entry)
               then "inline" else "attachment").
  set (value := dispositionValueFormat kind (GetFilename entry)).
  set (w1 := afterOutgoing h req w0) in *.
  set (w2 := rw_WriteHeader StatusOK
               (rw_HeaderSet "ETag" (GetETagValue entry)
                  (rw_HeaderSet "Content-Type" (GetContentType entry)
                     (rw_HeaderSet "Content-Disposition" value w1)))).
  set (t2 := (hookCalls h ++
              [EvLoadStorageEntry id; EvGetReader;
               EvHeaderSet "Content-Disposition" value;
               EvHeaderSet "Content-Type" (GetContentType entry);
               EvHeaderSet "ETag" (GetETagValue entry);
               EvWriteHeader StatusOK])%list).
  assert (Hout : out =
    (if makesliceFails (BufferSize h) then panic makesliceLenOutOfRange
     else readLoop (BufferSize h) (rd_script reader)) (mkWorld w2 None t2)).
  { subst out. unfold serve, handleGetRequest.
    rewrite (bind_Normal _ _ _ _ _ (callOutgoingFunction_run _ _ _)).
    rewrite SliceFacts.sliceTo_LastIndex, Hid.
    cbn [bind emit w sink trace]. rewrite Hload. cbn [negb].
    apply String.eqb_neq in Htag. rewrite Htag.
    cbn [bind emit w sink trace]. rewrite Hreader.
    subst w2 t2 value kind.
    destruct (rangeWhitelist EqualFold (WhitelistedContentTypes h) (GetContentType entry));
      cbn [bind emit onResponse w_Header_Set w_WriteHeader w sink trace app];
      repeat first [rewrite <- app_assoc | progress cbn [app]]; reflexivity. }
  assert (Hs2 : rw_status w2 = Some StatusOK /\
                rw_sent w2 !! "Content-Disposition" = Some [value]).
  { subst w2.
    destruct (rw_WriteHeader_untouched StatusOK
                (rw_HeaderSet "ETag" (GetETagValue entry)
                   (rw_HeaderSet "Content-Type" (GetContentType entry)
                      (rw_HeaderSet "Content-Disposition" value w1))))
      as (Hs & _ & Hsent & _).
    { now repeat apply rw_HeaderSet_untouched. }
    split; [exact Hs|]. rewrite Hsent. cbn [rw_HeaderSet rw_header]. unfold Header_Set. canon.
    rewrite lookup_insert_ne by discriminate.
    rewrite lookup_insert_ne by discriminate.
    now rewrite lookup_insert_eq. }
  destruct Hs2 as [Hs2 Hcd].
  assert (Hfinal : rw_status (w (snd out)) = Some StatusOK /\
                   sent = Some [value] /\
                   exists post, trace (snd out) = (t2 ++ post)%list).
  { subst sent. rewrite Hout. destruct (makesliceFails (BufferSize h)).
    - cbn [panic snd w trace]. repeat split; auto. exists []. now rewrite app_nil_r.
    - destruct (readLoop_committed (BufferSize h) (rd_script reader)
                  (mkWorld w2 None t2) StatusOK Hs2) as (H1 & H2 & post & H3).
      rewrite H1, H2, H3. cbn [w trace]. repeat split; auto. now exists post. }
  destruct Hfinal as (Hstatus & Hsent & post & Htrace).
  split; [exact Hstatus|]. split; [|split].
  - intros Hin. apply rangeWhitelist_true in Hin.
    rewrite Hsent. subst value kind. now rewrite Hin.
  - intros Hout'. apply rangeWhitelist_false in Hout'.
    rewrite Hsent. subst value kind. now rewrite Hout'.
  - exists value, post. split; [exact Hsent|].
    rewrite Htrace. subst t2. now rewrite <- app_assoc.
Qed.

End DownloadTheorems.

(* ===================================================================== *)
(** ** Download: concrete runs *)
(* ===================================================================== *)

Lemma get_matching_etag_304_witness :
  let h := Demo.handler (Demo.downloadStorage Demo.photoEntry (inr Demo.photoReader)) 1024 in
  let req := Demo.conditionalGet in
  dotStem (index (req_Vars req) "id") = Some "a1b2c3" /\
  LoadStorageEntry (Storage_ h) "a1b2c3" = (true, None, Demo.photoEntry) /\
  Header_Get (req_Header req) "If-None-Match" = GetETagValue Demo.photoEntry /\
  rw_untouched (afterOutgoing h req freshResponseWriter) /\
  let out := Demo.download h req in
  fst out = Normal tt /\
  rw_status (w (snd out)) = Some 304 /\
  rw_body (w (snd out)) = EmptyString /\
  List.filter isBodyWrite (trace (snd out)) = [] /\
  ~ In EvGetReader (trace (snd out)) /\
  (forall size, ~ In (EvSourceRead size) (trace (snd out))).
Proof.
  intros h req.
  assert (H1 : dotStem (index (req_Vars req) "id") = Some "a1b2c3") by run.
  assert (H2 : LoadStorageEntry (Storage_ h) "a1b2c3" = (true, None, Demo.photoEntry))
    by run.
  assert (H3 : Header_Get (req_Header req) "If-None-Match" = GetETagValue Demo.photoEntry)
    by run.
  assert (H4 := freshResponseWriter_untouched).
  repeat (split; [assumption|]).
  exact (get_matching_etag_304 Demo.EqualFold h req freshResponseWriter
           "a1b2c3" Demo.photoEntry H1 H2 H3 H4).
Defined.

Lemma get_empty_etag_304_witness :
  let h := Demo.handler (Demo.downloadStorage Demo.untaggedEntry (inr Demo.photoReader)) 1024 in
  let req := Demo.photoGet in
  dotStem (index (req_Vars req) "id") = Some "a1b2c3" /\
  LoadStorageEntry (Storage_ h) "a1b2c3" = (true, None, Demo.untaggedEntry) /\
  req_Header req !! "If-None-Match" = None /\
  GetETagValue Demo.untaggedEntry = EmptyString /\
  rw_untouched (afterOutgoing h req freshResponseWriter) /\
  let out := Demo.download h req in
  Header_Get (req_Header req) "If-None-Match" = EmptyString /\
  fst out = Normal tt /\
  rw_status (w (snd out)) = Some 304 /\
  rw_body (w (snd out)) = EmptyString /\
  List.filter isBodyWrite (trace (snd out)) = [] /\
  ~ In EvGetReader (trace (snd out)) /\
  (forall size, ~ In (EvSourceRead size) (trace (snd out))).
Proof.
  intros h req.
  assert (H1 : dotStem (index (req_Vars req) "id") = Some "a1b2c3") by run.
  assert (H2 : LoadStorageEntry (Storage_ h) "a1b2c3" = (true, None, Demo.untaggedEntry))
    by run.
  assert (H3 : req_Header req !! "If-None-Match" = None) by run.
  assert (H4 : GetETagValue Demo.untaggedEntry = EmptyString) by reflexivity.
  assert (H5 := freshResponseWriter_untouched).
  do 5 (split; [assumption|]).
  exact (get_empty_etag_304 Demo.EqualFold h req freshResponseWriter
           "a1b2c3" Demo.untaggedEntry H1 H2 H3 H4 H5).
Defined.

Lemma get_content_disposition_witness :
  let h := Demo.handler (Demo.downloadStorage Demo.photoEntry (inr Demo.photoReader)) 1024 in
  let req := Demo.photoGet in
  dotStem (index (req_Vars req) "id") = Some "a1b2c3" /\
  LoadStorageEntry (Storage_ h) "a1b2c3" = (true, None, Demo.photoEntry) /\
  Header_Get (req_Header req) "If-None-Match" <> GetETagValue Demo.photoEntry /\
  GetReader (Storage_ h) Demo.photoEntry = inr Demo.photoReader /\
  rw_untouched (afterOutgoing h req freshResponseWriter) /\
  (exists value, In value (WhitelistedContentTypes h) /\
                 Demo.EqualFold value (GetContentType Demo.photoEntry) = true) /\
  let out := Demo.download h req in
  rw_status (w (snd out)) = Some 200 /\
  rw_sent (w (snd out)) !! "Content-Disposition"
    = Some [dispositionValueFormat "inline" "photo.png"].
Proof.
  intros h req.
  assert (H1 : dotStem (index (req_Vars req) "id") = Some "a1b2c3") by run.
  assert (H2 : LoadStorageEntry (Storage_ h) "a1b2c3" = (true, None, Demo.photoEntry))
    by run.
  assert (H3 : Header_Get (req_Header req) "If-None-Match" <> GetETagValue Demo.photoEntry).
  { vm_compute. discriminate. }
  assert (H4 : GetReader (Storage_ h) Demo.photoEntry = inr Demo.photoReader) by run.
  assert (H5 := freshResponseWriter_untouched).
  assert (H6 : exists value, In value (WhitelistedContentTypes h) /\
                 Demo.EqualFold value (GetContentType Demo.photoEntry) = true).
  { exists "image/png". split; [now left | run]. }
  repeat (split; [assumption|]).
  destruct (get_content_disposition Demo.EqualFold h req freshResponseWriter
              "a1b2c3" Demo.photoEntry Demo.photoReader H1 H2 H3 H4 H5)
    as (Hs & Hinline & _).
  split; [exact Hs | exact (Hinline H6)].
Defined.

(** C3, as the specification has it, fails: a found entry, an
    If-None-Match header that differs from the ETag value, and a backend
    that cannot open the reader.  The answer is 500 and no
    Content-Disposition field is ever set. *)
Lemma get_reader_error_no_disposition :
  let h := Demo.handler
             (Demo.downloadStorage Demo.photoEntry (inl (ErrorString "open: no such file")))
             1024 in
  let req := Demo.photoGet in
  let out := Demo.download h req in
  LoadStorageEntry (Storage_ h) "a1b2c3" = (true, None, Demo.photoEntry) /\
  Header_Get (req_Header req) "If-None-Match" <> GetETagValue Demo.photoEntry /\
  fst out = Panicking (PanicError (ErrorString "open: no such file")) /\
  rw_status (w (snd out)) = Some 500 /\
  rw_sent (w (snd out)) !! "Content-Disposition" = None /\
  rw_header (w (snd out)) !! "Content-Disposition" = None /\
  forall value, ~ In (EvHeaderSet "Content-Disposition" value) (trace (snd out)).
Proof.
  intros h req out.
  split; [run|]. split; [vm_compute; discriminate|].
  split; [run|]. split; [run|]. split; [run|]. split; [run|].
  intros value. vm_compute. intuition discriminate.
Qed.

(** C2 fails on the code.  A file name without a dot makes the slice
    expression of [handleUploadRequest] run out of range, and a path
    segment without a dot does the same in [handleGetRequest]: both
    handlers panic with the runtime's bounds fault, and neither writes an
    error of its own. *)
Theorem dotless_names_index_out_of_range :
  let up := Demo.upload (Demo.handler Demo.uploadStorage 1024) Demo.readmeUpload in
  let down := Demo.download
                (Demo.handler (Demo.downloadStorage Demo.photoEntry (inr Demo.photoReader))
                              1024)
                Demo.dotlessGet in
  GoStrings.LastIndex "README" "." = -1 /\
  GoStrings.sliceFrom "README" (-1) = None /\
  fst up = Panicking sliceBoundsOutOfRange /\
  rw_status (w (snd up)) = Some 200 /\
  rw_body (w (snd up)) = EmptyString /\
  GoStrings.LastIndex "a1b2c3" "." = -1 /\
  GoStrings.sliceTo "a1b2c3" (-1) = None /\
  fst down = Panicking sliceBoundsOutOfRange /\
  rw_status (w (snd down)) = None /\
  trace (snd down) = [].
Proof. intros up down. run_conj. Qed.

(** C7 fails on the code.  A download that streams the entry to its end
    acquires a reader and reads it, and returns without a call of
    [Close] on it. *)
Theorem get_leaves_reader_open :
  let h := Demo.handler (Demo.downloadStorage Demo.photoEntry (inr Demo.photoReader)) 1024 in
  let out := Demo.download h Demo.photoGet in
  fst out = Normal tt /\
  rw_body (w (snd out)) = "PNGDATA" /\
  trace (snd out) =
    [ EvLoadStorageEntry "a1b2c3"; EvGetReader;
      EvHeaderSet "Content-Disposition" (dispositionValueFormat "inline" "photo.png");
      EvHeaderSet "Content-Type" "Image/PNG"; EvHeaderSet "ETag" "etag-1";
      EvWriteHeader 200;
      EvSourceRead 1024; EvWrite "PNGD";
      EvSourceRead 1024; EvWrite "ATA";
      EvSourceRead 1024 ] /\
  In EvGetReader (trace (snd out)) /\
  ~ In EvSourceClose (trace (snd out)).
Proof.
  intros h out. split; [run|]. split; [run|]. split; [run|].
  split; vm_compute; intuition discriminate.
Qed.

(* ===================================================================== *)
(** ** Release of the sink and of the source on every path *)
(* ===================================================================== *)

Section EmitsOnly.

Variable P : Event -> Prop.

Lemma emitsOnly_ret {A : Type} (a : A) : emitsOnly P (ret a).
Proof. intros σ. exists []. cbn. now rewrite app_nil_r. Qed.

Lemma emitsOnly_panic {A : Type} (v : PanicValue) : emitsOnly P (@panic A v).
Proof. intros σ. exists []. cbn. now rewrite app_nil_r. Qed.

Lemma emitsOnly_emit (ev : Event) : P ev -> emitsOnly P (emit ev).
Proof. intros H σ. exists [ev]. cbn. auto. Qed.

Lemma emitsOnly_onResponse (f : ResponseWriter -> ResponseWriter) :
  emitsOnly P (onResponse f).
Proof. intros σ. exists []. cbn. now rewrite app_nil_r. Qed.

Lemma emitsOnly_bind {A B : Type} (c : Go A) (k : A -> Go B) :
  emitsOnly P c -> (forall a, emitsOnly P (k a)) -> emitsOnly P (bind c k).
Proof.
  intros Hc Hk σ. unfold bind.
  destruct (Hc σ) as (post1 & H1 & F1).
  destruct (c σ) as [[a|v] σ1]; cbn [snd] in *.
  - destruct (Hk a σ1) as (post2 & H2 & F2).
    exists (post1 ++ post2)%list. rewrite H2, H1, app_assoc.
    split; [reflexivity | now apply Forall_app].
  - now exists post1.
Qed.

Lemma emitsOnly_w_Write (data : string) : P (EvWrite data) -> emitsOnly P (w_Write data).
Proof.
  intros H σ. rewrite w_Write_run. exists [EvWrite data]. cbn. auto.
Qed.

Lemma emitsOnly_writer_Write (data : string) :
  P (EvSinkWrite data) -> emitsOnly P (writer_Write data).
Proof.
  intros H σ. rewrite writer_Write_run. exists [EvSinkWrite data]. cbn. auto.
Qed.

Lemma emitsOnly_http_Error (msg : string) (code : Z) :
  (forall k v, P (EvHeaderSet k v)) -> (forall c, P (EvWriteHeader c)) ->
  (forall d, P (EvWrite d)) ->
  emitsOnly P (http_Error msg code).
Proof.
  intros H1 H2 H3 σ. rewrite http_Error_run. exists (errorCalls msg code).
  cbn [snd trace]. split; [reflexivity|].
  unfold errorCalls. repeat constructor; auto.
Qed.

End EmitsOnly.

Lemma emitsOnly_readLoop (size : Z) (script : list (string * option error)) :
  emitsOnly notSourceClose (readLoop size script).
Proof.
  induction script as [|[data err] rest IH]; cbn [readLoop].
  - apply emitsOnly_bind; [apply emitsOnly_emit; discriminate|].
    intros _. apply emitsOnly_ret.
  - apply emitsOnly_bind; [apply emitsOnly_emit; discriminate|]. intros _.
    assert (Hcont : emitsOnly notSourceClose
      (if GoStrings.len (GoStrings.take (Z.to_nat size) data) =? 0
       then ret tt
       else werr <- w_Write (GoStrings.take (Z.to_nat size) data) ;;
            match werr with
            | Some e => panic (PanicError e)
            | None => readLoop size rest
            end)).
    { destruct (GoStrings.len (GoStrings.take (Z.to_nat size) data) =? 0).
      - apply emitsOnly_ret.
      - apply emitsOnly_bind; [apply emitsOnly_w_Write; discriminate|].
        intros [e|]; [apply emitsOnly_panic | exact IH]. }
    destruct err as [[|msg]|]; try exact Hcont.
    apply emitsOnly_bind; [|intros _; apply emitsOnly_panic].
    apply emitsOnly_http_Error; discriminate.
Qed.

Lemma emitsOnly_copyParts : forall (rest : list (Part + error)) (cur : Part + error),
  emitsOnly (fun _ => True) (copyParts cur rest).
Proof.
  induction rest as [|next rest IH]; intros [p|e]; cbn [copyParts io_Copy];
    unfold internalError;
    repeat first
      [ apply emitsOnly_ret
      | apply emitsOnly_panic
      | apply emitsOnly_http_Error; intros; exact I
      | apply emitsOnly_writer_Write; exact I
      | apply IH
      | apply emitsOnly_bind; [|intros ?]
      | match goal with
        | |- emitsOnly _ (match ?x with _ => _ end) => destruct x
        end ].
Qed.

(** The download handler has no call of [Close] on the reader it
    acquires: on every path, for every request and backend, its log holds
    none. *)
Lemma handleGetRequest_never_closes (EqualFold : string -> string -> bool)
    (h : ShareXHandler) (req : Request) (w0 : ResponseWriter) :
  ~ In EvSourceClose (trace (snd (serve (handleGetRequest EqualFold h req) w0))).
Proof.
  assert (He : emitsOnly notSourceClose (handleGetRequest EqualFold h req)).
  { unfold handleGetRequest, callOutgoingFunction, http_NotFound, internalError,
      w_Header_Set, w_WriteHeader.
    repeat first
      [ apply emitsOnly_ret
      | apply emitsOnly_panic
      | apply emitsOnly_onResponse
      | apply emitsOnly_readLoop
      | apply emitsOnly_http_Error; discriminate
      | apply emitsOnly_emit; discriminate
      | apply emitsOnly_bind; [|intros ?]
      | match goal with
        | |- emitsOnly _ (match ?x with _ => _ end) => destruct x
        end ]. }
  unfold serve. destruct (He (mkWorld w0 None [])) as (post & -> & HF).
  cbn [trace app]. intros Hin.
  rewrite List.Forall_forall in HF. exact (HF _ Hin eq_refl).
Qed.

(** The upload handler defers the [Close] of its sink: once the sink is
    acquired, whatever happens to the parts and to the finalization, the
    last call of the invocation is that [Close]. *)
Lemma handleUploadRequest_closes_sink
    (ParseMediaType : string -> error + (string * gmap string string))
    (multipart_NewReader : string -> string -> list (Part + error))
    (h : ShareXHandler) (req : Request) (w0 : ResponseWriter)
    (mediatype : string) (params : gmap string string) (writer : Writer) :
  ParseMediaType (Header_Get (req_Header req) "Content-Type") = inr (mediatype, params) ->
  Save (Storage_ h) (NewStorageEntry (Storage_ h)) = None ->
  GetWriter (Storage_ h) (NewStorageEntry (Storage_ h)) = inr writer ->
  exists t,
    trace (snd (serve (handleUploadRequest ParseMediaType multipart_NewReader h req) w0))
    = (t ++ [EvSinkClose])%list /\ In EvGetWriter t.
Proof.
  intros Hparse Hsave Hwriter. unfold serve, handleUploadRequest.
  rewrite (bind_Normal _ _ _ _ _ (callOutgoingFunction_run _ _ _)).
  rewrite Hparse, Hsave, Hwriter.
  cbn [bind emit acquired ret panic w sink trace fst snd].
  rewrite defer_run, writer_Close_run. cbn [snd trace].
  eexists. split; [reflexivity|].
  match goal with
  | |- In _ (trace (snd (?body ?σ))) =>
      assert (He : emitsOnly (fun _ => True) body)
  end.
  { destruct (NextPart _) as [[part|partErr] rest].
    - unfold internalError, w_WriteHeader.
      repeat first
        [ apply emitsOnly_ret
        | apply emitsOnly_panic
        | apply emitsOnly_onResponse
        | apply emitsOnly_copyParts
        | apply emitsOnly_http_Error; intros; exact I
        | apply emitsOnly_w_Write; exact I
        | apply emitsOnly_emit; exact I
        | apply emitsOnly_bind; [|intros ?]
        | match goal with
          | |- emitsOnly _ (match ?x with _ => _ end) => destruct x
          end ].
    - unfold internalError.
      apply emitsOnly_bind; [apply emitsOnly_http_Error; intros; exact I|].
      intros _. apply emitsOnly_panic. }
  match goal with
  | |- In _ (trace (snd (?body ?σ))) => destruct (He σ) as (post & -> & _)
  end.
  cbn [trace]. rewrite !in_app_iff. cbn [In]. tauto.
Qed.

(* ===================================================================== *)
(** ** The cut at the last dot, in both handlers *)
(* ===================================================================== *)

Lemma append_String (c : ascii) (s t : string) :
  (String c s ++ t)%string = String c (s ++ t).
Proof. reflexivity. Qed.

Lemma append_assoc (s t u : string) : ((s ++ t) ++ u)%string = (s ++ (t ++ u))%string.
Proof.
  induction s as [|c s IH]; [reflexivity|].
  rewrite !append_String. now rewrite IH.
Qed.

Lemma append_nil_r (s : string) : (s ++ EmptyString)%string = s.
Proof.
  induction s as [|c s IH]; [reflexivity|].
  rewrite append_String. now rewrite IH.
Qed.

Lemma dotStem_dotSuffix (s : string) :
  match dotStem s, dotSuffix s with
  | Some stem, Some ext => s = (stem ++ ext)%string
  | None, None => True
  | _, _ => False
  end.
Proof.
  induction s as [|c s IH]; [exact I|].
  cbn [dotStem dotSuffix].
  destruct (dotStem s) as [p|], (dotSuffix s) as [e|]; try contradiction.
  - rewrite append_String. now rewrite <- IH.
  - destruct (Ascii.eqb c "."); [reflexivity | exact I].
Qed.

(** Stripping the final dot-suffix of [id ++ ext] gives [id] back for
    every [id], when [ext] is itself a final dot-suffix. *)
Lemma dotStem_of_id_ext (id name ext : string) :
  dotSuffix name = Some ext -> dotStem (id ++ ext) = Some id.
Proof.
  intros H. destruct (SliceFacts.dotSuffix_shape name ext H) as (_ & rest & _ & -> & Hrest).
  apply SliceFacts.dotStem_contains in Hrest.
  induction id as [|c id IH].
  - change (EmptyString ++ String "." rest)%string with (String "." rest).
    cbn [dotStem]. now rewrite Hrest.
  - rewrite append_String. cbn [dotStem]. now rewrite IH.
Qed.

(** X1. The two slice expressions, [name[LastIndex(name, "."):]] of the
    upload handler and [id[:LastIndex(id, ".")]] of the download handler,
    cut a string at the same place: either both pass the bounds check and
    give a stem and an extension whose concatenation is the string, the
    extension starting with the only dot it holds, or the string has no
    dot and both fail the check. *)
Theorem slice_at_last_dot (s : string) :
  match GoStrings.sliceTo s (GoStrings.LastIndex s "."),
        GoStrings.sliceFrom s (GoStrings.LastIndex s ".") with
  | Some stem, Some ext =>
      s = (stem ++ ext)%string /\
      exists rest, ext = String "." rest /\ GoStrings.contains "." rest = false
  | None, None => GoStrings.contains "." s = false
  | _, _ => False
  end.
Proof.
  rewrite SliceFacts.sliceTo_LastIndex, SliceFacts.sliceFrom_LastIndex.
  pose proof (dotStem_dotSuffix s) as H.
  destruct (dotStem s) as [stem|] eqn:Es, (dotSuffix s) as [ext|] eqn:Ee;
    try contradiction.
  - split; [exact H|].
    destruct (SliceFacts.dotSuffix_shape s ext Ee) as (_ & rest & _ & -> & Hrest).
    now exists rest.
  - now apply SliceFacts.dotSuffix_contains.
Qed.

(* ===================================================================== *)
(** ** Upload: the paths that end in an internal fault *)
(* ===================================================================== *)

Lemma internalError_run (σ : World) :
  internalError σ =
  (Normal tt,
   mkWorld (rw_Error "500 an internal error occurred" StatusInternalServerError (w σ))
           (sink σ) (trace σ ++ internalErrorCalls)).
Proof. unfold internalError. now rewrite http_Error_run. Qed.

Lemma fault_run {A : Type} (v : PanicValue) (σ : World) :
  (internalError ;; @panic A v)%go σ =
  (Panicking v,
   mkWorld (rw_Error "500 an internal error occurred" StatusInternalServerError (w σ))
           (sink σ) (trace σ ++ internalErrorCalls)).
Proof. now rewrite (bind_Normal _ _ _ _ _ (internalError_run _)). Qed.

(** The answer to an internal fault on a response nothing was written to. *)
Lemma rw_Error_untouched (r : ResponseWriter) :
  rw_untouched r ->
  rw_status (rw_Error "500 an internal error occurred" StatusInternalServerError r)
    = Some StatusInternalServerError /\
  (rw_accepts r ->
   rw_body (rw_Error "500 an internal error occurred" StatusInternalServerError r)
     = internalErrorText).
Proof.
  intros Hu.
  exact (http_Error_untouched "500 an internal error occurred"
           StatusInternalServerError r Hu).
Qed.

Lemma readsCleanly_firstFault (r : list (Part + error)) :
  readsCleanly r = true <-> firstFault r = None.
Proof.
  induction r as [|[p|e] r IH]; cbn [readsCleanly firstFault].
  - tauto.
  - destruct (part_err p); [split; discriminate | exact IH].
  - destruct (isEOF e); split; congruence.
Qed.

Lemma copiedParts_clean (r : list (Part + error)) :
  readsCleanly r = true -> copiedParts r = partsOf r.
Proof.
  induction r as [|[p|e] r IH]; cbn [readsCleanly copiedParts partsOf]; auto.
  destruct (part_err p); [discriminate|]. intros H. now rewrite IH.
Qed.

(** The copy loop on a stream with a fault: the parts read in full before
    it reach the sink, one [Write] each; then the loop answers 500 and
    panics with the fault. *)
Lemma copyParts_faulty : forall (rest : list (Part + error)) (cur : Part + error)
    (σ : World) (e : error),
  firstFault (cur :: rest) = Some e ->
  copyParts cur rest σ =
  (Panicking (PanicError e),
   mkWorld (rw_Error "500 an internal error occurred" StatusInternalServerError (w σ))
           (option_map (wr_WriteAll (map part_data (copiedParts (cur :: rest)))) (sink σ))
           (trace σ ++ map EvSinkWrite (map part_data (copiedParts (cur :: rest)))
                   ++ internalErrorCalls)).
Proof.
  induction rest as [|next rest IH]; intros cur σ e Hf.
  - destruct cur as [p|pe]; cbn [firstFault copiedParts] in *.
    + destruct (part_err p) as [pe|] eqn:Ep; [|discriminate].
      injection Hf as <-. cbn [copyParts io_Copy]. rewrite Ep, fault_run.
      cbn [map app]. destruct (sink σ); reflexivity.
    + destruct (isEOF pe) eqn:E; [discriminate|]. injection Hf as <-.
      cbn [copyParts]. rewrite E, fault_run.
      cbn [map app]. destruct (sink σ); reflexivity.
  - destruct cur as [p|pe]; cbn [firstFault copiedParts] in *.
    + destruct (part_err p) as [pe|] eqn:Ep.
      * injection Hf as <-. cbn [copyParts io_Copy]. rewrite Ep, fault_run.
        cbn [map app]. destruct (sink σ); reflexivity.
      * cbn [copyParts io_Copy]. rewrite Ep.
        rewrite (bind_Normal _ _ _ _ _ (writer_Write_run _ _)).
        rewrite (IH next _ e Hf). cbn [w sink trace map].
        rewrite option_map_compose.
        repeat first [rewrite <- app_assoc | progress cbn [app]]. reflexivity.
    + destruct (isEOF pe) eqn:E; [discriminate|]. injection Hf as <-.
      cbn [copyParts]. rewrite E, fault_run.
      cbn [map app]. destruct (sink σ); reflexivity.
Qed.

Section UploadFaults.

Variable ParseMediaType : string -> error + (string * gmap string string).
Variable multipart_NewReader : string -> string -> list (Part + error).

(** X2. When [entry.Save()] fails, the upload is answered 500 and the
    handler panics with that error; it has asked for no sink, recorded no
    metadata and finalized nothing. *)
Theorem upload_save_error (h : ShareXHandler) (req : Request) (w0 : ResponseWriter)
    (mediatype : string) (params : gmap string string) (err : error) :
  ParseMediaType (Header_Get (req_Header req) "Content-Type") = inr (mediatype, params) ->
  Save (Storage_ h) (NewStorageEntry (Storage_ h)) = Some err ->
  rw_untouched (afterOutgoing h req w0) ->
  rw_accepts (afterOutgoing h req w0) ->
  let out := serve (handleUploadRequest ParseMediaType multipart_NewReader h req) w0 in
  fst out = Panicking (PanicError err) /\
  rw_status (w (snd out)) = Some StatusInternalServerError /\
  rw_body (w (snd out)) = internalErrorText /\
  trace (snd out) = (hookCalls h ++ [EvNewStorageEntry; EvSave] ++ internalErrorCalls)%list /\
  sink (snd out) = None.
Proof.
  intros Hparse Hsave Hu Ha out. subst out.
  unfold serve, handleUploadRequest.
  rewrite (bind_Normal _ _ _ _ _ (callOutgoingFunction_run _ _ _)).
  rewrite Hparse, Hsave.
  cbn [bind emit acquired ret panic w sink trace fst snd].
  rewrite fault_run. cbn [fst snd w sink trace].
  destruct (rw_Error_untouched _ Hu) as [Hs Hb].
  repeat split; auto.
  repeat first [rewrite <- app_assoc | progress cbn [app]]. reflexivity.
Qed.

(** X3. When [entry.GetWriter()] fails, the upload is answered 500 and
    the handler panics with that error; no sink exists, so none is
    written to or closed, and the entry saved before is never
    finalized. *)
Theorem upload_getwriter_error (h : ShareXHandler) (req : Request) (w0 : ResponseWriter)
    (mediatype : string) (params : gmap string string) (err : error) :
  ParseMediaType (Header_Get (req_Header req) "Content-Type") = inr (mediatype, params) ->
  Save (Storage_ h) (NewStorageEntry (Storage_ h)) = None ->
  GetWriter (Storage_ h) (NewStorageEntry (Storage_ h)) = inl err ->
  rw_untouched (afterOutgoing h req w0) ->
  rw_accepts (afterOutgoing h req w0) ->
  let out := serve (handleUploadRequest ParseMediaType multipart_NewReader h req) w0 in
  fst out = Panicking (PanicError err) /\
  rw_status (w (snd out)) = Some StatusInternalServerError /\
  rw_body (w (snd out)) = internalErrorText /\
  trace (snd out) = (sinkAcquiredCalls h ++ internalErrorCalls)%list /\
  sink (snd out) = None.
Proof.
  intros Hparse Hsave Hwriter Hu Ha out. subst out.
  unfold serve, handleUploadRequest.
  rewrite (bind_Normal _ _ _ _ _ (callOutgoingFunction_run _ _ _)).
  rewrite Hparse, Hsave, Hwriter.
  cbn [bind emit acquired ret panic w sink trace fst snd].
  rewrite fault_run. cbn [fst snd w sink trace].
  destruct (rw_Error_untouched _ Hu) as [Hs Hb].
  repeat split; auto.
  unfold sinkAcquiredCalls.
  repeat first [rewrite <- app_assoc | progress cbn [app]]. reflexivity.
Qed.

(** X4. When the first call of [NextPart] fails, with [io.EOF] for a body
    that holds no part or with any other error, the upload is answered
    500 and the handler panics with that error; the sink is closed
    without a write, and no metadata is recorded or finalized. *)
Theorem upload_no_first_part (h : ShareXHandler) (req : Request) (w0 : ResponseWriter)
    (mediatype : string) (params : gmap string string) (writer : Writer) (err : error) :
  uploadAcquiresSink ParseMediaType h req mediatype params writer ->
  fst (NextPart (multipart_NewReader (req_Body req) (index params "boundary"))) = inr err ->
  rw_untouched (afterOutgoing h req w0) ->
  rw_accepts (afterOutgoing h req w0) ->
  let out := serve (handleUploadRequest ParseMediaType multipart_NewReader h req) w0 in
  fst out = Panicking (PanicError err) /\
  rw_status (w (snd out)) = Some StatusInternalServerError /\
  rw_body (w (snd out)) = internalErrorText /\
  trace (snd out) = (sinkAcquiredCalls h ++ internalErrorCalls ++ [EvSinkClose])%list /\
  sink (snd out) = Some (wr_Close writer).
Proof.
  intros (Hparse & Hsave & Hwriter) Hfirst Hu Ha out. subst out.
  unfold serve, handleUploadRequest.
  rewrite (bind_Normal _ _ _ _ _ (callOutgoingFunction_run _ _ _)).
  rewrite Hparse, Hsave, Hwriter.
  cbn [bind emit acquired ret panic w sink trace fst snd].
  rewrite defer_run.
  destruct (NextPart (multipart_NewReader (req_Body req) (index params "boundary")))
    as [first rest'].
  cbn [fst] in Hfirst. subst first.
  rewrite fault_run, writer_Close_run. cbn [fst snd w sink trace option_map].
  destruct (rw_Error_untouched _ Hu) as [Hs Hb].
  repeat split; auto.
  unfold sinkAcquiredCalls.
  repeat first [rewrite <- app_assoc | progress cbn [app]]. reflexivity.
Qed.

(** X5. When a part cannot be read to its end, or a later call of
    [NextPart] fails with an error other than [io.EOF], the upload is
    answered 500 and the handler panics with that error.  The parts read
    in full before the fault have reached the sink, one [Write] each;
    the sink is closed, and [entry.Update()] is never called, so the
    entry is not finalized. *)
Theorem upload_part_fault_not_finalized (h : ShareXHandler) (req : Request)
    (w0 : ResponseWriter) (mediatype : string) (params : gmap string string)
    (writer : Writer) (part : Part) (rest : list (Part + error)) (err : error) :
  uploadAcquiresSink ParseMediaType h req mediatype params writer ->
  multipart_NewReader (req_Body req) (index params "boundary") = inl part :: rest ->
  firstFault (inl part :: rest) = Some err ->
  rw_untouched (afterOutgoing h req w0) ->
  rw_accepts (afterOutgoing h req w0) ->
  let out := serve (handleUploadRequest ParseMediaType multipart_NewReader h req) w0 in
  fst out = Panicking (PanicError err) /\
  rw_status (w (snd out)) = Some StatusInternalServerError /\
  rw_body (w (snd out)) = internalErrorText /\
  sinkWrites (trace (snd out)) = map part_data (copiedParts (inl part :: rest)) /\
  (forall e, ~ In (EvUpdate e) (trace (snd out))) /\
  (exists t, trace (snd out) = (t ++ [EvSinkClose])%list) /\
  sink (snd out)
    = Some (wr_Close (wr_WriteAll (map part_data (copiedParts (inl part :: rest))) writer)).
Proof.
  intros (Hparse & Hsave & Hwriter) Hreader Hfault Hu Ha out. subst out.
  unfold serve, handleUploadRequest.
  rewrite (bind_Normal _ _ _ _ _ (callOutgoingFunction_run _ _ _)).
  rewrite Hparse, Hsave, Hwriter, Hreader.
  cbn [bind emit acquired ret panic w sink trace fst snd].
  rewrite defer_run. cbn [NextPart].
  cbn [bind emit acquired ret panic w sink trace fst snd].
  rewrite !(bind_Panicking _ _ _ _ _ (copyParts_faulty _ _ _ _ Hfault)).
  rewrite writer_Close_run. cbn [fst snd w sink trace option_map].
  destruct (rw_Error_untouched _ Hu) as [Hs Hb].
  set (chunks := map part_data (copiedParts (inl part :: rest))).
  assert (Hnone : forall cs, sinkWrites (map EvSinkWrite cs ++ internalErrorCalls
                                         ++ [EvSinkClose]) = cs).
  { intros cs. rewrite sinkWrites_app, sinkWrites_map. cbn. now rewrite app_nil_r. }
  repeat split; auto.
  - rewrite <- !app_assoc. rewrite !sinkWrites_app, sinkWrites_hookCalls.
    cbn [sinkWrites app]. fold chunks.
    rewrite sinkWrites_map. cbn. now rewrite app_nil_r.
  - intros e Hin. rewrite !in_app_iff in Hin.
    unfold hookCalls in Hin.
    assert (Hm : ~ In (EvUpdate e) (map EvSinkWrite chunks)).
    { intros Hx. apply in_map_iff in Hx. destruct Hx as (? & Hx & _). discriminate. }
    destruct (OutgoingFunction h); cbn in Hin; intuition discriminate.
  - eexists. reflexivity.
Qed.

(** X6. When [entry.Update()] fails after every part was copied, the
    upload is answered 500 and the handler panics, not with the error of
    [Update] but with [io.EOF], the value the copy loop left in
    [partErr]. *)
Theorem upload_update_error_panics_with_EOF (h : ShareXHandler) (req : Request)
    (w0 : ResponseWriter) (mediatype : string) (params : gmap string string)
    (writer : Writer) (part : Part) (rest : list (Part + error)) (err : error) :
  uploadAcquiresSink ParseMediaType h req mediatype params writer ->
  multipart_NewReader (req_Body req) (index params "boundary") = inl part :: rest ->
  readsCleanly (inl part :: rest) = true ->
  Update (Storage_ h) (recordedEntry (Storage_ h) part) = Some err ->
  rw_untouched (afterOutgoing h req w0) ->
  rw_accepts (afterOutgoing h req w0) ->
  let out := serve (handleUploadRequest ParseMediaType multipart_NewReader h req) w0 in
  fst out = Panicking (PanicError EOF) /\
  rw_status (w (snd out)) = Some StatusInternalServerError /\
  rw_body (w (snd out)) = internalErrorText /\
  trace (snd out) = (uploadCalls h part rest ++ internalErrorCalls ++ [EvSinkClose])%list.
Proof.
  intros (Hparse & Hsave & Hwriter) Hreader Hclean Hupdate Hu Ha out. subst out.
  unfold serve, handleUploadRequest.
  rewrite (bind_Normal _ _ _ _ _ (callOutgoingFunction_run _ _ _)).
  rewrite Hparse, Hsave, Hwriter, Hreader.
  cbn [bind emit acquired ret panic w sink trace fst snd].
  rewrite defer_run. cbn [NextPart].
  cbn [bind emit acquired ret panic w sink trace fst snd].
  rewrite !(bind_Normal _ _ _ _ _ (copyParts_clean _ _ _ Hclean)).
  cbn [bind emit acquired ret panic w sink trace fst snd].
  fold (recordedEntry (Storage_ h) part). rewrite Hupdate.
  rewrite fault_run, writer_Close_run. cbn [fst snd w sink trace option_map].
  destruct (rw_Error_untouched _ Hu) as [Hs Hb].
  repeat split; auto.
  unfold uploadCalls.
  repeat first [rewrite <- app_assoc | progress cbn [app]]. reflexivity.
Qed.

End UploadFaults.

(* ===================================================================== *)
(** ** Upload: finalization, the sink, and what the handler never does *)
(* ===================================================================== *)

Lemma wr_WriteAll_closed (chunks : list string) : forall wr : Writer,
  wr_closed (wr_WriteAll chunks wr) = wr_closed wr.
Proof.
  unfold wr_WriteAll.
  induction chunks as [|c cs IH]; intros wr; [reflexivity|].
  cbn [fold_left]. rewrite IH. unfold wr_Write.
  destruct (wr_faults wr) as [|[e|] fs]; reflexivity.
Qed.

Lemma wr_WriteAll_accepting (chunks : list string) : forall wr : Writer,
  wr_faults wr = [] ->
  wr_chunks (wr_WriteAll chunks wr) = (wr_chunks wr ++ chunks)%list /\
  wr_faults (wr_WriteAll chunks wr) = [].
Proof.
  unfold wr_WriteAll.
  induction chunks as [|c cs IH]; intros wr Hf.
  - cbn. now rewrite app_nil_r.
  - cbn [fold_left].
    assert (Hw : snd (wr_Write c wr) = mkWriter [] (wr_chunks wr ++ [c]) (wr_closed wr)).
    { unfold wr_Write. now rewrite Hf. }
    rewrite Hw.
    destruct (IH (mkWriter [] (wr_chunks wr ++ [c]) (wr_closed wr)) eq_refl) as [H1 H2].
    split; [|exact H2]. rewrite H1. cbn [wr_chunks]. now rewrite <- app_assoc.
Qed.

Section EmitsOnlyMore.

Variable P : Event -> Prop.

Lemma emitsOnly_acquired (writer : Writer) : emitsOnly P (acquired writer).
Proof. intros σ. exists []. cbn. now rewrite app_nil_r. Qed.

Lemma emitsOnly_writer_Close : P EvSinkClose -> emitsOnly P writer_Close.
Proof. intros H σ. rewrite writer_Close_run. exists [EvSinkClose]. cbn. auto. Qed.

Lemma emitsOnly_defer {A : Type} (d : Go unit) (body : Go A) :
  emitsOnly P d -> emitsOnly P body -> emitsOnly P (defer d body).
Proof.
  intros Hd Hb σ. rewrite defer_run. cbn [snd].
  destruct (Hb σ) as (post1 & H1 & F1).
  destruct (Hd (snd (body σ))) as (post2 & H2 & F2).
  exists (post1 ++ post2)%list. rewrite H2, H1, app_assoc.
  split; [reflexivity | now apply Forall_app].
Qed.

Lemma emitsOnly_http_Error_at (msg : string) (code : Z) :
  (forall k v, P (EvHeaderSet k v)) -> P (EvWriteHeader code) ->
  (forall d, P (EvWrite d)) ->
  emitsOnly P (http_Error msg code).
Proof.
  intros H1 H2 H3 σ. rewrite http_Error_run. exists (errorCalls msg code).
  cbn [snd trace]. split; [reflexivity|].
  unfold errorCalls. repeat constructor; auto.
Qed.

Hypothesis P_HeaderSet : forall k v, P (EvHeaderSet k v).
Hypothesis P_Write : forall d, P (EvWrite d).
Hypothesis P_500 : P (EvWriteHeader StatusInternalServerError).

Lemma emitsOnly_internalError : emitsOnly P internalError.
Proof. unfold internalError. now apply emitsOnly_http_Error_at. Qed.

Lemma emitsOnly_copyParts_of :
  (forall d, P (EvSinkWrite d)) ->
  forall (rest : list (Part + error)) (cur : Part + error),
    emitsOnly P (copyParts cur rest).
Proof.
  intros Hsw.
  induction rest as [|next rest IH]; intros [p|e]; cbn [copyParts io_Copy];
    repeat first
      [ apply emitsOnly_ret
      | apply emitsOnly_panic
      | apply emitsOnly_internalError
      | apply emitsOnly_writer_Write; apply Hsw
      | apply IH
      | apply emitsOnly_bind; [|intros ?]
      | match goal with
        | |- emitsOnly _ (match ?x with _ => _ end) => destruct x
        end ].
Qed.

Lemma emitsOnly_readLoop_of (size : Z) :
  P (EvSourceRead size) ->
  forall script : list (string * option error), emitsOnly P (readLoop size script).
Proof.
  intros Hrd.
  induction script as [|[data err] rest IH]; cbn [readLoop].
  - apply emitsOnly_bind; [now apply emitsOnly_emit|].
    intros _. apply emitsOnly_ret.
  - apply emitsOnly_bind; [now apply emitsOnly_emit|]. intros _.
    assert (Hcont : emitsOnly P
      (if GoStrings.len (GoStrings.take (Z.to_nat size) data) =? 0
       then ret tt
       else werr <- w_Write (GoStrings.take (Z.to_nat size) data) ;;
            match werr with
            | Some e => panic (PanicError e)
            | None => readLoop size rest
            end)).
    { destruct (GoStrings.len (GoStrings.take (Z.to_nat size) data) =? 0).
      - apply emitsOnly_ret.
      - apply emitsOnly_bind; [apply emitsOnly_w_Write; apply P_Write|].
        intros [e|]; [apply emitsOnly_panic | exact IH]. }
    destruct err as [[|msg]|]; try exact Hcont.
    apply emitsOnly_bind; [|intros _; apply emitsOnly_panic].
    apply emitsOnly_internalError.
Qed.

End EmitsOnlyMore.

Section UploadOrder.

Variable ParseMediaType : string -> error + (string * gmap string string).
Variable multipart_NewReader : string -> string -> list (Part + error).

(** X7. In an upload that goes through, the entry is finalized exactly
    once, carrying the allocated id with the file name and the content
    type of the first part, whatever parts follow; and [entry.Update()]
    is called while the sink is still open: the deferred
    [writer.Close()] comes last, after the response is written. *)
Theorem upload_finalizes_before_close (h : ShareXHandler) (req : Request)
    (w0 : ResponseWriter) (mediatype : string) (params : gmap string string)
    (writer : Writer) (part : Part) (rest : list (Part + error)) :
  uploadGoesThrough ParseMediaType multipart_NewReader h req
                    mediatype params writer part rest ->
  let out := serve (handleUploadRequest ParseMediaType multipart_NewReader h req) w0 in
  let finalized :=
    mkStorageEntry (GetId (NewStorageEntry (Storage_ h))) (FileName part)
                   (Header_Get (part_Header part) "Content-Type")
                   (GetETagValue (NewStorageEntry (Storage_ h))) in
  exists pre mid,
    trace (snd out) = (pre ++ [EvUpdate finalized] ++ mid ++ [EvSinkClose])%list /\
    (forall e, ~ In (EvUpdate e) pre) /\ (forall e, ~ In (EvUpdate e) mid) /\
    ~ In EvSinkClose pre /\ ~ In EvSinkClose mid /\
    (forall d, ~ In (EvWrite d) pre) /\ (forall c, ~ In (EvWriteHeader c) pre).
Proof.
  intros Hgo out finalized. subst out.
  rewrite (upload_finalized_run _ _ h req w0 _ _ _ _ _ Hgo). cbv zeta.
  set (chunks := map part_data (partsOf (inl part :: rest))).
  assert (Hm : forall ev, (forall d, ev <> EvSinkWrite d) ->
                 ~ In ev (map EvSinkWrite chunks)).
  { intros ev Hev Hx. apply in_map_iff in Hx. destruct Hx as (d & Hx & _).
    symmetry in Hx. exact (Hev d Hx). }
  exists (hookCalls h ++
          [ EvNewStorageEntry; EvSave; EvGetWriter;
            EvSetContentType (Header_Get (part_Header part) "Content-Type");
            EvSetFilename (FileName part) ] ++ map EvSinkWrite chunks)%list.
  assert (Hpre : forall ev, (forall d, ev <> EvSinkWrite d) ->
            ev <> EvOutgoing -> ev <> EvNewStorageEntry -> ev <> EvSave ->
            ev <> EvGetWriter -> (forall v, ev <> EvSetContentType v) ->
            (forall v, ev <> EvSetFilename v) ->
            ~ In ev (hookCalls h ++
                     [ EvNewStorageEntry; EvSave; EvGetWriter;
                       EvSetContentType (Header_Get (part_Header part) "Content-Type");
                       EvSetFilename (FileName part) ] ++ map EvSinkWrite chunks)).
  { intros ev H1 H2 H3 H4 H5 H6 H7 Hin. rewrite !in_app_iff in Hin.
    destruct Hin as [Hin | [Hin | Hin]].
    - unfold hookCalls in Hin.
      destruct (OutgoingFunction h); cbn in Hin; intuition congruence.
    - cbn in Hin. destruct Hin as [Hin | [Hin | [Hin | [Hin | [Hin | []]]]]];
        symmetry in Hin; [congruence | congruence | congruence | |].
      + exact (H6 _ Hin).
      + exact (H7 _ Hin).
    - exact (Hm ev H1 Hin). }
  destruct (dotSuffix (FileName part)) as [extension|].
  - exists [EvWriteHeader 200;
            EvWrite (ProtocolHost h ++ GetId (NewStorageEntry (Storage_ h)) ++ extension)].
    cbn [snd trace]. split.
    { unfold uploadCalls. fold chunks.
      repeat first [rewrite <- app_assoc | progress cbn [app]]. reflexivity. }
    repeat split; try (intros; apply Hpre; intros; discriminate);
      try (intros ? Hin; cbn in Hin; intuition discriminate);
      try (intros Hin; cbn in Hin; intuition discriminate).
  - exists [EvWriteHeader 200].
    cbn [snd trace]. split.
    { unfold uploadCalls. fold chunks.
      repeat first [rewrite <- app_assoc | progress cbn [app]]. reflexivity. }
    repeat split; try (intros; apply Hpre; intros; discriminate);
      try (intros ? Hin; cbn in Hin; intuition discriminate);
      try (intros Hin; cbn in Hin; intuition discriminate).
Qed.

(** X8. In an upload that goes through on a sink that takes every write,
    the sink ends up holding the bytes of the parts, one chunk per part
    in the order of the body and after whatever it held, and it has been
    closed exactly once. *)
Theorem upload_sink_receives_parts (h : ShareXHandler) (req : Request)
    (w0 : ResponseWriter) (mediatype : string) (params : gmap string string)
    (writer : Writer) (part : Part) (rest : list (Part + error)) :
  uploadGoesThrough ParseMediaType multipart_NewReader h req
                    mediatype params writer part rest ->
  wr_faults writer = [] ->
  let out := serve (handleUploadRequest ParseMediaType multipart_NewReader h req) w0 in
  exists wr,
    sink (snd out) = Some wr /\
    wr_chunks wr = (wr_chunks writer ++ map part_data (partsOf (inl part :: rest)))%list /\
    wr_closed wr = S (wr_closed writer).
Proof.
  intros Hgo Hf out. subst out.
  rewrite (upload_finalized_run _ _ h req w0 _ _ _ _ _ Hgo). cbv zeta.
  destruct (wr_WriteAll_accepting (map part_data (partsOf (inl part :: rest))) writer Hf)
    as [Hc _].
  pose proof (wr_WriteAll_closed (map part_data (partsOf (inl part :: rest))) writer) as Hcl.
  destruct (dotSuffix (FileName part)); cbn [snd sink];
    eexists; (split; [reflexivity|]); cbn [wr_Close wr_chunks wr_closed];
    (split; [exact Hc | now rewrite Hcl]).
Qed.

(** X9. Once [GetWriter] has returned a sink, [writer.Close()] is called
    exactly once, as the last call of the invocation, whatever happens to
    the parts and to the finalization and however the handler ends. *)
Theorem upload_closes_sink_exactly_once (h : ShareXHandler) (req : Request)
    (w0 : ResponseWriter) (mediatype : string) (params : gmap string string)
    (writer : Writer) :
  uploadAcquiresSink ParseMediaType h req mediatype params writer ->
  let out := serve (handleUploadRequest ParseMediaType multipart_NewReader h req) w0 in
  exists t, trace (snd out) = (t ++ [EvSinkClose])%list /\ ~ In EvSinkClose t.
Proof.
  intros (Hparse & Hsave & Hwriter) out. subst out.
  unfold serve, handleUploadRequest.
  rewrite (bind_Normal _ _ _ _ _ (callOutgoingFunction_run _ _ _)).
  rewrite Hparse, Hsave, Hwriter.
  cbn [bind emit acquired ret panic w sink trace fst snd].
  rewrite defer_run, writer_Close_run. cbn [snd trace].
  eexists. split; [reflexivity|].
  match goal with
  | |- ~ In _ (trace (snd (?body ?σ))) =>
      assert (He : emitsOnly notSinkClose body)
  end.
  { destruct (NextPart _) as [[part|partErr] rest].
    - unfold w_WriteHeader.
      repeat first
        [ apply emitsOnly_ret
        | apply emitsOnly_panic
        | apply emitsOnly_onResponse
        | apply emitsOnly_copyParts_of; intros; discriminate
        | apply emitsOnly_internalError; intros; discriminate
        | apply emitsOnly_w_Write; discriminate
        | apply emitsOnly_emit; discriminate
        | apply emitsOnly_bind; [|intros ?]
        | match goal with
          | |- emitsOnly _ (match ?x with _ => _ end) => destruct x
          end ].
    - apply emitsOnly_bind; [apply emitsOnly_internalError; intros; discriminate|].
      intros _. apply emitsOnly_panic. }
  match goal with
  | |- ~ In _ (trace (snd (?body ?σ))) => destruct (He σ) as (post & -> & HF)
  end.
  cbn [trace]. intros Hin. rewrite !in_app_iff in Hin.
  rewrite List.Forall_forall in HF. unfold hookCalls in Hin.
  destruct Hin as [Hin | Hin]; [|exact (HF _ Hin eq_refl)].
  destruct (OutgoingFunction h); cbn in Hin; intuition discriminate.
Qed.

(** X10. Whatever the request and the collaborators do, the calls of
    [handleUploadRequest] stay within the hook, the response, and the
    creation, filling and finalization of one entry: it never looks an
    entry up or reads one, and the only statuses it writes are 200, 400
    and 500. *)
Theorem upload_calls_confined (h : ShareXHandler) (req : Request) (w0 : ResponseWriter) :
  Forall (fun ev => uploadCall ev = true)
         (trace (snd (serve (handleUploadRequest ParseMediaType multipart_NewReader h req)
                            w0))).
Proof.
  assert (He : emitsOnly (fun ev => uploadCall ev = true)
                 (handleUploadRequest ParseMediaType multipart_NewReader h req)).
  { unfold handleUploadRequest, callOutgoingFunction, w_WriteHeader.
    repeat match goal with
      | |- emitsOnly _ (match ?x with _ => _ end) => destruct x
      | |- emitsOnly _ (bind _ _) => apply emitsOnly_bind; [|intros ?]
      | |- emitsOnly _ (defer _ _) => apply emitsOnly_defer
      | |- emitsOnly _ (ret _) => apply emitsOnly_ret
      | |- emitsOnly _ (panic _) => apply emitsOnly_panic
      | |- emitsOnly _ (onResponse _) => apply emitsOnly_onResponse
      | |- emitsOnly _ (acquired _) => apply emitsOnly_acquired
      | |- emitsOnly _ writer_Close => apply emitsOnly_writer_Close; reflexivity
      | |- emitsOnly _ (copyParts _ _) =>
          apply emitsOnly_copyParts_of; intros; reflexivity
      | |- emitsOnly _ internalError => apply emitsOnly_internalError; intros; reflexivity
      | |- emitsOnly _ (http_Error _ _) =>
          apply emitsOnly_http_Error_at; intros; reflexivity
      | |- emitsOnly _ (w_Write _) => apply emitsOnly_w_Write; reflexivity
      | |- emitsOnly _ (emit _) => apply emitsOnly_emit; reflexivity
      end. }
  unfold serve. destruct (He (mkWorld w0 None [])) as (post & -> & HF). exact HF.
Qed.

End UploadOrder.

(* ===================================================================== *)
(** ** Upload: how the handler can panic *)
(* ===================================================================== *)

(** A computation that returns and only adds to the log never panics. *)
Lemma answered_returns {A : Type} (c : Go A) :
  (forall σ, exists a post,
     fst (c σ) = Normal a /\ trace (snd (c σ)) = (trace σ ++ post)%list) ->
  answered c.
Proof.
  intros H σ. destruct (H σ) as (a & post & Hr & Ht).
  exists post. split; [exact Ht|]. intros v Hv. congruence.
Qed.

Lemma answered_ret {A : Type} (a : A) : answered (ret a).
Proof.
  apply answered_returns. intros σ. exists a, []. cbn. now rewrite app_nil_r.
Qed.

Lemma answered_emit (ev : Event) : answered (emit ev).
Proof. apply answered_returns. intros σ. now exists tt, [ev]. Qed.

Lemma answered_onResponse (f : ResponseWriter -> ResponseWriter) :
  answered (onResponse f).
Proof.
  apply answered_returns. intros σ. exists tt, []. cbn. now rewrite app_nil_r.
Qed.

Lemma answered_acquired (writer : Writer) : answered (acquired writer).
Proof.
  apply answered_returns. intros σ. exists tt, []. cbn. now rewrite app_nil_r.
Qed.

Lemma answered_w_Write (data : string) : answered (w_Write data).
Proof.
  apply answered_returns. intros σ. rewrite w_Write_run.
  now exists (fst (rw_Write data (w σ))), [EvWrite data].
Qed.

Lemma answered_writer_Write (data : string) : answered (writer_Write data).
Proof.
  apply answered_returns. intros σ. rewrite writer_Write_run.
  eexists _, [EvSinkWrite data]. split; reflexivity.
Qed.

Lemma answered_http_Error (msg : string) (code : Z) : answered (http_Error msg code).
Proof.
  apply answered_returns. intros σ. rewrite http_Error_run.
  now exists tt, (errorCalls msg code).
Qed.

Lemma answered_bounds_fault {A : Type} : answered (@panic A sliceBoundsOutOfRange).
Proof.
  intros σ. exists []. cbn. rewrite app_nil_r. split; [reflexivity|].
  intros v [= <-]. reflexivity.
Qed.

Lemma answered_fault {A : Type} (e : error) :
  answered (internalError ;; @panic A (PanicError e))%go.
Proof.
  intros σ. rewrite fault_run. exists internalErrorCalls. cbn [fst snd trace].
  split; [reflexivity|]. intros v [= <-]. cbn. tauto.
Qed.

Lemma answered_bind {A B : Type} (c : Go A) (k : A -> Go B) :
  answered c -> (forall a, answered (k a)) -> answered (bind c k).
Proof.
  intros Hc Hk σ. unfold bind.
  destruct (Hc σ) as (post1 & H1 & F1).
  destruct (c σ) as [[a|v] σ1]; cbn [fst snd] in *.
  - destruct (Hk a σ1) as (post2 & H2 & F2).
    exists (post1 ++ post2)%list. rewrite H2, H1, app_assoc.
    split; [reflexivity|].
    intros v Hv. specialize (F2 v Hv).
    destruct v; [|exact F2]. apply in_app_iff. now right.
  - exists post1. split; [exact H1|]. intros v' [= <-]. now apply F1.
Qed.

Lemma answered_defer_Close {A : Type} (body : Go A) :
  answered body -> answered (defer writer_Close body).
Proof.
  intros Hb σ. rewrite defer_run, writer_Close_run. cbn [fst snd trace].
  destruct (Hb σ) as (post & H & F).
  exists (post ++ [EvSinkClose])%list. rewrite H, app_assoc.
  split; [reflexivity|].
  intros v Hv. specialize (F v Hv).
  destruct v; [|exact F]. apply in_app_iff. now left.
Qed.

Lemma answered_copyParts : forall (rest : list (Part + error)) (cur : Part + error),
  answered (copyParts cur rest).
Proof.
  induction rest as [|next rest IH]; intros [p|e]; cbn [copyParts io_Copy];
    repeat match goal with
      | |- answered (match ?x with _ => _ end) => destruct x
      | |- answered (bind internalError (fun _ => panic (PanicError _))) =>
          apply answered_fault
      | |- answered (bind _ _) => apply answered_bind; [|intros ?]
      | |- answered (ret _) => apply answered_ret
      | |- answered (writer_Write _) => apply answered_writer_Write
      | |- answered (copyParts _ _) => apply IH
      end.
Qed.

(** X11. Provided every call on a collaborator returns (the hook, the
    storage, the entry and the sink do not panic themselves, the entry
    and the writer the storage hands out can be called, and each part
    fits the in-memory buffer): whatever the request is and whatever
    values those calls return, [handleUploadRequest] panics in two ways
    only: with an error value, and then it has called [http.Error] with
    status 500 before, or with the runtime's bounds fault of the slice
    expression. *)
Theorem upload_panics_answered
    (ParseMediaType : string -> error + (string * gmap string string))
    (multipart_NewReader : string -> string -> list (Part + error))
    (h : ShareXHandler) (req : Request) (w0 : ResponseWriter) :
  let out := serve (handleUploadRequest ParseMediaType multipart_NewReader h req) w0 in
  match fst out with
  | Normal _ => True
  | Panicking (PanicError _) =>
      In (EvWriteHeader StatusInternalServerError) (trace (snd out))
  | Panicking (PanicRuntime msg) => PanicRuntime msg = sliceBoundsOutOfRange
  end.
Proof.
  intros out.
  assert (Ha : answered (handleUploadRequest ParseMediaType multipart_NewReader h req)).
  { unfold handleUploadRequest, callOutgoingFunction, w_WriteHeader.
    repeat match goal with
      | |- answered (match ?x with _ => _ end) => destruct x
      | |- answered (bind internalError (fun _ => panic (PanicError _))) =>
          apply answered_fault
      | |- answered (bind _ _) => apply answered_bind; [|intros ?]
      | |- answered (defer writer_Close _) => apply answered_defer_Close
      | |- answered (ret _) => apply answered_ret
      | |- answered (panic sliceBoundsOutOfRange) => apply answered_bounds_fault
      | |- answered (onResponse _) => apply answered_onResponse
      | |- answered (acquired _) => apply answered_acquired
      | |- answered (copyParts _ _) => apply answered_copyParts
      | |- answered (http_Error _ _) => apply answered_http_Error
      | |- answered (w_Write _) => apply answered_w_Write
      | |- answered (emit _) => apply answered_emit
      end. }
  subst out. unfold serve.
  destruct (Ha (mkWorld w0 None [])) as (post & Ht & HF).
  rewrite Ht. cbn [trace app].
  destruct (fst (handleUploadRequest ParseMediaType multipart_NewReader h req
                   (mkWorld w0 None []))) as [a|v] eqn:E; [exact I|].
  specialize (HF v eq_refl). destruct v; exact HF.
Qed.

(* ===================================================================== *)
(** ** Download: lookup failures *)
(* ===================================================================== *)

Section DownloadLookup.

Variable EqualFold : string -> string -> bool.

(** X12. A GET whose entry the storage does not find is answered 404 with
    the text of [http.NotFound]; the handler returns without asking for a
    reader. *)
Theorem get_not_found_404 (h : ShareXHandler) (req : Request) (w0 : ResponseWriter)
    (id : string) (entry : StorageEntry) :
  dotStem (index (req_Vars req) "id") = Some id ->
  LoadStorageEntry (Storage_ h) id = (false, None, entry) ->
  rw_untouched (afterOutgoing h req w0) ->
  rw_accepts (afterOutgoing h req w0) ->
  let out := serve (handleGetRequest EqualFold h req) w0 in
  fst out = Normal tt /\
  rw_status (w (snd out)) = Some StatusNotFound /\
  rw_body (w (snd out)) = "404 page not found" ++ LF /\
  trace (snd out) =
    (hookCalls h ++ [EvLoadStorageEntry id] ++
     errorCalls "404 page not found" StatusNotFound)%list.
Proof.
  intros Hid Hload Hu Ha out. subst out.
  unfold serve, handleGetRequest.
  rewrite (bind_Normal _ _ _ _ _ (callOutgoingFunction_run _ _ _)).
  rewrite SliceFacts.sliceTo_LastIndex, Hid.
  cbn [bind emit w sink trace]. rewrite Hload. cbn [negb].
  unfold http_NotFound. rewrite http_Error_run. cbn [fst snd w sink trace].
  destruct (http_Error_untouched "404 page not found" StatusNotFound _ Hu) as [Hs Hb].
  repeat split; auto.
  now rewrite <- app_assoc.
Qed.

(** X13. A GET whose lookup returns an error is answered 500 and the
    handler panics with that error, whatever the success flag returned
    with it says; no reader is asked for. *)
Theorem get_lookup_error_500 (h : ShareXHandler) (req : Request) (w0 : ResponseWriter)
    (id : string) (success : bool) (err : error) (entry : StorageEntry) :
  dotStem (index (req_Vars req) "id") = Some id ->
  LoadStorageEntry (Storage_ h) id = (success, Some err, entry) ->
  rw_untouched (afterOutgoing h req w0) ->
  rw_accepts (afterOutgoing h req w0) ->
  let out := serve (handleGetRequest EqualFold h req) w0 in
  fst out = Panicking (PanicError err) /\
  rw_status (w (snd out)) = Some StatusInternalServerError /\
  rw_body (w (snd out)) = internalErrorText /\
  trace (snd out) = (hookCalls h ++ [EvLoadStorageEntry id] ++ internalErrorCalls)%list.
Proof.
  intros Hid Hload Hu Ha out. subst out.
  unfold serve, handleGetRequest.
  rewrite (bind_Normal _ _ _ _ _ (callOutgoingFunction_run _ _ _)).
  rewrite SliceFacts.sliceTo_LastIndex, Hid.
  cbn [bind emit w sink trace]. rewrite Hload.
  rewrite fault_run. cbn [fst snd w sink trace].
  destruct (rw_Error_untouched _ Hu) as [Hs Hb].
  repeat split; auto.
  now rewrite <- app_assoc.
Qed.

(** X14. A GET whose path segment has no dot, an empty or missing route
    variable included, panics with the runtime's bounds fault before any
    call on the storage and before anything is written to the response. *)
Theorem get_dotless_id_no_call (h : ShareXHandler) (req : Request) (w0 : ResponseWriter) :
  dotStem (index (req_Vars req) "id") = None ->
  let out := serve (handleGetRequest EqualFold h req) w0 in
  fst out = Panicking sliceBoundsOutOfRange /\
  w (snd out) = afterOutgoing h req w0 /\
  trace (snd out) = hookCalls h.
Proof.
  intros Hid out. subst out.
  unfold serve, handleGetRequest.
  rewrite (bind_Normal _ _ _ _ _ (callOutgoingFunction_run _ _ _)).
  rewrite SliceFacts.sliceTo_LastIndex, Hid. cbn. auto.
Qed.

(** X24. A GET of a found entry whose reader the storage cannot open is
    answered 500 and the handler panics with the error of [GetReader]:
    the whitelist is never consulted, no Content-Disposition field is
    set, and the field of that name in the header block sent is what the
    hook left there. *)
Theorem get_reader_error_500 (h : ShareXHandler) (req : Request) (w0 : ResponseWriter)
    (id : string) (entry : StorageEntry) (err : error) :
  dotStem (index (req_Vars req) "id") = Some id ->
  LoadStorageEntry (Storage_ h) id = (true, None, entry) ->
  Header_Get (req_Header req) "If-None-Match" <> GetETagValue entry ->
  GetReader (Storage_ h) entry = inl err ->
  rw_untouched (afterOutgoing h req w0) ->
  rw_accepts (afterOutgoing h req w0) ->
  let out := serve (handleGetRequest EqualFold h req) w0 in
  fst out = Panicking (PanicError err) /\
  rw_status (w (snd out)) = Some StatusInternalServerError /\
  rw_body (w (snd out)) = internalErrorText /\
  trace (snd out) =
    (hookCalls h ++ [EvLoadStorageEntry id; EvGetReader] ++ internalErrorCalls)%list /\
  (forall value, ~ In (EvHeaderSet "Content-Disposition" value) (trace (snd out))) /\
  rw_sent (w (snd out)) !! "Content-Disposition"
    = rw_header (afterOutgoing h req w0) !! "Content-Disposition".
Proof.
  intros Hid Hload Htag Hreader Hu Ha out. subst out.
  unfold serve, handleGetRequest.
  rewrite (bind_Normal _ _ _ _ _ (callOutgoingFunction_run _ _ _)).
  rewrite SliceFacts.sliceTo_LastIndex, Hid.
  cbn [bind emit w sink trace]. rewrite Hload. cbn [negb].
  apply String.eqb_neq in Htag. rewrite Htag.
  cbn [bind emit w sink trace]. rewrite Hreader.
  rewrite fault_run. cbn [fst snd w sink trace].
  destruct (rw_Error_untouched _ Hu) as [Hs Hb].
  split; [reflexivity|]. split; [exact Hs|]. split; [exact (Hb Ha)|].
  split; [now rewrite <- !app_assoc|]. split.
  - intros value Hin.
    rewrite !in_app_iff in Hin.
    unfold hookCalls, internalErrorCalls, errorCalls in Hin.
    destruct (OutgoingFunction h); cbn [In] in Hin; intuition discriminate.
  - destruct Hu as [Hnone _].
    unfold rw_Error, rw_Write, rw_WriteHeader.
    cbn [rw_HeaderSet rw_status rw_header rw_sent rw_faults rw_body].
    rewrite Hnone.
    cbn [rw_HeaderSet rw_status rw_header rw_sent rw_faults rw_body].
    assert (Hsent : Header_Set
                      (Header_Set (rw_header (afterOutgoing h req w0))
                         "Content-Type" "text/plain; charset=utf-8")
                      "X-Content-Type-Options" "nosniff" !! "Content-Disposition"
                    = rw_header (afterOutgoing h req w0) !! "Content-Disposition").
    { unfold Header_Set. canon.
      rewrite lookup_insert_ne by discriminate.
      now rewrite lookup_insert_ne by discriminate. }
    destruct (rw_faults (afterOutgoing h req w0)) as [|[e|] fs];
      cbn [snd rw_sent]; exact Hsent.
Qed.

End DownloadLookup.

(* ===================================================================== *)
(** ** Download: the read loop *)
(* ===================================================================== *)

Lemma take_all (d : string) : forall n : nat,
  (String.length d <= n)%nat -> GoStrings.take n d = d.
Proof.
  induction d as [|c d IH]; intros [|n] H; cbn in *; try reflexivity; try lia.
  rewrite IH by lia. reflexivity.
Qed.

Lemma take_zero (d : string) : GoStrings.take 0 d = EmptyString.
Proof. now destruct d. Qed.

Lemma cleanRead_chunk (size : Z) (d : string) (e : option error) :
  cleanRead size (d, e) = true ->
  GoStrings.take (Z.to_nat size) d = d /\ (GoStrings.len d =? 0) = false /\
  match e with Some (ErrorString _) => False | _ => True end.
Proof.
  unfold cleanRead, GoStrings.len. cbn [fst snd]. intros H.
  apply andb_prop in H. destruct H as [H He].
  apply andb_prop in H. destruct H as [H0 H1].
  apply Z.ltb_lt in H0. apply Z.leb_le in H1.
  repeat split.
  - apply take_all. lia.
  - apply Z.eqb_neq. lia.
  - destruct e as [[|m]|]; [exact I | discriminate | exact I].
Qed.

(** A write on a response whose status line is out and whose connection
    takes every write. *)
Lemma rw_Write_healthy (data : string) (r : ResponseWriter) (c : Z) :
  rw_status r = Some c -> rw_faults r = [] ->
  fst (rw_Write data r) = None /\
  rw_status (snd (rw_Write data r)) = Some c /\
  rw_sent (snd (rw_Write data r)) = rw_sent r /\
  rw_body (snd (rw_Write data r)) = (rw_body r ++ data)%string /\
  rw_faults (snd (rw_Write data r)) = [].
Proof.
  intros Hs Hf. unfold rw_Write, rw_WriteHeader. rewrite Hs, Hf. cbn. auto.
Qed.

Lemma rw_Error_healthy (msg : string) (code c : Z) (r : ResponseWriter) :
  rw_status r = Some c -> rw_faults r = [] ->
  rw_status (rw_Error msg code r) = Some c /\
  rw_sent (rw_Error msg code r) = rw_sent r /\
  rw_body (rw_Error msg code r) = (rw_body r ++ msg ++ LF)%string.
Proof.
  intros Hs Hf. unfold rw_Error.
  rewrite (rw_WriteHeader_committed code c) by exact Hs.
  destruct (rw_Write_healthy (msg ++ LF)
              (rw_HeaderSet "X-Content-Type-Options" "nosniff"
                 (rw_HeaderSet "Content-Type" "text/plain; charset=utf-8" r)) c Hs Hf)
    as (_ & H1 & H2 & H3 & _).
  auto.
Qed.

(** The read loop over clean reads: every chunk delivered is written to
    the response as it is, and the loop returns at the end of the stream. *)
Lemma readLoop_clean (size : Z) : forall (script : list (string * option error))
    (σ : World) (c : Z),
  rw_status (w σ) = Some c -> rw_faults (w σ) = [] ->
  forallb (cleanRead size) script = true ->
  let out := readLoop size script σ in
  fst out = Normal tt /\
  rw_status (w (snd out)) = Some c /\
  rw_sent (w (snd out)) = rw_sent (w σ) /\
  rw_body (w (snd out)) = (rw_body (w σ) ++ join (map fst script))%string /\
  rw_faults (w (snd out)) = [] /\
  trace (snd out) = (trace σ ++ streamCalls size (map fst script))%list.
Proof.
  induction script as [|[d e] rest IH]; intros σ c Hs Hf Hc out; subst out.
  - cbn. rewrite append_nil_r. repeat split; auto.
  - cbn [forallb] in Hc. apply andb_prop in Hc. destruct Hc as [Hd Hrest].
    destruct (cleanRead_chunk size d e Hd) as (Htake & Hlen & He).
    cbn [readLoop]. cbn [bind emit]. rewrite Htake, Hlen.
    set (σ1 := mkWorld (w σ) (sink σ) (trace σ ++ [EvSourceRead size])).
    destruct (rw_Write_healthy d (w σ1) c Hs Hf) as (Hn & H1 & H2 & H3 & H4).
    assert (Hrun :
      (werr <- w_Write d ;;
       match werr with
       | Some e0 => panic (PanicError e0)
       | None => readLoop size rest
       end)%go σ1 =
      readLoop size rest (mkWorld (snd (rw_Write d (w σ1))) (sink σ1)
                                  (trace σ1 ++ [EvWrite d]))).
    { rewrite (bind_Normal _ _ _ _ _ (w_Write_run _ _)). now rewrite Hn. }
    assert (Hgoal :
      let out := readLoop size rest (mkWorld (snd (rw_Write d (w σ1))) (sink σ1)
                                             (trace σ1 ++ [EvWrite d])) in
      fst out = Normal tt /\
      rw_status (w (snd out)) = Some c /\
      rw_sent (w (snd out)) = rw_sent (w σ) /\
      rw_body (w (snd out)) = (rw_body (w σ) ++ join (map fst ((d, e) :: rest)))%string /\
      rw_faults (w (snd out)) = [] /\
      trace (snd out) = (trace σ ++ streamCalls size (map fst ((d, e) :: rest)))%list).
    { destruct (IH (mkWorld (snd (rw_Write d (w σ1))) (sink σ1)
                            (trace σ1 ++ [EvWrite d])) c H1 H4 Hrest)
        as (I1 & I2 & I3 & I4 & I5 & I6).
      cbv zeta. rewrite I1, I2, I3, I4, I5, I6. cbn [w trace map fst join fold_right].
      rewrite H2, H3. subst σ1. cbn [w trace]. repeat split; auto.
      - now rewrite append_assoc.
      - unfold streamCalls. cbn [flat_map].
        repeat first [rewrite <- app_assoc | progress cbn [app]]. reflexivity. }
    destruct e as [[|m]|]; [| contradiction |]; rewrite Hrun; exact Hgoal.
Qed.

(** The read loop on a stream whose reads are clean up to one that fails:
    the chunks before it are written, the bytes that came with the error
    are dropped, and the text of the 500 answer follows them in the body
    of a response whose status line is long out. *)
Lemma readLoop_read_error (size : Z) (d : string) (m : string)
    (rest : list (string * option error)) :
  forall (pre : list (string * option error)) (σ : World) (c : Z),
  rw_status (w σ) = Some c -> rw_faults (w σ) = [] ->
  forallb (cleanRead size) pre = true ->
  let out := readLoop size (pre ++ (d, Some (ErrorString m)) :: rest) σ in
  fst out = Panicking (PanicError (ErrorString m)) /\
  rw_status (w (snd out)) = Some c /\
  rw_sent (w (snd out)) = rw_sent (w σ) /\
  rw_body (w (snd out)) = (rw_body (w σ) ++ join (map fst pre) ++ internalErrorText)%string.
Proof.
  induction pre as [|[d' e'] pre IH]; intros σ c Hs Hf Hc out; subst out.
  - cbn [app readLoop]. cbn [bind emit]. rewrite fault_run. cbn [fst snd w].
    destruct (rw_Error_healthy "500 an internal error occurred"
                StatusInternalServerError c (w σ) Hs Hf) as (H1 & H2 & H3).
    repeat split; auto.
  - cbn [forallb] in Hc. apply andb_prop in Hc. destruct Hc as [Hd Hrest].
    destruct (cleanRead_chunk size d' e' Hd) as (Htake & Hlen & He).
    cbn [app readLoop]. cbn [bind emit]. rewrite Htake, Hlen.
    set (σ1 := mkWorld (w σ) (sink σ) (trace σ ++ [EvSourceRead size])).
    destruct (rw_Write_healthy d' (w σ1) c Hs Hf) as (Hn & H1 & H2 & H3 & H4).
    assert (Hrun :
      (werr <- w_Write d' ;;
       match werr with
       | Some e0 => panic (PanicError e0)
       | None => readLoop size (pre ++ (d, Some (ErrorString m)) :: rest)
       end)%go σ1 =
      readLoop size (pre ++ (d, Some (ErrorString m)) :: rest)
               (mkWorld (snd (rw_Write d' (w σ1))) (sink σ1) (trace σ1 ++ [EvWrite d']))).
    { rewrite (bind_Normal _ _ _ _ _ (w_Write_run _ _)). now rewrite Hn. }
    destruct (IH (mkWorld (snd (rw_Write d' (w σ1))) (sink σ1)
                          (trace σ1 ++ [EvWrite d'])) c H1 H4 Hrest)
      as (I1 & I2 & I3 & I4).
    assert (Hgoal :
      let out := readLoop size (pre ++ (d, Some (ErrorString m)) :: rest)
                   (mkWorld (snd (rw_Write d' (w σ1))) (sink σ1)
                            (trace σ1 ++ [EvWrite d'])) in
      fst out = Panicking (PanicError (ErrorString m)) /\
      rw_status (w (snd out)) = Some c /\
      rw_sent (w (snd out)) = rw_sent (w σ) /\
      rw_body (w (snd out))
        = (rw_body (w σ) ++ join (map fst ((d', e') :: pre)) ++ internalErrorText)%string).
    { cbv zeta. rewrite I1, I2, I3, I4. cbn [w map fst join fold_right].
      rewrite H2, H3. subst σ1. cbn [w]. repeat split; auto.
      now rewrite !append_assoc. }
    destruct e' as [[|m']|]; [| contradiction |]; rewrite Hrun; exact Hgoal.
Qed.

(* ===================================================================== *)
(** ** Download: streaming an entry *)
(* ===================================================================== *)

(** The response at the start of the read loop, when nothing was written
    before the handler ran: status 200 is out with the three header
    fields of the entry. *)
Lemma streamingResponse_untouched (EqualFold : string -> string -> bool)
    (h : ShareXHandler) (entry : StorageEntry) (r : ResponseWriter) :
  rw_untouched r ->
  let r' := streamingResponse EqualFold h entry r in
  rw_status r' = Some StatusOK /\
  rw_body r' = EmptyString /\
  rw_faults r' = rw_faults r /\
  rw_sent r' !! "Content-Disposition" = Some [dispositionOf EqualFold h entry] /\
  rw_sent r' !! "Content-Type" = Some [GetContentType entry] /\
  rw_sent r' !! "Etag" = Some [GetETagValue entry].
Proof.
  intros Hu r'. subst r'. unfold streamingResponse.
  destruct (rw_WriteHeader_untouched StatusOK
              (rw_HeaderSet "ETag" (GetETagValue entry)
                 (rw_HeaderSet "Content-Type" (GetContentType entry)
                    (rw_HeaderSet "Content-Disposition" (dispositionOf EqualFold h entry) r))))
    as (Hs & Hb & Hsent & Hf).
  { now repeat apply rw_HeaderSet_untouched. }
  rewrite Hs, Hb, Hsent, Hf. cbn [rw_HeaderSet rw_header rw_faults]. unfold Header_Set. canon.
  repeat split.
  - rewrite lookup_insert_ne by discriminate.
    rewrite lookup_insert_ne by discriminate.
    now rewrite lookup_insert_eq.
  - rewrite lookup_insert_ne by discriminate.
    now rewrite lookup_insert_eq.
  - now rewrite lookup_insert_eq.
Qed.

(** [make([]byte, n)] goes through for a length that is not negative
    and within the allocation limit, and panics for any other. *)
Lemma makesliceFails_in_range (n : Z) :
  0 <= n <= maxAlloc -> makesliceFails n = false.
Proof.
  intros [Hlo Hhi]. unfold makesliceFails.
  destruct (Z.ltb_spec n 0); [lia|].
  destruct (Z.ltb_spec maxAlloc n); [lia|]. reflexivity.
Qed.

Lemma makesliceFails_negative (n : Z) :
  n < 0 -> makesliceFails n = true.
Proof.
  intros Hn. unfold makesliceFails.
  destruct (Z.ltb_spec n 0); [reflexivity|lia].
Qed.

Lemma makesliceFails_above (n : Z) :
  maxAlloc < n -> makesliceFails n = true.
Proof.
  intros Hn. unfold makesliceFails.
  destruct (Z.ltb_spec maxAlloc n); [apply orb_true_r|lia].
Qed.

Section DownloadStream.

Variable EqualFold : string -> string -> bool.

(** A GET that acquires its reader, up to the read loop. *)
Lemma get_stream_run (h : ShareXHandler) (req : Request) (w0 : ResponseWriter)
    (id : string) (entry : StorageEntry) (reader : Reader) :
  getAcquiresReader h req id entry reader ->
  serve (handleGetRequest EqualFold h req) w0 =
  (if makesliceFails (BufferSize h) then panic makesliceLenOutOfRange
   else readLoop (BufferSize h) (rd_script reader))
    (mkWorld (streamingResponse EqualFold h entry (afterOutgoing h req w0)) None
             (streamingCalls EqualFold h id entry)).
Proof.
  intros (Hid & Hload & Htag & Hreader). unfold serve, handleGetRequest.
  rewrite (bind_Normal _ _ _ _ _ (callOutgoingFunction_run _ _ _)).
  rewrite SliceFacts.sliceTo_LastIndex, Hid.
  cbn [bind emit w sink trace]. rewrite Hload. cbn [negb].
  apply String.eqb_neq in Htag. rewrite Htag.
  cbn [bind emit w sink trace]. rewrite Hreader.
  unfold streamingResponse, streamingCalls, dispositionOf.
  destruct (rangeWhitelist EqualFold (WhitelistedContentTypes h) (GetContentType entry));
    cbn [bind emit onResponse w_Header_Set w_WriteHeader w sink trace app];
    repeat first [rewrite <- app_assoc | progress cbn [app]]; reflexivity.
Qed.

(** X15. A GET that acquires its reader, with a buffer size that [make]
    accepts (not negative and within the allocation limit), a source
    whose every [Read] delivers at least one byte and no more than the
    buffer holds, and a client that takes every write: the answer is 200,
    its body is the bytes the source delivered, in order and with one
    [Write] per [Read], and the header block sent carries the entry's
    content type under [Content-Type] and its ETag value under [Etag],
    the canonical form of the key the code passes, whatever the hook had
    put in those fields. *)
Theorem get_streams_what_is_read (h : ShareXHandler) (req : Request) (w0 : ResponseWriter)
    (id : string) (entry : StorageEntry) (reader : Reader) :
  getAcquiresReader h req id entry reader ->
  0 <= BufferSize h <= maxAlloc ->
  forallb (cleanRead (BufferSize h)) (rd_script reader) = true ->
  rw_untouched (afterOutgoing h req w0) ->
  rw_faults (afterOutgoing h req w0) = [] ->
  let out := serve (handleGetRequest EqualFold h req) w0 in
  fst out = Normal tt /\
  rw_status (w (snd out)) = Some StatusOK /\
  rw_body (w (snd out)) = join (map fst (rd_script reader)) /\
  rw_sent (w (snd out)) !! "Content-Type" = Some [GetContentType entry] /\
  rw_sent (w (snd out)) !! "Etag" = Some [GetETagValue entry] /\
  trace (snd out) =
    (streamingCalls EqualFold h id entry ++
     streamCalls (BufferSize h) (map fst (rd_script reader)))%list.
Proof.
  intros Hget Hsize Hclean Hu Hf out. subst out.
  rewrite (get_stream_run h req w0 id entry reader Hget).
  rewrite (makesliceFails_in_range _ Hsize). cbv iota.
  destruct (streamingResponse_untouched EqualFold h entry _ Hu)
    as (Hs & Hb & Hfaults & _ & Hct & Hetag).
  destruct (readLoop_clean (BufferSize h) (rd_script reader)
              (mkWorld (streamingResponse EqualFold h entry (afterOutgoing h req w0)) None
                       (streamingCalls EqualFold h id entry)) StatusOK Hs)
    as (H1 & H2 & H3 & H4 & _ & H6); [cbn [w]; rewrite Hfaults; exact Hf | exact Hclean |].
  cbn [w trace] in *. rewrite H1, H2, H3, H4, H6, Hb, Hct, Hetag.
  repeat split; auto.
Qed.

(** X16. With a buffer size that [make] accepts (not negative and
    within the allocation limit): when a [Read] fails in the middle of a
    download, after clean reads, the status stays 200 with the entry's
    header fields: the
    chunks read before are in the body, the bytes that came with the
    error are dropped, and the text of the 500 answer is appended to the
    body; the handler panics with the error of the read. *)
Theorem get_read_error_after_status (h : ShareXHandler) (req : Request)
    (w0 : ResponseWriter) (id : string) (entry : StorageEntry) (reader : Reader)
    (pre rest : list (string * option error)) (d m : string) :
  getAcquiresReader h req id entry reader ->
  0 <= BufferSize h <= maxAlloc ->
  rd_script reader = (pre ++ (d, Some (ErrorString m)) :: rest)%list ->
  forallb (cleanRead (BufferSize h)) pre = true ->
  rw_untouched (afterOutgoing h req w0) ->
  rw_faults (afterOutgoing h req w0) = [] ->
  let out := serve (handleGetRequest EqualFold h req) w0 in
  fst out = Panicking (PanicError (ErrorString m)) /\
  rw_status (w (snd out)) = Some StatusOK /\
  rw_sent (w (snd out)) !! "Content-Type" = Some [GetContentType entry] /\
  rw_body (w (snd out)) = (join (map fst pre) ++ internalErrorText)%string.
Proof.
  intros Hget Hsize Hscript Hclean Hu Hf out. subst out.
  rewrite (get_stream_run h req w0 id entry reader Hget), Hscript.
  rewrite (makesliceFails_in_range _ Hsize). cbv iota.
  destruct (streamingResponse_untouched EqualFold h entry _ Hu)
    as (Hs & Hb & Hfaults & _ & Hct & _).
  destruct (readLoop_read_error (BufferSize h) d m rest pre
              (mkWorld (streamingResponse EqualFold h entry (afterOutgoing h req w0)) None
                       (streamingCalls EqualFold h id entry)) StatusOK Hs)
    as (H1 & H2 & H3 & H4); [cbn [w]; rewrite Hfaults; exact Hf | exact Hclean |].
  cbn [w] in *. rewrite H1, H2, H3, H4, Hb, Hct.
  repeat split; auto.
Qed.

(** X17. With a buffer size of zero, the zero value of the field, a GET
    that acquires its reader is answered 200 with the entry's header
    fields and an empty body: the first [Read] delivers no byte into the
    empty buffer and the loop ends there, whatever the entry holds. *)
Theorem get_zero_buffer_empty_body (h : ShareXHandler) (req : Request)
    (w0 : ResponseWriter) (id : string) (entry : StorageEntry) (reader : Reader) :
  getAcquiresReader h req id entry reader ->
  BufferSize h = 0 ->
  (forall d m rest, rd_script reader <> (d, Some (ErrorString m)) :: rest) ->
  rw_untouched (afterOutgoing h req w0) ->
  let out := serve (handleGetRequest EqualFold h req) w0 in
  fst out = Normal tt /\
  rw_status (w (snd out)) = Some StatusOK /\
  rw_body (w (snd out)) = EmptyString /\
  trace (snd out) = (streamingCalls EqualFold h id entry ++ [EvSourceRead 0])%list.
Proof.
  intros Hget Hsize Hfirst Hu out. subst out.
  rewrite (get_stream_run h req w0 id entry reader Hget), Hsize.
  change (makesliceFails 0) with false. cbv iota.
  destruct (streamingResponse_untouched EqualFold h entry _ Hu) as (Hs & Hb & _).
  destruct (rd_script reader) as [|[d e] rest] eqn:E.
  - cbn. auto.
  - cbn [readLoop]. cbn [bind emit]. change (Z.to_nat 0) with 0%nat.
    rewrite take_zero. change (GoStrings.len EmptyString =? 0) with true.
    destruct e as [[|m]|]; [| exfalso; exact (Hfirst d m rest eq_refl) |];
      cbn; auto.
Qed.

(** X18. With a negative buffer size, a GET that acquires its reader
    panics in [make] after the calls that set the header fields and the
    status 200: the handler has written no byte of the body, and the
    source is never read. *)
Theorem get_negative_buffer_panics (h : ShareXHandler) (req : Request)
    (w0 : ResponseWriter) (id : string) (entry : StorageEntry) (reader : Reader) :
  getAcquiresReader h req id entry reader ->
  BufferSize h < 0 ->
  rw_untouched (afterOutgoing h req w0) ->
  let out := serve (handleGetRequest EqualFold h req) w0 in
  fst out = Panicking makesliceLenOutOfRange /\
  rw_status (w (snd out)) = Some StatusOK /\
  rw_body (w (snd out)) = EmptyString /\
  trace (snd out) = streamingCalls EqualFold h id entry.
Proof.
  intros Hget Hsize Hu out. subst out.
  rewrite (get_stream_run h req w0 id entry reader Hget).
  rewrite (makesliceFails_negative _ Hsize). cbv iota.
  destruct (streamingResponse_untouched EqualFold h entry _ Hu) as (Hs & Hb & _).
  cbn. auto.
Qed.

(** X25. With a buffer size above the allocation limit, a GET that
    acquires its reader panics in [make] as it does with a negative one:
    after the calls that set the header fields and the status 200, with
    no byte of the body written and the source never read. *)
Theorem get_oversized_buffer_panics (h : ShareXHandler) (req : Request)
    (w0 : ResponseWriter) (id : string) (entry : StorageEntry) (reader : Reader) :
  getAcquiresReader h req id entry reader ->
  maxAlloc < BufferSize h ->
  rw_untouched (afterOutgoing h req w0) ->
  let out := serve (handleGetRequest EqualFold h req) w0 in
  fst out = Panicking makesliceLenOutOfRange /\
  rw_status (w (snd out)) = Some StatusOK /\
  rw_body (w (snd out)) = EmptyString /\
  trace (snd out) = streamingCalls EqualFold h id entry.
Proof.
  intros Hget Hsize Hu out. subst out.
  rewrite (get_stream_run h req w0 id entry reader Hget).
  rewrite (makesliceFails_above _ Hsize). cbv iota.
  destruct (streamingResponse_untouched EqualFold h entry _ Hu) as (Hs & Hb & _).
  cbn. auto.
Qed.

(** X19. With a buffer size that [make] accepts (not negative and
    within the allocation limit): when the client refuses the first
    chunk of a download, the handler panics with the error of that write
    and does nothing else: no [http.Error], no further [Read]. *)
Theorem get_client_write_error (h : ShareXHandler) (req : Request)
    (w0 : ResponseWriter) (id : string) (entry : StorageEntry) (reader : Reader)
    (d : string) (e : option error) (rest : list (string * option error))
    (err : error) (faults : list (option error)) :
  getAcquiresReader h req id entry reader ->
  0 <= BufferSize h <= maxAlloc ->
  rd_script reader = (d, e) :: rest ->
  cleanRead (BufferSize h) (d, e) = true ->
  rw_untouched (afterOutgoing h req w0) ->
  rw_faults (afterOutgoing h req w0) = Some err :: faults ->
  let out := serve (handleGetRequest EqualFold h req) w0 in
  fst out = Panicking (PanicError err) /\
  rw_status (w (snd out)) = Some StatusOK /\
  rw_body (w (snd out)) = EmptyString /\
  trace (snd out) =
    (streamingCalls EqualFold h id entry ++ [EvSourceRead (BufferSize h); EvWrite d])%list.
Proof.
  intros Hget Hsize Hscript Hclean Hu Hf out. subst out.
  rewrite (get_stream_run h req w0 id entry reader Hget), Hscript.
  rewrite (makesliceFails_in_range _ Hsize). cbv iota.
  destruct (streamingResponse_untouched EqualFold h entry _ Hu)
    as (Hs & Hb & Hfaults & _).
  destruct (cleanRead_chunk (BufferSize h) d e Hclean) as (Htake & Hlen & He).
  cbn [readLoop]. cbn [bind emit]. rewrite Htake, Hlen.
  set (r := streamingResponse EqualFold h entry (afterOutgoing h req w0)) in *.
  assert (Hw : rw_Write d r
               = (Some err, mkResponseWriter (rw_header r) (rw_status r) (rw_sent r)
                                             (rw_body r) faults)).
  { unfold rw_Write. rewrite (rw_WriteHeader_committed StatusOK StatusOK r Hs).
    now rewrite Hfaults, Hf. }
  assert (Hrun : forall k : option error -> Go unit,
            (forall x, k (Some x) = panic (PanicError x)) ->
            let out := (werr <- w_Write d ;; k werr)%go
                         (mkWorld r None
                                  (streamingCalls EqualFold h id entry ++
                                   [EvSourceRead (BufferSize h)])) in
            fst out = Panicking (PanicError err) /\
            rw_status (w (snd out)) = Some StatusOK /\
            rw_body (w (snd out)) = EmptyString /\
            trace (snd out) =
              (streamingCalls EqualFold h id entry ++
               [EvSourceRead (BufferSize h); EvWrite d])%list).
  { intros k Hk. cbv zeta.
    rewrite (bind_Normal _ _ _ _ _ (w_Write_run _ _)). cbn [w sink trace].
    rewrite Hw. cbn [fst snd]. rewrite Hk. cbn [panic fst snd w trace rw_status rw_body].
    repeat split; auto. now rewrite <- app_assoc. }
  destruct e as [[|m]|]; [| contradiction |];
    exact (Hrun (fun werr => match werr with
                             | Some e0 => panic (PanicError e0)
                             | None => readLoop (BufferSize h) rest
                             end) (fun x => eq_refl)).
Qed.

(** X20. Whatever the request and the collaborators do, the calls of
    [handleGetRequest] stay within the hook, the response, one lookup,
    one reader and its reads: it never creates, changes or finalizes an
    entry, never closes the reader, and the only statuses it writes are
    200, 304, 404 and 500. *)
Theorem get_calls_confined (h : ShareXHandler) (req : Request) (w0 : ResponseWriter) :
  Forall (fun ev => downloadCall ev = true)
         (trace (snd (serve (handleGetRequest EqualFold h req) w0))).
Proof.
  assert (He : emitsOnly (fun ev => downloadCall ev = true)
                 (handleGetRequest EqualFold h req)).
  { unfold handleGetRequest, callOutgoingFunction, http_NotFound,
      w_Header_Set, w_WriteHeader.
    repeat match goal with
      | |- emitsOnly _ (match ?x with _ => _ end) => destruct x
      | |- emitsOnly _ (bind _ _) => apply emitsOnly_bind; [|intros ?]
      | |- emitsOnly _ (ret _) => apply emitsOnly_ret
      | |- emitsOnly _ (panic _) => apply emitsOnly_panic
      | |- emitsOnly _ (onResponse _) => apply emitsOnly_onResponse
      | |- emitsOnly _ (readLoop _ _) =>
          apply emitsOnly_readLoop_of; intros; reflexivity
      | |- emitsOnly _ internalError => apply emitsOnly_internalError; intros; reflexivity
      | |- emitsOnly _ (http_Error _ _) =>
          apply emitsOnly_http_Error_at; intros; reflexivity
      | |- emitsOnly _ (emit _) => apply emitsOnly_emit; reflexivity
      end. }
  unfold serve. destruct (He (mkWorld w0 None [])) as (post & -> & HF). exact HF.
Qed.

End DownloadStream.

(* ===================================================================== *)
(** ** From the URL of an upload to the lookup of a download *)
(* ===================================================================== *)

Lemma append_cancel_l (a b c : string) : (a ++ b)%string = (a ++ c)%string -> b = c.
Proof.
  induction a as [|x a IH]; [auto|].
  rewrite !append_String. intros [= H]. auto.
Qed.

(** With a path segment that has a dot, the first call the download
    handler makes on the storage is the lookup of the segment without its
    final dot-suffix. *)
Lemma get_lookup_first (EqualFold : string -> string -> bool)
    (h : ShareXHandler) (req : Request) (w0 : ResponseWriter) (id : string) :
  dotStem (index (req_Vars req) "id") = Some id ->
  exists post,
    trace (snd (serve (handleGetRequest EqualFold h req) w0))
    = (hookCalls h ++ EvLoadStorageEntry id :: post)%list.
Proof.
  intros Hid. unfold serve, handleGetRequest.
  rewrite (bind_Normal _ _ _ _ _ (callOutgoingFunction_run _ _ _)).
  rewrite SliceFacts.sliceTo_LastIndex, Hid.
  cbn [bind emit w sink trace].
  match goal with
  | |- exists post, trace (snd (?body ?σ)) = _ =>
      assert (He : emitsOnly (fun _ => True) body)
  end.
  { unfold http_NotFound, w_Header_Set, w_WriteHeader.
    repeat match goal with
      | |- emitsOnly _ (match ?x with _ => _ end) => destruct x
      | |- emitsOnly _ (bind _ _) => apply emitsOnly_bind; [|intros ?]
      | |- emitsOnly _ (ret _) => apply emitsOnly_ret
      | |- emitsOnly _ (panic _) => apply emitsOnly_panic
      | |- emitsOnly _ (onResponse _) => apply emitsOnly_onResponse
      | |- emitsOnly _ (readLoop _ _) =>
          apply emitsOnly_readLoop_of; intros; exact I
      | |- emitsOnly _ internalError => apply emitsOnly_internalError; intros; exact I
      | |- emitsOnly _ (http_Error _ _) =>
          apply emitsOnly_http_Error_at; intros; exact I
      | |- emitsOnly _ (emit _) => apply emitsOnly_emit; exact I
      end. }
  match goal with
  | |- exists post, trace (snd (?body ?σ)) = _ => destruct (He σ) as (post & -> & _)
  end.
  exists post. cbn [trace app]. now rewrite <- app_assoc.
Qed.

(** X21. The URL an upload answers with leads a download back to the
    entry: when an upload goes through with a file name that has a dot,
    a GET whose route variable is the body of that answer without
    [ProtocolHost] looks up exactly the id of the uploaded entry, and
    that lookup is its first call on the storage.  This holds for every
    id, an id with dots in it included. *)
Theorem get_looks_up_uploaded_id
    (ParseMediaType : string -> error + (string * gmap string string))
    (multipart_NewReader : string -> string -> list (Part + error))
    (EqualFold : string -> string -> bool)
    (h : ShareXHandler) (post get : Request) (w0 w0' : ResponseWriter)
    (mediatype : string) (params : gmap string string)
    (writer : Writer) (part : Part) (rest : list (Part + error))
    (extension : string) :
  uploadGoesThrough ParseMediaType multipart_NewReader h post
                    mediatype params writer part rest ->
  dotSuffix (FileName part) = Some extension ->
  rw_untouched (afterOutgoing h post w0) ->
  rw_accepts (afterOutgoing h post w0) ->
  (ProtocolHost h ++ index (req_Vars get) "id")%string
    = rw_body (w (snd (serve (handleUploadRequest ParseMediaType multipart_NewReader
                                                   h post) w0))) ->
  exists calls,
    trace (snd (serve (handleGetRequest EqualFold h get) w0'))
    = (hookCalls h ++ EvLoadStorageEntry (GetId (NewStorageEntry (Storage_ h))) :: calls)%list.
Proof.
  intros Hgo Hext Hu Ha Hurl.
  rewrite (upload_finalized_run _ _ h post w0 _ _ _ _ _ Hgo) in Hurl.
  cbv zeta in Hurl. rewrite Hext in Hurl. cbn [snd w] in Hurl.
  destruct (rw_WriteHeader_untouched 200 _ Hu) as (Hs & Hb & _ & Hf).
  destruct (rw_Write_committed
              (ProtocolHost h ++ GetId (NewStorageEntry (Storage_ h)) ++ extension)
              _ 200 Hs) as (_ & _ & _ & Hw).
  destruct Hw as [_ Hbody].
  { unfold rw_accepts in *. now rewrite Hf. }
  rewrite Hbody, Hb in Hurl.
  change (EmptyString ++ ?x)%string with x in Hurl.
  apply append_cancel_l in Hurl.
  apply get_lookup_first. rewrite Hurl.
  exact (dotStem_of_id_ext _ _ _ Hext).
Qed.

(* ===================================================================== *)
(** ** Further concrete runs of the upload handler *)
(* ===================================================================== *)

Lemma fresh_accepts : rw_accepts freshResponseWriter.
Proof. exact I. Defined.

Lemma upload_save_error_witness :
  let h := Demo.handler Cases.saveFails 1024 in
  let req := Demo.photoUpload in
  Demo.ParseMediaType (Header_Get (req_Header req) "Content-Type")
    = inr ("multipart/form-data", Demo.boundaryParams) /\
  Save (Storage_ h) (NewStorageEntry (Storage_ h))
    = Some (ErrorString "disk quota exceeded") /\
  let out := Cases.upload h req in
  fst out = Panicking (PanicError (ErrorString "disk quota exceeded")) /\
  rw_status (w (snd out)) = Some 500 /\
  sink (snd out) = None.
Proof.
  intros h req.
  assert (H1 : Demo.ParseMediaType (Header_Get (req_Header req) "Content-Type")
               = inr ("multipart/form-data", Demo.boundaryParams)) by run.
  assert (H2 : Save (Storage_ h) (NewStorageEntry (Storage_ h))
               = Some (ErrorString "disk quota exceeded")) by run.
  do 2 (split; [assumption|]).
  destruct (upload_save_error Demo.ParseMediaType Cases.NewReader h req
              freshResponseWriter _ _ _ H1 H2 freshResponseWriter_untouched fresh_accepts)
    as (R1 & R2 & _ & _ & R5).
  split; [exact R1|]. split; [exact R2 | exact R5].
Defined.

Lemma upload_getwriter_error_witness :
  let h := Demo.handler Cases.getWriterFails 1024 in
  let req := Demo.photoUpload in
  Demo.ParseMediaType (Header_Get (req_Header req) "Content-Type")
    = inr ("multipart/form-data", Demo.boundaryParams) /\
  Save (Storage_ h) (NewStorageEntry (Storage_ h)) = None /\
  GetWriter (Storage_ h) (NewStorageEntry (Storage_ h))
    = inl (ErrorString "permission denied") /\
  let out := Cases.upload h req in
  fst out = Panicking (PanicError (ErrorString "permission denied")) /\
  rw_status (w (snd out)) = Some 500 /\
  sink (snd out) = None.
Proof.
  intros h req.
  assert (H1 : Demo.ParseMediaType (Header_Get (req_Header req) "Content-Type")
               = inr ("multipart/form-data", Demo.boundaryParams)) by run.
  assert (H2 : Save (Storage_ h) (NewStorageEntry (Storage_ h)) = None) by run.
  assert (H3 : GetWriter (Storage_ h) (NewStorageEntry (Storage_ h))
               = inl (ErrorString "permission denied")) by run.
  do 3 (split; [assumption|]).
  destruct (upload_getwriter_error Demo.ParseMediaType Cases.NewReader h req
              freshResponseWriter _ _ _ H1 H2 H3
              freshResponseWriter_untouched fresh_accepts)
    as (R1 & R2 & _ & _ & R5).
  split; [exact R1|]. split; [exact R2 | exact R5].
Defined.

Lemma uploadStorage_acquires_sink (size : Z) (req : Request) :
  Header_Get (req_Header req) "Content-Type" = Demo.formContentType ->
  uploadAcquiresSink Demo.ParseMediaType (Demo.handler Demo.uploadStorage size) req
    "multipart/form-data" Demo.boundaryParams Demo.goodWriter.
Proof.
  intros H. unfold uploadAcquiresSink. rewrite H. run_conj.
Defined.

Lemma upload_no_first_part_witness :
  let h := Demo.handler Demo.uploadStorage 1024 in
  let req := Cases.emptyUpload in
  uploadAcquiresSink Demo.ParseMediaType h req
    "multipart/form-data" Demo.boundaryParams Demo.goodWriter /\
  fst (NextPart (Cases.NewReader (req_Body req) (index Demo.boundaryParams "boundary")))
    = inr EOF /\
  let out := Cases.upload h req in
  fst out = Panicking (PanicError EOF) /\
  rw_status (w (snd out)) = Some 500 /\
  sink (snd out) = Some (wr_Close Demo.goodWriter).
Proof.
  intros h req.
  assert (H1 := uploadStorage_acquires_sink 1024 req eq_refl).
  assert (H2 : fst (NextPart (Cases.NewReader (req_Body req)
                                (index Demo.boundaryParams "boundary"))) = inr EOF) by run.
  do 2 (split; [assumption|]).
  destruct (upload_no_first_part Demo.ParseMediaType Cases.NewReader h req
              freshResponseWriter _ _ _ _ H1 H2
              freshResponseWriter_untouched fresh_accepts)
    as (R1 & R2 & _ & _ & R5).
  split; [exact R1|]. split; [exact R2 | exact R5].
Defined.

Lemma upload_part_fault_not_finalized_witness :
  let h := Demo.handler Demo.uploadStorage 1024 in
  let req := Cases.truncatedUpload in
  let photo := Demo.filePart "photo.png" "image/png" "PNGDATA" in
  uploadAcquiresSink Demo.ParseMediaType h req
    "multipart/form-data" Demo.boundaryParams Demo.goodWriter /\
  Cases.NewReader (req_Body req) (index Demo.boundaryParams "boundary")
    = [inl photo; inl Cases.cutPart] /\
  firstFault [inl photo; inl Cases.cutPart] = Some (ErrorString "unexpected EOF") /\
  let out := Cases.upload h req in
  fst out = Panicking (PanicError (ErrorString "unexpected EOF")) /\
  rw_status (w (snd out)) = Some 500 /\
  sinkWrites (trace (snd out)) = ["PNGDATA"] /\
  (forall e, ~ In (EvUpdate e) (trace (snd out))).
Proof.
  intros h req photo.
  assert (H1 := uploadStorage_acquires_sink 1024 req eq_refl).
  assert (H2 : Cases.NewReader (req_Body req) (index Demo.boundaryParams "boundary")
               = [inl photo; inl Cases.cutPart]) by run.
  assert (H3 : firstFault [inl photo; inl Cases.cutPart]
               = Some (ErrorString "unexpected EOF")) by reflexivity.
  do 3 (split; [assumption|]).
  destruct (upload_part_fault_not_finalized Demo.ParseMediaType Cases.NewReader h req
              freshResponseWriter _ _ _ photo [inl Cases.cutPart] _ H1 H2 H3
              freshResponseWriter_untouched fresh_accepts)
    as (R1 & R2 & _ & R4 & R5 & _).
  split; [exact R1|]. split; [exact R2|]. split; [exact R4 | exact R5].
Defined.

Lemma upload_update_error_panics_with_EOF_witness :
  let h := Demo.handler Cases.updateFails 1024 in
  let req := Demo.photoUpload in
  let photo := Demo.filePart "photo.png" "image/png" "PNGDATA" in
  uploadAcquiresSink Demo.ParseMediaType h req
    "multipart/form-data" Demo.boundaryParams Demo.goodWriter /\
  Cases.NewReader (req_Body req) (index Demo.boundaryParams "boundary") = [inl photo] /\
  readsCleanly [inl photo] = true /\
  Update (Storage_ h) (recordedEntry (Storage_ h) photo)
    = Some (ErrorString "commit failed") /\
  let out := Cases.upload h req in
  fst out = Panicking (PanicError EOF) /\
  rw_status (w (snd out)) = Some 500.
Proof.
  intros h req photo.
  assert (H1 : uploadAcquiresSink Demo.ParseMediaType h req
                 "multipart/form-data" Demo.boundaryParams Demo.goodWriter).
  { unfold uploadAcquiresSink. run_conj. }
  assert (H2 : Cases.NewReader (req_Body req) (index Demo.boundaryParams "boundary")
               = [inl photo]) by run.
  assert (H3 : readsCleanly [inl photo] = true) by reflexivity.
  assert (H4 : Update (Storage_ h) (recordedEntry (Storage_ h) photo)
               = Some (ErrorString "commit failed")) by run.
  do 4 (split; [assumption|]).
  destruct (upload_update_error_panics_with_EOF Demo.ParseMediaType Cases.NewReader h req
              freshResponseWriter _ _ _ photo [] _ H1 H2 H3 H4
              freshResponseWriter_untouched fresh_accepts)
    as (R1 & R2 & _).
  split; [exact R1 | exact R2].
Defined.

Lemma twoFilesUpload_goes_through :
  uploadGoesThrough Demo.ParseMediaType Cases.NewReader
    (Demo.handler Demo.uploadStorage 1024) Cases.twoFilesUpload
    "multipart/form-data" Demo.boundaryParams Demo.goodWriter
    (Demo.filePart "photo.png" "image/png" "PNGDATA")
    [inl (Demo.filePart "notes.txt" "text/plain" "hello")].
Proof. unfold uploadGoesThrough. run_conj. Defined.

Lemma upload_finalizes_before_close_witness :
  let h := Demo.handler Demo.uploadStorage 1024 in
  let req := Cases.twoFilesUpload in
  uploadGoesThrough Demo.ParseMediaType Cases.NewReader h req
    "multipart/form-data" Demo.boundaryParams Demo.goodWriter
    (Demo.filePart "photo.png" "image/png" "PNGDATA")
    [inl (Demo.filePart "notes.txt" "text/plain" "hello")] /\
  let out := Cases.upload h req in
  exists pre mid,
    trace (snd out)
    = (pre ++ [EvUpdate (mkStorageEntry "a1b2c3" "photo.png" "image/png" EmptyString)]
           ++ mid ++ [EvSinkClose])%list /\
    (forall e, ~ In (EvUpdate e) pre) /\ (forall e, ~ In (EvUpdate e) mid) /\
    ~ In EvSinkClose pre /\ ~ In EvSinkClose mid /\
    (forall d, ~ In (EvWrite d) pre) /\ (forall c, ~ In (EvWriteHeader c) pre).
Proof.
  intros h req.
  split; [exact twoFilesUpload_goes_through|].
  exact (upload_finalizes_before_close Demo.ParseMediaType Cases.NewReader h req
           freshResponseWriter _ _ _ _ _ twoFilesUpload_goes_through).
Defined.

Lemma upload_sink_receives_parts_witness :
  let h := Demo.handler Demo.uploadStorage 1024 in
  let req := Cases.twoFilesUpload in
  uploadGoesThrough Demo.ParseMediaType Cases.NewReader h req
    "multipart/form-data" Demo.boundaryParams Demo.goodWriter
    (Demo.filePart "photo.png" "image/png" "PNGDATA")
    [inl (Demo.filePart "notes.txt" "text/plain" "hello")] /\
  wr_faults Demo.goodWriter = [] /\
  let out := Cases.upload h req in
  exists wr,
    sink (snd out) = Some wr /\
    wr_chunks wr = ["PNGDATA"; "hello"] /\
    wr_closed wr = 1%nat.
Proof.
  intros h req.
  split; [exact twoFilesUpload_goes_through|]. split; [reflexivity|].
  exact (upload_sink_receives_parts Demo.ParseMediaType Cases.NewReader h req
           freshResponseWriter _ _ _ _ _ twoFilesUpload_goes_through eq_refl).
Defined.

Lemma upload_closes_sink_exactly_once_witness :
  let h := Demo.handler Demo.uploadStorage 1024 in
  let req := Cases.truncatedUpload in
  uploadAcquiresSink Demo.ParseMediaType h req
    "multipart/form-data" Demo.boundaryParams Demo.goodWriter /\
  let out := Cases.upload h req in
  exists t, trace (snd out) = (t ++ [EvSinkClose])%list /\ ~ In EvSinkClose t.
Proof.
  intros h req.
  assert (H1 := uploadStorage_acquires_sink 1024 req eq_refl).
  split; [assumption|].
  exact (upload_closes_sink_exactly_once Demo.ParseMediaType Cases.NewReader h req
           freshResponseWriter _ _ _ H1).
Defined.

(* ===================================================================== *)
(** ** Further concrete runs of the download handler *)
(* ===================================================================== *)

Lemma get_not_found_404_witness :
  let h := Demo.handler (Cases.photoStorage Demo.photoReader) 1024 in
  let req := Cases.missingGet in
  dotStem (index (req_Vars req) "id") = Some "ffffff" /\
  LoadStorageEntry (Storage_ h) "ffffff" = (false, None, Demo.blankEntry EmptyString) /\
  let out := Demo.download h req in
  fst out = Normal tt /\
  rw_status (w (snd out)) = Some 404 /\
  rw_body (w (snd out)) = "404 page not found" ++ LF.
Proof.
  intros h req.
  assert (H1 : dotStem (index (req_Vars req) "id") = Some "ffffff") by run.
  assert (H2 : LoadStorageEntry (Storage_ h) "ffffff"
               = (false, None, Demo.blankEntry EmptyString)) by run.
  do 2 (split; [assumption|]).
  destruct (get_not_found_404 Demo.EqualFold h req freshResponseWriter _ _ H1 H2
              freshResponseWriter_untouched fresh_accepts)
    as (R1 & R2 & R3 & _).
  split; [exact R1|]. split; [exact R2 | exact R3].
Defined.

Lemma get_lookup_error_500_witness :
  let h := Demo.handler Cases.lookupFails 1024 in
  let req := Demo.photoGet in
  dotStem (index (req_Vars req) "id") = Some "a1b2c3" /\
  LoadStorageEntry (Storage_ h) "a1b2c3"
    = (false, Some (ErrorString "database is locked"), Demo.blankEntry EmptyString) /\
  let out := Demo.download h req in
  fst out = Panicking (PanicError (ErrorString "database is locked")) /\
  rw_status (w (snd out)) = Some 500 /\
  rw_body (w (snd out)) = internalErrorText.
Proof.
  intros h req.
  assert (H1 : dotStem (index (req_Vars req) "id") = Some "a1b2c3") by run.
  assert (H2 : LoadStorageEntry (Storage_ h) "a1b2c3"
               = (false, Some (ErrorString "database is locked"),
                  Demo.blankEntry EmptyString)) by run.
  do 2 (split; [assumption|]).
  destruct (get_lookup_error_500 Demo.EqualFold h req freshResponseWriter _ _ _ _ H1 H2
              freshResponseWriter_untouched fresh_accepts)
    as (R1 & R2 & R3 & _).
  split; [exact R1|]. split; [exact R2 | exact R3].
Defined.

Lemma get_dotless_id_no_call_witness :
  let h := Demo.handler (Cases.photoStorage Demo.photoReader) 1024 in
  let req := Demo.dotlessGet in
  dotStem (index (req_Vars req) "id") = None /\
  let out := Demo.download h req in
  fst out = Panicking sliceBoundsOutOfRange /\
  w (snd out) = afterOutgoing h req freshResponseWriter /\
  trace (snd out) = hookCalls h.
Proof.
  intros h req.
  assert (H1 : dotStem (index (req_Vars req) "id") = None) by run.
  split; [assumption|].
  exact (get_dotless_id_no_call Demo.EqualFold h req freshResponseWriter H1).
Defined.

Lemma photo_acquires_reader (size : Z) (reader : Reader) :
  getAcquiresReader (Demo.handler (Cases.photoStorage reader) size) Demo.photoGet
    "a1b2c3" Demo.photoEntry reader.
Proof.
  unfold getAcquiresReader.
  split; [run|]. split; [run|]. split; [vm_compute; discriminate | reflexivity].
Defined.

Lemma get_streams_what_is_read_witness :
  let h := Demo.handler (Cases.photoStorage Demo.photoReader) 1024 in
  let req := Demo.photoGet in
  getAcquiresReader h req "a1b2c3" Demo.photoEntry Demo.photoReader /\
  0 <= BufferSize h <= maxAlloc /\
  forallb (cleanRead (BufferSize h)) (rd_script Demo.photoReader) = true /\
  rw_faults (afterOutgoing h req freshResponseWriter) = [] /\
  let out := Demo.download h req in
  fst out = Normal tt /\
  rw_status (w (snd out)) = Some 200 /\
  rw_body (w (snd out)) = "PNGDATA" /\
  rw_sent (w (snd out)) !! "Content-Type" = Some ["Image/PNG"] /\
  rw_sent (w (snd out)) !! "Etag" = Some ["etag-1"].
Proof.
  intros h req.
  assert (H1 := photo_acquires_reader 1024 Demo.photoReader).
  assert (H2 : 0 <= BufferSize h <= maxAlloc) by (split; vm_compute; discriminate).
  assert (H3 : forallb (cleanRead (BufferSize h)) (rd_script Demo.photoReader) = true)
    by reflexivity.
  assert (H4 : rw_faults (afterOutgoing h req freshResponseWriter) = []) by reflexivity.
  do 4 (split; [assumption|]).
  destruct (get_streams_what_is_read Demo.EqualFold h req freshResponseWriter
              _ _ _ H1 H2 H3 freshResponseWriter_untouched H4)
    as (R1 & R2 & R3 & R4 & R5 & _).
  split; [exact R1|]. split; [exact R2|]. split; [exact R3|].
  split; [exact R4 | exact R5].
Defined.

Lemma get_read_error_after_status_witness :
  let h := Demo.handler (Cases.photoStorage Cases.failingReader) 1024 in
  let req := Demo.photoGet in
  getAcquiresReader h req "a1b2c3" Demo.photoEntry Cases.failingReader /\
  rd_script Cases.failingReader
    = ([("PNGD", None)] ++
       ("AT", Some (ErrorString "read: input/output error")) :: [])%list /\
  let out := Demo.download h req in
  fst out = Panicking (PanicError (ErrorString "read: input/output error")) /\
  rw_status (w (snd out)) = Some 200 /\
  rw_body (w (snd out)) = ("PNGD" ++ internalErrorText)%string.
Proof.
  intros h req.
  assert (H1 := photo_acquires_reader 1024 Cases.failingReader).
  assert (H2 : 0 <= BufferSize h <= maxAlloc) by (split; vm_compute; discriminate).
  assert (H3 : rd_script Cases.failingReader
               = ([("PNGD", None)] ++
                  ("AT", Some (ErrorString "read: input/output error")) :: [])%list)
    by reflexivity.
  assert (H4 : forallb (cleanRead (BufferSize h)) [("PNGD", None)] = true) by reflexivity.
  assert (H5 : rw_faults (afterOutgoing h req freshResponseWriter) = []) by reflexivity.
  do 2 (split; [assumption|]).
  destruct (get_read_error_after_status Demo.EqualFold h req freshResponseWriter
              _ _ _ _ _ _ _ H1 H2 H3 H4 freshResponseWriter_untouched H5)
    as (R1 & R2 & _ & R4).
  split; [exact R1|]. split; [exact R2 | exact R4].
Defined.

Lemma get_zero_buffer_empty_body_witness :
  let h := Demo.handler (Cases.photoStorage Demo.photoReader) 0 in
  let req := Demo.photoGet in
  getAcquiresReader h req "a1b2c3" Demo.photoEntry Demo.photoReader /\
  BufferSize h = 0 /\
  let out := Demo.download h req in
  fst out = Normal tt /\
  rw_status (w (snd out)) = Some 200 /\
  rw_body (w (snd out)) = EmptyString.
Proof.
  intros h req.
  assert (H1 := photo_acquires_reader 0 Demo.photoReader).
  assert (H2 : BufferSize h = 0) by reflexivity.
  assert (H3 : forall d m rest,
             rd_script Demo.photoReader <> (d, Some (ErrorString m)) :: rest).
  { intros d m rest. cbn. discriminate. }
  do 2 (split; [assumption|]).
  destruct (get_zero_buffer_empty_body Demo.EqualFold h req freshResponseWriter
              _ _ _ H1 H2 H3 freshResponseWriter_untouched)
    as (R1 & R2 & R3 & _).
  split; [exact R1|]. split; [exact R2 | exact R3].
Defined.

Lemma get_negative_buffer_panics_witness :
  let h := Demo.handler (Cases.photoStorage Demo.photoReader) (-1) in
  let req := Demo.photoGet in
  getAcquiresReader h req "a1b2c3" Demo.photoEntry Demo.photoReader /\
  BufferSize h < 0 /\
  let out := Demo.download h req in
  fst out = Panicking makesliceLenOutOfRange /\
  rw_status (w (snd out)) = Some 200 /\
  rw_body (w (snd out)) = EmptyString.
Proof.
  intros h req.
  assert (H1 := photo_acquires_reader (-1) Demo.photoReader).
  assert (H2 : BufferSize h < 0) by reflexivity.
  do 2 (split; [assumption|]).
  destruct (get_negative_buffer_panics Demo.EqualFold h req freshResponseWriter
              _ _ _ H1 H2 freshResponseWriter_untouched)
    as (R1 & R2 & R3 & _).
  split; [exact R1|]. split; [exact R2 | exact R3].
Defined.

Lemma get_oversized_buffer_panics_witness :
  let h := Demo.handler (Cases.photoStorage Demo.photoReader) (2 ^ 62) in
  let req := Demo.photoGet in
  getAcquiresReader h req "a1b2c3" Demo.photoEntry Demo.photoReader /\
  maxAlloc < BufferSize h /\
  let out := Demo.download h req in
  fst out = Panicking makesliceLenOutOfRange /\
  rw_status (w (snd out)) = Some 200 /\
  rw_body (w (snd out)) = EmptyString.
Proof.
  intros h req.
  assert (H1 := photo_acquires_reader (2 ^ 62) Demo.photoReader).
  assert (H2 : maxAlloc < BufferSize h) by reflexivity.
  do 2 (split; [assumption|]).
  destruct (get_oversized_buffer_panics Demo.EqualFold h req freshResponseWriter
              _ _ _ H1 H2 freshResponseWriter_untouched)
    as (R1 & R2 & R3 & _).
  split; [exact R1|]. split; [exact R2 | exact R3].
Defined.

Lemma get_reader_error_500_witness :
  let h := Demo.handler
             (Demo.downloadStorage Demo.photoEntry (inl (ErrorString "open: no such file")))
             1024 in
  let req := Demo.photoGet in
  dotStem (index (req_Vars req) "id") = Some "a1b2c3" /\
  LoadStorageEntry (Storage_ h) "a1b2c3" = (true, None, Demo.photoEntry) /\
  Header_Get (req_Header req) "If-None-Match" <> GetETagValue Demo.photoEntry /\
  GetReader (Storage_ h) Demo.photoEntry = inl (ErrorString "open: no such file") /\
  let out := Demo.download h req in
  fst out = Panicking (PanicError (ErrorString "open: no such file")) /\
  rw_status (w (snd out)) = Some 500 /\
  rw_body (w (snd out)) = internalErrorText /\
  rw_sent (w (snd out)) !! "Content-Disposition" = None.
Proof.
  intros h req.
  assert (H1 : dotStem (index (req_Vars req) "id") = Some "a1b2c3") by run.
  assert (H2 : LoadStorageEntry (Storage_ h) "a1b2c3" = (true, None, Demo.photoEntry))
    by run.
  assert (H3 : Header_Get (req_Header req) "If-None-Match" <> GetETagValue Demo.photoEntry)
    by (vm_compute; discriminate).
  assert (H4 : GetReader (Storage_ h) Demo.photoEntry
               = inl (ErrorString "open: no such file")) by run.
  do 4 (split; [assumption|]).
  destruct (get_reader_error_500 Demo.EqualFold h req freshResponseWriter _ _ _
              H1 H2 H3 H4 freshResponseWriter_untouched fresh_accepts)
    as (R1 & R2 & R3 & _ & _ & R6).
  split; [exact R1|]. split; [exact R2|]. split; [exact R3|].
  exact (eq_trans R6 eq_refl).
Defined.

Lemma get_client_write_error_witness :
  let h := Demo.handler (Cases.photoStorage Demo.photoReader) 1024 in
  let req := Demo.photoGet in
  getAcquiresReader h req "a1b2c3" Demo.photoEntry Demo.photoReader /\
  rw_untouched (afterOutgoing h req Cases.brokenPipe) /\
  rw_faults (afterOutgoing h req Cases.brokenPipe)
    = [Some (ErrorString "write: broken pipe")] /\
  let out := serve (handleGetRequest Demo.EqualFold h req) Cases.brokenPipe in
  fst out = Panicking (PanicError (ErrorString "write: broken pipe")) /\
  rw_status (w (snd out)) = Some 200 /\
  rw_body (w (snd out)) = EmptyString.
Proof.
  intros h req.
  assert (H1 := photo_acquires_reader 1024 Demo.photoReader).
  assert (H2 : 0 <= BufferSize h <= maxAlloc) by (split; vm_compute; discriminate).
  assert (H3 : rd_script Demo.photoReader = ("PNGD", None) :: [("ATA", None)])
    by reflexivity.
  assert (H4 : cleanRead (BufferSize h) ("PNGD", None) = true) by reflexivity.
  assert (H5 : rw_untouched (afterOutgoing h req Cases.brokenPipe))
    by (split; reflexivity).
  assert (H6 : rw_faults (afterOutgoing h req Cases.brokenPipe)
               = [Some (ErrorString "write: broken pipe")]) by reflexivity.
  split; [assumption|]. split; [assumption|]. split; [assumption|].
  destruct (get_client_write_error Demo.EqualFold h req Cases.brokenPipe
              _ _ _ _ _ _ _ _ H1 H2 H3 H4 H5 H6)
    as (R1 & R2 & R3 & _).
  split; [exact R1|]. split; [exact R2 | exact R3].
Defined.

Lemma get_looks_up_uploaded_id_witness :
  let up := Demo.handler Demo.uploadStorage 1024 in
  let photo := Demo.filePart "photo.png" "image/png" "PNGDATA" in
  uploadGoesThrough Demo.ParseMediaType Demo.NewReader up Demo.photoUpload
    "multipart/form-data" Demo.boundaryParams Demo.goodWriter photo [] /\
  dotSuffix (FileName photo) = Some ".png" /\
  (ProtocolHost up ++ index (req_Vars Demo.photoGet) "id")%string
    = rw_body (w (snd (Demo.upload up Demo.photoUpload))) /\
  exists calls,
    trace (snd (Demo.download up Demo.photoGet))
    = (hookCalls up ++ EvLoadStorageEntry "a1b2c3" :: calls)%list.
Proof.
  intros up photo.
  assert (H1 := photoUpload_goes_through 1024).
  assert (H2 : dotSuffix (FileName photo) = Some ".png") by reflexivity.
  assert (H3 : (ProtocolHost up ++ index (req_Vars Demo.photoGet) "id")%string
               = rw_body (w (snd (Demo.upload up Demo.photoUpload)))) by run.
  do 3 (split; [assumption|]).
  exact (get_looks_up_uploaded_id Demo.ParseMediaType Demo.NewReader Demo.EqualFold
           up Demo.photoUpload Demo.photoGet freshResponseWriter freshResponseWriter
           _ _ _ photo [] ".png" H1 H2 freshResponseWriter_untouched fresh_accepts H3).
Defined.

(* ===================================================================== *)
(** ** The hook, and the header block of a 304 answer *)
(* ===================================================================== *)

(** X22. In both handlers the hook [OutgoingFunction], when one is
    configured, is called exactly once and before every other call; the
    handlers never call it again, whatever path they take. *)
Theorem hook_runs_first_and_once
    (ParseMediaType : string -> error + (string * gmap string string))
    (multipart_NewReader : string -> string -> list (Part + error))
    (EqualFold : string -> string -> bool)
    (h : ShareXHandler) (req : Request) (w0 : ResponseWriter) :
  (exists calls,
     trace (snd (serve (handleUploadRequest ParseMediaType multipart_NewReader h req) w0))
     = (hookCalls h ++ calls)%list /\ ~ In EvOutgoing calls) /\
  (exists calls,
     trace (snd (serve (handleGetRequest EqualFold h req) w0))
     = (hookCalls h ++ calls)%list /\ ~ In EvOutgoing calls).
Proof.
  split.
  - unfold serve, handleUploadRequest.
    rewrite (bind_Normal _ _ _ _ _ (callOutgoingFunction_run _ _ _)).
    match goal with
    | |- exists calls, trace (snd (?body ?σ)) = _ /\ _ =>
        assert (He : emitsOnly notOutgoing body)
    end.
    { unfold w_WriteHeader.
      repeat match goal with
        | |- emitsOnly _ (match ?x with _ => _ end) => destruct x
        | |- emitsOnly _ (bind _ _) => apply emitsOnly_bind; [|intros ?]
        | |- emitsOnly _ (defer _ _) => apply emitsOnly_defer
        | |- emitsOnly _ (ret _) => apply emitsOnly_ret
        | |- emitsOnly _ (panic _) => apply emitsOnly_panic
        | |- emitsOnly _ (onResponse _) => apply emitsOnly_onResponse
        | |- emitsOnly _ (acquired _) => apply emitsOnly_acquired
        | |- emitsOnly _ writer_Close => apply emitsOnly_writer_Close; discriminate
        | |- emitsOnly _ (copyParts _ _) =>
            apply emitsOnly_copyParts_of; intros; discriminate
        | |- emitsOnly _ internalError =>
            apply emitsOnly_internalError; intros; discriminate
        | |- emitsOnly _ (http_Error _ _) =>
            apply emitsOnly_http_Error_at; intros; discriminate
        | |- emitsOnly _ (w_Write _) => apply emitsOnly_w_Write; discriminate
        | |- emitsOnly _ (emit _) => apply emitsOnly_emit; discriminate
        end. }
    match goal with
    | |- exists calls, trace (snd (?body ?σ)) = _ /\ _ =>
        destruct (He σ) as (post & -> & HF)
    end.
    exists post. cbn [trace app]. split; [reflexivity|].
    intros Hin. rewrite List.Forall_forall in HF. exact (HF _ Hin eq_refl).
  - unfold serve, handleGetRequest.
    rewrite (bind_Normal _ _ _ _ _ (callOutgoingFunction_run _ _ _)).
    match goal with
    | |- exists calls, trace (snd (?body ?σ)) = _ /\ _ =>
        assert (He : emitsOnly notOutgoing body)
    end.
    { unfold http_NotFound, w_Header_Set, w_WriteHeader.
      repeat match goal with
        | |- emitsOnly _ (match ?x with _ => _ end) => destruct x
        | |- emitsOnly _ (bind _ _) => apply emitsOnly_bind; [|intros ?]
        | |- emitsOnly _ (ret _) => apply emitsOnly_ret
        | |- emitsOnly _ (panic _) => apply emitsOnly_panic
        | |- emitsOnly _ (onResponse _) => apply emitsOnly_onResponse
        | |- emitsOnly _ (readLoop _ _) =>
            apply emitsOnly_readLoop_of; intros; discriminate
        | |- emitsOnly _ internalError =>
            apply emitsOnly_internalError; intros; discriminate
        | |- emitsOnly _ (http_Error _ _) =>
            apply emitsOnly_http_Error_at; intros; discriminate
        | |- emitsOnly _ (emit _) => apply emitsOnly_emit; discriminate
        end. }
    match goal with
    | |- exists calls, trace (snd (?body ?σ)) = _ /\ _ =>
        destruct (He σ) as (post & -> & HF)
    end.
    exists post. cbn [trace app]. split; [reflexivity|].
    intros Hin. rewrite List.Forall_forall in HF. exact (HF _ Hin eq_refl).
Qed.

(** X23. The 304 answer to a GET that holds the entry's ETag value goes
    out with the header fields the hook left and no other: the handler
    sets neither ETag nor Content-Type nor Content-Disposition on that
    path. *)
Theorem get_not_modified_sets_no_header (EqualFold : string -> string -> bool)
    (h : ShareXHandler) (req : Request) (w0 : ResponseWriter)
    (id : string) (entry : StorageEntry) :
  dotStem (index (req_Vars req) "id") = Some id ->
  LoadStorageEntry (Storage_ h) id = (true, None, entry) ->
  Header_Get (req_Header req) "If-None-Match" = GetETagValue entry ->
  rw_untouched (afterOutgoing h req w0) ->
  let out := serve (handleGetRequest EqualFold h req) w0 in
  rw_status (w (snd out)) = Some StatusNotModified /\
  rw_sent (w (snd out)) = rw_header (afterOutgoing h req w0) /\
  forall key value, ~ In (EvHeaderSet key value) (trace (snd out)).
Proof.
  intros Hid Hload Htag Hu out. subst out.
  rewrite (get_not_modified_run EqualFold h req w0 id entry Hid Hload Htag).
  cbn [snd w trace].
  destruct (rw_WriteHeader_untouched StatusNotModified _ Hu) as (Hs & _ & Hsent & _).
  split; [exact Hs|]. split; [exact Hsent|].
  intros key value Hin. unfold hookCalls in Hin.
  destruct (OutgoingFunction h); cbn in Hin; intuition discriminate.
Qed.

Lemma get_not_modified_sets_no_header_witness :
  let h := Demo.handler (Cases.photoStorage Demo.photoReader) 1024 in
  let req := Demo.conditionalGet in
  dotStem (index (req_Vars req) "id") = Some "a1b2c3" /\
  LoadStorageEntry (Storage_ h) "a1b2c3" = (true, None, Demo.photoEntry) /\
  Header_Get (req_Header req) "If-None-Match" = GetETagValue Demo.photoEntry /\
  let out := Demo.download h req in
  rw_status (w (snd out)) = Some 304 /\
  rw_sent (w (snd out)) = ∅ /\
  forall key value, ~ In (EvHeaderSet key value) (trace (snd out)).
Proof.
  intros h req.
  assert (H1 : dotStem (index (req_Vars req) "id") = Some "a1b2c3") by run.
  assert (H2 : LoadStorageEntry (Storage_ h) "a1b2c3" = (true, None, Demo.photoEntry))
    by run.
  assert (H3 : Header_Get (req_Header req) "If-None-Match" = GetETagValue Demo.photoEntry)
    by run.
  do 3 (split; [assumption|]).
  exact (get_not_modified_sets_no_header Demo.EqualFold h req freshResponseWriter
           _ _ H1 H2 H3 freshResponseWriter_untouched).
Defined.
